(** * Tacotron feature-prediction model: construction, loss and optimizer

    A shallow embedding of [tacotron/models/tacotron.py].  The Python
    methods [initialize], [add_loss], [add_optimizer] and
    [_learning_rate_decay] become functions in a state-and-exception monad
    over the attribute dictionary of the model object and the TensorFlow
    default graph.

    Conventions of the model.
    - The graph is read eagerly: building a tensor and evaluating it in a
      run are one step.  Float tensors on which this file computes itself
      (losses, learning rate, alignments) are given by their entries: real
      numbers, and the infinities and NaN where a division or a power of
      this file produces them.  Rounding, overflow and the sign of zero
      are outside the model.  The global step is an int32 tensor: its
      arithmetic wraps around.
    - A tensor or layer object produced by a collaborator whose code is not
      in this file (encoder, attention, decoder cell, helpers, postnet) is
      an uninterpreted call [PCall name args].
    - Numeric results of collaborators ([MaskedMSE], [GuidedAttention], the
      decoder step, ...) are parameters, gathered in [Collaborators]. *)

From Stdlib Require Import Reals Lra Lia ZArith.
From stdpp Require Import gmap strings list.

Open Scope R_scope.
Set Warnings "-register-all".

(** ** Python values and exceptions *)

Record HParams := {
  embedding_dim : Z;
  encoder_lstm_units : Z;
  tacotron_zoneout_rate : R;
  prenet_layers : list Z;
  tacotron_dropout_rate : R;
  attention_dim : Z;
  mask_encoder : bool;
  smoothing : bool;
  cumulative_weights : bool;
  decoder_layers : Z;
  decoder_lstm_units : Z;
  outputs_per_step : Z;
  num_lf0 : Z;
  num_mgc : Z;
  num_bap : Z;
  tacotron_teacher_forcing_mode : string;
  max_iters : nat;
  tacotron_swap_with_cpu : bool;
  mask_decoder : bool;
  max_text_length : nat;
  max_frame_num : nat;
  tacotron_reg_weight : R;
  tacotron_decay_learning_rate : bool;
  tacotron_decay_steps : Z;
  tacotron_decay_rate : R;
  tacotron_start_decay : Z;
  tacotron_initial_learning_rate : R;
  tacotron_final_learning_rate : R;
  tacotron_adam_beta1 : R;
  tacotron_adam_beta2 : R;
  tacotron_adam_epsilon : R;
  tacotron_clip_gradients : bool
}.

Inductive pyval :=
| PNone
| PBool (b : bool)
| PInt (z : Z)
| PFloat (x : R)
| PInf (negative : bool)
| PNaN
| PStr (s : string)
| PList (l : list pyval)
| PHParams (hp : HParams)
| PFeed (name : string)
| PCall (fn : string) (args : list pyval)
| POp (name : string).

Definition is_None (v : pyval) : bool :=
  match v with PNone => true | _ => false end.

(** Python exceptions.  [TFError] stands for the exception a TensorFlow
    call raises on a bad argument (a [ValueError] or a [TypeError],
    depending on the op).  [FuelExhausted] is no Python exception: it
    marks a run of an uncapped decoding loop that is cut off by the fuel
    of the model. *)
Inductive exception :=
| ValueError (msg : string)
| RuntimeError (msg : string)
| AssertionError
| UnboundLocalError (var : string)
| AttributeError (attr : string)
| TypeError (msg : string)
| TFError (msg : string)
| FuelExhausted.

Inductive outcome (A : Type) :=
| Ok (a : A)
| Raise (e : exception).
Arguments Ok {A} a.
Arguments Raise {A} e.

(** ** The TensorFlow default graph, as far as this file touches it *)

(** The graph holds far more than this record: every tensor operation of
    every method is a node of it.  The record keeps what the properties
    below speak about.
    [trainable_variables]: [tf.trainable_variables()], by name.
    [UPDATE_OPS]: the collection [tf.GraphKeys.UPDATE_OPS].
    [control_stack]: the [tf.control_dependencies] contexts that are open,
    the innermost first.
    [operations]: the training operation that [add_optimizer] builds, with
    the operations that must have run before it because of the control
    dependencies in force when it was built.  [apply_gradients] builds it
    from several nodes; they are one entry here, and the tensor operations
    of [add_loss], of the schedule and of [compute_gradients] have none.
    [decoder_steps_run]: a counter of the decoder-cell iterations run, kept
    to state how long decoding lasts. *)
Record tf_graph := {
  trainable_variables : list (string * pyval);
  UPDATE_OPS : list string;
  control_stack : list (list string);
  operations : list (string * list string);
  decoder_steps_run : nat
}.

(** ** The model object and the monad of its methods *)

Record state := {
  _hparams : HParams;
  attrs : gmap string pyval;
  graph : tf_graph
}.

Definition M (A : Type) : Type := state -> outcome A * state.

Definition ret {A} (a : A) : M A := fun s => (Ok a, s).

Definition bind {A B} (c : M A) (k : A -> M B) : M B :=
  fun s => match c s with
           | (Ok a, s') => k a s'
           | (Raise e, s') => (Raise e, s')
           end.

Definition raise {A} (e : exception) : M A := fun s => (Raise e, s).

Declare Scope py_scope.
Delimit Scope py_scope with py.
Notation "x <- c ;; k" := (bind c (fun x => k))
  (at level 100, c at next level, right associativity) : py_scope.
Notation "c ;; k" := (bind c (fun _ => k))
  (at level 100, right associativity) : py_scope.
Open Scope py_scope.

Definition when_raise (c : bool) (e : exception) : M unit :=
  if c then raise e else ret tt.

Definition py_assert (c : bool) : M unit := when_raise (negb c) AssertionError.

Definition hparams : M HParams := fun s => (Ok (_hparams s), s).

Definition getattr (name : string) : M pyval :=
  fun s => match attrs s !! name with
           | Some v => (Ok v, s)
           | None => (Raise (AttributeError name), s)
           end.

Definition setattr (name : string) (v : pyval) : M unit :=
  fun s => (Ok tt, {| _hparams := _hparams s;
                      attrs := <[name := v]> (attrs s);
                      graph := graph s |}).

Definition get_graph : M tf_graph := fun s => (Ok (graph s), s).

Definition put_graph (g : tf_graph) : M unit :=
  fun s => (Ok tt, {| _hparams := _hparams s; attrs := attrs s; graph := g |}).

Definition as_float (v : pyval) : M R :=
  match v with
  | PFloat x => ret x
  | PInt z => ret (IZR z)
  | _ => raise (TypeError "a number is required")
  end.

Definition as_int (v : pyval) : M Z :=
  match v with
  | PInt z => ret z
  | _ => raise (TypeError "an integer is required")
  end.

(** ** Float values

    An entry of a float tensor: a real number, an infinity or NaN. *)

Inductive tf_float :=
| Finite (x : R)
| PosInf
| NegInf
| NaN.

Definition of_float (f : tf_float) : pyval :=
  match f with
  | Finite x => PFloat x
  | PosInf => PInf false
  | NegInf => PInf true
  | NaN => PNaN
  end.

Definition as_tf_float (v : pyval) : M tf_float :=
  match v with
  | PFloat x => ret (Finite x)
  | PInt z => ret (Finite (IZR z))
  | PInf negative => ret (if negative then NegInf else PosInf)
  | PNaN => ret NaN
  | _ => raise (TypeError "a number is required")
  end.

(** [a + b] *)
Definition tf_add (a b : tf_float) : tf_float :=
  match a, b with
  | NaN, _ | _, NaN => NaN
  | Finite x, Finite y => Finite (x + y)
  | PosInf, NegInf | NegInf, PosInf => NaN
  | PosInf, _ | _, PosInf => PosInf
  | NegInf, _ | _, NegInf => NegInf
  end.

(** [a / b] for two real entries: a division by zero gives an infinity,
    and NaN for 0 / 0. *)
Definition tf_div (a b : R) : tf_float :=
  if Req_dec_T b 0 then
    if Req_dec_T a 0 then NaN
    else if Rlt_dec 0 a then PosInf else NegInf
  else Finite (a / b).

(** [a * q] for a real factor [a] *)
Definition tf_mul (a : R) (q : tf_float) : tf_float :=
  match q with
  | Finite b => Finite (a * b)
  | PosInf =>
      if Req_dec_T a 0 then NaN else if Rlt_dec 0 a then PosInf else NegInf
  | NegInf =>
      if Req_dec_T a 0 then NaN else if Rlt_dec 0 a then NegInf else PosInf
  | NaN => NaN
  end.

Definition is_integer (y : R) : bool :=
  if Req_dec_T (IZR (Int_part y)) y then true else false.

(** [tf.pow(x, p)] for a real base: the power function of C.  A zero
    exponent gives 1; a positive base the real power; a zero base 0 for a
    positive exponent and an infinity for a negative one; a negative base
    a real value for an integer exponent only. *)
Definition tf_pow (x : R) (p : tf_float) : tf_float :=
  match p with
  | Finite y =>
      if Req_dec_T y 0 then Finite 1
      else if Rlt_dec 0 x then Finite (Rpower x y)
      else if Req_dec_T x 0 then
        if Rlt_dec 0 y then Finite 0 else PosInf
      else if is_integer y then
        Finite ((if Z.even (Int_part y) then 1 else -1) * Rpower (- x) y)
      else NaN
  | PosInf =>
      if Rlt_dec (Rabs x) 1 then Finite 0
      else if Req_dec_T (Rabs x) 1 then Finite 1 else PosInf
  | NegInf =>
      if Rlt_dec (Rabs x) 1 then PosInf
      else if Req_dec_T (Rabs x) 1 then Finite 1 else Finite 0
  | NaN => if Req_dec_T x 1 then Finite 1 else NaN
  end.

(** [tf.maximum(x, y)] and [tf.minimum(x, y)] for a real [y]: a NaN in
    the first argument is the result. *)
Definition tf_maximum (x : tf_float) (y : R) : tf_float :=
  match x with
  | Finite a => Finite (Rmax a y)
  | PosInf => PosInf
  | NegInf => Finite y
  | NaN => NaN
  end.

Definition tf_minimum (x : tf_float) (y : R) : tf_float :=
  match x with
  | Finite a => Finite (Rmin a y)
  | PosInf => Finite y
  | NegInf => NegInf
  | NaN => NaN
  end.

(** ** int32 tensors *)

Definition int32 (z : Z) : Prop := (- 2 ^ 31 <= z < 2 ^ 31)%Z.

(** The value an int32 tensor holds for the integer [z]. *)
Definition wrap_int32 (z : Z) : Z := ((z + 2 ^ 31) mod 2 ^ 32 - 2 ^ 31)%Z.

(** [Tacotron(hparams)]: a fresh object in a given graph. *)
Definition Tacotron (hp : HParams) (g : tf_graph) : state :=
  {| _hparams := hp; attrs := ∅; graph := g |}.

(** ** TensorFlow primitives used by the optimizer *)

(** [tf.train.exponential_decay] with its default [staircase=False]:
    [learning_rate * decay_rate ^ (global_step / decay_steps)], the step
    and the window cast to the float type of the rate. *)
Definition exponential_decay (learning_rate : R) (global_step : Z)
    (decay_steps : Z) (decay_rate : R) : tf_float :=
  tf_mul learning_rate
    (tf_pow decay_rate (tf_div (IZR global_step) (IZR decay_steps))).

(** The control dependencies in force: those of the outermost context
    first. *)
Definition control_inputs_now (g : tf_graph) : list string :=
  concat (rev (control_stack g)).

(** Building an operation records the control dependencies in force.  An
    operation built from inputs that were built in the same context gets
    them through those inputs; the entry lists them all the same. *)
Definition create_op (name : string) : M pyval :=
  g <- get_graph ;;
  put_graph {| trainable_variables := trainable_variables g;
               UPDATE_OPS := UPDATE_OPS g;
               control_stack := control_stack g;
               operations := (name, control_inputs_now g) :: operations g;
               decoder_steps_run := decoder_steps_run g |} ;;
  ret (POp name).

Definition push_control (deps : list string) : M unit :=
  g <- get_graph ;;
  put_graph {| trainable_variables := trainable_variables g;
               UPDATE_OPS := UPDATE_OPS g;
               control_stack := deps :: control_stack g;
               operations := operations g;
               decoder_steps_run := decoder_steps_run g |}.

Definition pop_control : M unit :=
  g <- get_graph ;;
  put_graph {| trainable_variables := trainable_variables g;
               UPDATE_OPS := UPDATE_OPS g;
               control_stack := tail (control_stack g);
               operations := operations g;
               decoder_steps_run := decoder_steps_run g |}.

(** [with tf.control_dependencies(deps): body]; the context is left on
    normal exit and on an exception alike. *)
Definition with_control_dependencies {A} (deps : list string) (body : M A) : M A :=
  push_control deps ;;
  fun s => match body s with
           | (Ok a, s') => (pop_control ;; ret a) s'
           | (Raise e, s') => (pop_control ;; raise e) s'
           end.

Definition get_collection_UPDATE_OPS : M (list string) :=
  g <- get_graph ;; ret (UPDATE_OPS g).

(** ** [Tacotron._learning_rate_decay] *)

(** [global_step - hp.tacotron_start_decay] is a subtraction of int32
    tensors.  [hp.tacotron_start_decay] is taken to fit int32: TensorFlow
    refuses to build the constant otherwise. *)
Definition _learning_rate_decay (init_lr : R) (global_step : Z) : M tf_float :=
  hp <- hparams ;;
  ds <- getattr "decay_steps" ;;
  decay_steps <- as_int ds ;;
  dr <- getattr "decay_rate" ;;
  decay_rate <- as_float dr ;;
  let lr := exponential_decay init_lr
              (wrap_int32 (global_step - tacotron_start_decay hp))
              decay_steps decay_rate in
  ret (tf_minimum (tf_maximum lr (tacotron_final_learning_rate hp)) init_lr).

(** ** [Tacotron.add_optimizer] *)

Definition compute_gradients (optimizer loss : pyval) : M (pyval * pyval) :=
  g <- get_graph ;;
  match trainable_variables g with
  | [] => raise (ValueError "No variables to optimize.")
  | vs => ret (PCall "gradients" [optimizer; loss; PList (map snd vs)],
               PList (map snd vs))
  end.

(** [global_step] is the value of the int32 tensor of that name.  The
    loss is taken to depend on a trainable variable, as the loss that
    [add_loss] stores does through its regularization term: for a loss
    that no variable feeds [apply_gradients] raises, which the state of
    the model cannot tell. *)
Definition add_optimizer (global_step : Z) : M unit :=
  hp <- hparams ;;
  (if tacotron_decay_learning_rate hp then
     setattr "decay_steps" (PInt (tacotron_decay_steps hp)) ;;
     setattr "decay_rate" (PFloat (tacotron_decay_rate hp)) ;;
     lr <- _learning_rate_decay (tacotron_initial_learning_rate hp) global_step ;;
     setattr "learning_rate" (of_float lr)
   else
     setattr "learning_rate" (PFloat (tacotron_initial_learning_rate hp))) ;;
  learning_rate <- getattr "learning_rate" ;;
  let optimizer := PCall "tf.train.AdamOptimizer"
                     [learning_rate; PFloat (tacotron_adam_beta1 hp);
                      PFloat (tacotron_adam_beta2 hp);
                      PFloat (tacotron_adam_epsilon hp)] in
  loss <- getattr "loss" ;;
  gv <- compute_gradients optimizer loss ;;
  let gradients := fst gv in
  let variables := snd gv in
  setattr "gradients" gradients ;;
  let clipped_gradients :=
    if tacotron_clip_gradients hp
    then PCall "tf.clip_by_global_norm" [gradients; PFloat 1]
    else gradients in
  update_ops <- get_collection_UPDATE_OPS ;;
  with_control_dependencies update_ops
    (op <- create_op "optimizer/apply_gradients" ;;
     setattr "optimize" op).

(** The value of [self.learning_rate] once [add_optimizer] has run. *)
Definition learning_rate (s : state) (global_step : Z) : option pyval :=
  attrs (snd (add_optimizer global_step s)) !! "learning_rate".

(** ** Collaborators

    Code of the repository that this file calls but does not contain, and
    the numeric kernels of TensorFlow applied to tensors this file does
    not look into.  Every claim below holds for all collaborators. *)

Record Collaborators := {
  (** [len(symbols)] *)
  symbols_len : Z;
  (** trainable variables and normalization update operations that a
      layer constructor or call adds to the graph *)
  layer_variables : string -> list (string * pyval);
  layer_update_ops : string -> list string;
  (** [CustomDecoder.initialize()]: finished flag of the whole batch,
      first inputs, initial state *)
  decoder_initialize : pyval -> bool * pyval * pyval;
  (** [CustomDecoder.step(time, inputs, state)]: outputs, next state, next
      inputs, and whether the helper reports the whole batch finished *)
  decoder_step : pyval -> nat -> pyval -> pyval -> pyval * pyval * pyval * bool;
  (** entries of a float tensor of rank 3 *)
  entries : pyval -> list (list (list R));
  (** [modules.MaskedMSE], [modules.MaskedSigmoidCrossEntropy] *)
  MaskedMSE : pyval -> pyval -> pyval -> HParams -> R;
  MaskedSigmoidCrossEntropy : pyval -> pyval -> pyval -> HParams -> R;
  (** [modules.GuidedAttention(N, T)], by its entries *)
  GuidedAttention : nat -> nat -> nat -> nat -> R;
  (** [tf.reduce_mean(tf.abs(a - b))] *)
  reduce_mean_abs_diff : pyval -> pyval -> R;
  (** [tf.reduce_mean(tf.nn.sigmoid_cross_entropy_with_logits(labels, logits))] *)
  reduce_mean_sigmoid_cross_entropy : pyval -> pyval -> R;
  (** [tf.nn.l2_loss] *)
  l2_loss : pyval -> R
}.

(** A call into a collaborator: an uninterpreted result, and whatever
    variables and update operations the layer registers in the graph. *)
Definition collaborator (C : Collaborators) (fn : string) (args : list pyval) : M pyval :=
  g <- get_graph ;;
  put_graph {| trainable_variables := trainable_variables g ++ layer_variables C fn;
               UPDATE_OPS := UPDATE_OPS g ++ layer_update_ops C fn;
               control_stack := control_stack g;
               operations := operations g;
               decoder_steps_run := decoder_steps_run g |} ;;
  ret (PCall fn args).

(** [tf.get_variable] under the current variable scope.  A name collision
    on a second construction in the same graph is not modelled. *)
Definition tf_get_variable (scope name : string) (shape : list pyval) : M pyval :=
  g <- get_graph ;;
  let v := PCall "tf.get_variable" [PStr name; PList shape] in
  put_graph {| trainable_variables :=
                 trainable_variables g ++ [(scope +:+ "/" +:+ name +:+ ":0", v)];
               UPDATE_OPS := UPDATE_OPS g;
               control_stack := control_stack g;
               operations := operations g;
               decoder_steps_run := decoder_steps_run g |} ;;
  ret v.

(** A TensorFlow op refuses [None] where it needs a tensor. *)
Definition tensor_arg (op : string) (v : pyval) : M pyval :=
  if is_None v then raise (TFError op) else ret v.

Definition tf_expand_dims (v : pyval) (axis : Z) : M pyval :=
  t <- tensor_arg "tf.expand_dims: None values not supported" v ;;
  ret (PCall "tf.expand_dims" [t; PInt axis]).

Definition tf_concat (values : list pyval) (axis : Z) : M pyval :=
  if existsb is_None values
  then raise (TFError "tf.concat: None values not supported")
  else ret (PCall "tf.concat" [PList values; PInt axis]).

(** ** [tf.contrib.seq2seq.dynamic_decode]

    The while loop of the library: it runs [decoder.step] until the whole
    batch is finished; with [maximum_iterations] the finished flag is also
    forced once [time + 1 >= maximum_iterations], and the loop itself is
    capped.  Without a cap the loop need not end, hence the fuel.
    [impute_finished=False] and [swap_memory] do not change what the loop
    computes and are left out. *)

Definition count_decoder_step : M unit :=
  g <- get_graph ;;
  put_graph {| trainable_variables := trainable_variables g;
               UPDATE_OPS := UPDATE_OPS g;
               control_stack := control_stack g;
               operations := operations g;
               decoder_steps_run := S (decoder_steps_run g) |}.

Definition force_finished (maximum_iterations : option nat) (time : nat)
    (finished : bool) : bool :=
  match maximum_iterations with
  | Some m => finished || (m <=? time)%nat
  | None => finished
  end.

Definition loop_condition (maximum_iterations : option nat) (time : nat)
    (finished : bool) : bool :=
  negb finished &&
  match maximum_iterations with
  | Some m => (time <? m)%nat
  | None => true
  end.

Fixpoint decode_loop (C : Collaborators) (fuel : nat) (decoder : pyval)
    (maximum_iterations : option nat) (time : nat) (outputs : list pyval)
    (st inputs : pyval) (finished : bool) : M (list pyval * pyval) :=
  if loop_condition maximum_iterations time finished then
    match fuel with
    | O => raise FuelExhausted
    | S fuel' =>
        count_decoder_step ;;
        match decoder_step C decoder time inputs st with
        | (next_outputs, decoder_state, next_inputs, decoder_finished) =>
            let next_finished :=
              force_finished maximum_iterations (time + 1)
                (decoder_finished || finished) in
            decode_loop C fuel' decoder maximum_iterations (time + 1)
              (outputs ++ [next_outputs]) decoder_state next_inputs next_finished
        end
    end
  else ret (outputs, st).

Definition dynamic_decode (C : Collaborators) (fuel : nat) (decoder : pyval)
    (maximum_iterations : option nat) : M (pyval * pyval) :=
  match decoder_initialize C decoder with
  | (initial_finished, initial_inputs, initial_state) =>
      r <- decode_loop C fuel decoder maximum_iterations 0 []
             initial_state initial_inputs
             (force_finished maximum_iterations 0 initial_finished) ;;
      ret (PCall "stack" (fst r), snd r)
  end.

(** ** [Tacotron.initialize] *)

Record init_args := {
  inputs : pyval;
  input_lengths : pyval;
  lf0_targets : pyval;
  mgc_targets : pyval;
  bap_targets : pyval;
  stop_token_targets : pyval;
  targets_lengths : pyval;
  gta : bool;
  global_step : pyval;
  is_training : bool;
  is_evaluating : bool
}.

Definition initialize (C : Collaborators) (fuel : nat) (a : init_args) : M unit :=
  self_hparams <- hparams ;;
  when_raise (is_None (lf0_targets a) && negb (is_None (stop_token_targets a)))
    (ValueError "no lf0 targets were provided but token_targets were given") ;;
  when_raise (negb (is_None (lf0_targets a)) && is_None (stop_token_targets a)
              && negb (gta a))
    (ValueError "Mel targets are provided without corresponding token_targets") ;;
  when_raise (gta a && negb (is_None (mgc_targets a)))
    (ValueError "Linear spectrogram prediction is not supported in GTA mode!") ;;
  when_raise (is_training a && mask_decoder self_hparams
              && is_None (targets_lengths a))
    (RuntimeError "Model set to mask paddings but no targets lengths provided for the mask!") ;;
  when_raise (is_training a && is_evaluating a)
    (RuntimeError "Model can not be in training and evaluation modes at the same time!") ;;
  let batch_size := PCall "tf.shape[0]" [inputs a] in
  hp <- hparams ;;
  let target_depth := (num_lf0 hp + num_mgc hp + num_bap hp)%Z in
  py_assert (String.eqb (tacotron_teacher_forcing_mode hp) "constant"
             || String.eqb (tacotron_teacher_forcing_mode hp) "scheduled") ;;
  (if String.eqb (tacotron_teacher_forcing_mode hp) "scheduled" && is_training a
   then py_assert (negb (is_None (global_step a)))
   else ret tt) ;;
  embedding_table <- tf_get_variable "inference" "inputs_embedding"
                       [PInt (symbols_len C); PInt (embedding_dim hp)] ;;
  let embedded_inputs := PCall "tf.nn.embedding_lookup" [embedding_table; inputs a] in
  convolutions <- collaborator C "EncoderConvolutions"
                    [PBool (is_training a); PHParams hp;
                     PStr "encoder_convolutions"] ;;
  encoder_rnn <- collaborator C "EncoderRNN"
                   [PBool (is_training a); PInt (encoder_lstm_units hp);
                    PFloat (tacotron_zoneout_rate hp); PStr "encoder_LSTM"] ;;
  encoder_cell <- collaborator C "TacotronEncoderCell" [convolutions; encoder_rnn] ;;
  encoder_outputs <- collaborator C "TacotronEncoderCell.__call__"
                       [encoder_cell; embedded_inputs; input_lengths a] ;;
  let enc_conv_output_shape := PCall "conv_output_shape" [encoder_cell] in
  prenet <- collaborator C "Prenet"
              [PBool (is_training a); PList (map PInt (prenet_layers hp));
               PFloat (tacotron_dropout_rate hp); PStr "decoder_prenet"] ;;
  attention_mechanism <- collaborator C "LocationSensitiveAttention"
              [PInt (attention_dim hp); encoder_outputs; PHParams hp;
               PBool (is_training a); PBool (mask_encoder hp); input_lengths a;
               PBool (smoothing hp); PBool (cumulative_weights hp)] ;;
  decoder_lstm <- collaborator C "DecoderRNN"
              [PBool (is_training a); PInt (decoder_layers hp);
               PInt (decoder_lstm_units hp); PFloat (tacotron_zoneout_rate hp);
               PStr "decoder_lstm"] ;;
  frame_projection <- collaborator C "FrameProjection"
              [PInt (target_depth * outputs_per_step hp); PStr "mgc_transform"] ;;
  stop_projection <- collaborator C "StopProjection"
              [PBool (is_training a || is_evaluating a); PInt (outputs_per_step hp);
               PStr "stop_token_projection"] ;;
  decoder_cell <- collaborator C "TacotronDecoderCell"
              [prenet; attention_mechanism; decoder_lstm; frame_projection;
               stop_projection] ;;
  (if is_training a || is_evaluating a || gta a then
     lf0 <- tf_expand_dims (lf0_targets a) (-1) ;;
     decoder_targets <- tf_concat [lf0; mgc_targets a; bap_targets a] (-1) ;;
     helper <- collaborator C "TacoTrainingHelper"
                 [batch_size; decoder_targets; PInt target_depth; PHParams hp;
                  PBool (gta a); PBool (is_evaluating a); global_step a] ;;
     setattr "helper" helper
   else
     helper <- collaborator C "TacoTestHelper"
                 [batch_size; PInt target_depth; PHParams hp] ;;
     setattr "helper" helper) ;;
  decoder_init_state <- collaborator C "TacotronDecoderCell.zero_state"
                          [decoder_cell; batch_size] ;;
  let max_iters :=
    if negb (is_training a || is_evaluating a) then Some (max_iters hp) else None in
  self_helper <- getattr "helper" ;;
  decoded <- dynamic_decode C fuel
               (PCall "CustomDecoder" [decoder_cell; self_helper; decoder_init_state])
               max_iters ;;
  let frames_prediction := PCall "frames_prediction" [fst decoded] in
  let stop_token_prediction := PCall "stop_token_prediction" [fst decoded] in
  let final_decoder_state := snd decoded in
  let decoder_outputs :=
    PCall "tf.reshape" [frames_prediction;
                        PList [batch_size; PInt (-1); PInt target_depth]] in
  let stop_token_outputs :=
    PCall "tf.reshape" [stop_token_prediction; PList [batch_size; PInt (-1)]] in
  postnet <- collaborator C "Postnet"
               [PBool (is_training a); PHParams hp; PStr "postnet_convolutions"] ;;
  residual <- collaborator C "Postnet.__call__" [postnet; decoder_outputs] ;;
  residual_projection <- collaborator C "FrameProjection"
                           [PInt target_depth; PStr "postnet_projection"] ;;
  projected_residual <- collaborator C "FrameProjection.__call__"
                          [residual_projection; residual] ;;
  let final_outputs := PCall "tf.add" [decoder_outputs; projected_residual] in
  let lf0_outputs :=
    PCall "tf.squeeze"
      [PCall "tf.slice" [final_outputs; PList [PInt 0; PInt 0; PInt 0];
                         PList [PInt (-1); PInt (-1); PInt (num_lf0 hp)]];
       PInt (-1)] in
  let mgc_outputs :=
    PCall "tf.slice" [final_outputs; PList [PInt 0; PInt 0; PInt (num_lf0 hp)];
                      PList [PInt (-1); PInt (-1); PInt (num_mgc hp)]] in
  let bap_outputs :=
    PCall "tf.slice" [final_outputs;
                      PList [PInt 0; PInt 0; PInt (num_lf0 hp + num_mgc hp)];
                      PList [PInt (-1); PInt (-1); PInt (num_bap hp)]] in
  let alignments :=
    PCall "tf.transpose"
      [PCall "alignment_history.stack" [final_decoder_state];
       PList [PInt 1; PInt 2; PInt 0]] in
  (if is_training a then
     h <- getattr "helper" ;; setattr "ratio" (PCall "_ratio" [h])
   else ret tt) ;;
  setattr "inputs" (inputs a) ;;
  setattr "input_lengths" (input_lengths a) ;;
  setattr "decoder_outputs" decoder_outputs ;;
  setattr "final_outputs" final_outputs ;;
  setattr "alignments" alignments ;;
  setattr "stop_token_outputs" stop_token_outputs ;;
  setattr "stop_token_targets" (stop_token_targets a) ;;
  setattr "lf0_outputs" lf0_outputs ;;
  setattr "mgc_outputs" mgc_outputs ;;
  setattr "bap_outputs" bap_outputs ;;
  setattr "lf0_targets" (lf0_targets a) ;;
  setattr "mgc_targets" (mgc_targets a) ;;
  setattr "bap_targets" (bap_targets a) ;;
  setattr "targets_lengths" (targets_lengths a).

(** The [log(...)] lines that end [initialize] print shapes and change
    neither the object nor the graph; they have no counterpart here. *)

(** ** TensorFlow primitives on float tensors of rank 3, by entries *)

Definition width (mat : list (list R)) : nat :=
  match mat with
  | [] => O
  | row :: _ => length row
  end.

(** [tf.pad(t, [(0, 0), (0, N), (0, T)], mode="CONSTANT", constant_values=c)] *)
Definition tf_pad (t : list (list (list R))) (N T : nat) (c : R)
    : list (list (list R)) :=
  map (fun mat =>
         map (fun row => row ++ repeat c T) mat
         ++ repeat (repeat c (width mat + T)) N) t.

(** [t[:, :N, :T]] *)
Definition slice3 (t : list (list (list R))) (N T : nat) : list (list (list R)) :=
  map (fun mat => map (firstn T) (firstn N mat)) t.

Definition map3 (f : R -> R) (t : list (list (list R))) : list (list (list R)) :=
  map (map (map f)) t.

(** [tf.to_float(tf.not_equal(t, c))] *)
Definition not_equal_float (c : R) (t : list (list (list R))) : list (list (list R)) :=
  map3 (fun x => if Req_dec_T x c then 0 else 1) t.

Definition tf_abs (t : list (list (list R))) : list (list (list R)) :=
  map3 Rabs t.

(** [t * gts], the matrix [gts] broadcast along the batch axis *)
Definition mul_broadcast (t : list (list (list R))) (gts : nat -> nat -> R)
    : list (list (list R)) :=
  map (imap (fun i => imap (fun j x => x * gts i j))) t.

(** [t * u], entry by entry, for tensors of one shape *)
Definition mul3 (t u : list (list (list R))) : list (list (list R)) :=
  zip_with (zip_with (zip_with Rmult)) t u.

Definition sum_list (l : list R) : R := foldr Rplus 0 l.

Definition reduce_sum (t : list (list (list R))) : R :=
  sum_list (map (fun mat => sum_list (map sum_list mat)) t).

(** [tf.add_n]: the inputs must not be empty. *)
Definition tf_add_n (l : list R) : M R :=
  match l with
  | [] => raise (ValueError "inputs must be a list of at least one Tensor")
  | _ => ret (sum_list l)
  end.

(** Python's [sub in s] on strings *)
Fixpoint contains (sub s : string) : bool :=
  String.prefix sub s ||
  match s with
  | EmptyString => false
  | String _ rest => contains sub rest
  end.

(** The sentinel with which [add_loss] pads the alignments. *)
Definition sentinel : R := -1.

(** Lines 196-202 of [add_loss]: the guided-attention loss. *)
Definition guided_attention_loss (C : Collaborators) (N T : nat)
    (alignments : list (list (list R))) : tf_float :=
  let A := slice3 (tf_pad alignments N T sentinel) N T in
  let gts := GuidedAttention C N T in
  let attention_masks := not_equal_float sentinel A in
  let attention_loss := reduce_sum (mul3 (tf_abs (mul_broadcast A gts)) attention_masks) in
  tf_div attention_loss (reduce_sum attention_masks).

(** Reading a local variable that no executed statement has assigned. *)
Definition local {A} (name : string) (v : option A) : M A :=
  match v with
  | Some x => ret x
  | None => raise (UnboundLocalError name)
  end.

(** ** [Tacotron.add_loss] *)

Definition add_loss (C : Collaborators) : M unit :=
  hp <- hparams ;;
  lf0_targets <- getattr "lf0_targets" ;;
  lf0 <- tf_expand_dims lf0_targets (-1) ;;
  mgc_targets <- getattr "mgc_targets" ;;
  bap_targets <- getattr "bap_targets" ;;
  world_targets <- tf_concat [lf0; mgc_targets; bap_targets] (-1) ;;
  setattr "world_targets" world_targets ;;
  (* the locals [before_loss], [after_loss], [stop_token_loss] and
      [attention_loss] as the branch taken leaves them *)
  locals <-
    (if mask_decoder hp then
       world_targets <- getattr "world_targets" ;;
       decoder_outputs <- getattr "decoder_outputs" ;;
       targets_lengths <- getattr "targets_lengths" ;;
       let before_loss := MaskedMSE C world_targets decoder_outputs targets_lengths hp in
       final_outputs <- getattr "final_outputs" ;;
       let after_loss := MaskedMSE C world_targets final_outputs targets_lengths hp in
       stop_token_targets <- getattr "stop_token_targets" ;;
       stop_token_outputs <- getattr "stop_token_outputs" ;;
       let stop_token_loss :=
         MaskedSigmoidCrossEntropy C stop_token_targets stop_token_outputs
           targets_lengths hp in
       ret (before_loss, after_loss, stop_token_loss, @None tf_float)
     else
       let N := max_text_length hp in
       let T := max_frame_num hp in
       alignments <- getattr "alignments" ;;
       alignments <- tensor_arg "tf.pad: None values not supported" alignments ;;
       let attention_loss := guided_attention_loss C N T (entries C alignments) in
       world_targets <- getattr "world_targets" ;;
       decoder_outputs <- getattr "decoder_outputs" ;;
       decoder_outputs <- tensor_arg "tf.subtract: None values not supported" decoder_outputs ;;
       let before_loss := reduce_mean_abs_diff C world_targets decoder_outputs in
       final_outputs <- getattr "final_outputs" ;;
       final_outputs <- tensor_arg "tf.subtract: None values not supported" final_outputs ;;
       let after_loss := reduce_mean_abs_diff C world_targets final_outputs in
       stop_token_targets <- getattr "stop_token_targets" ;;
       stop_token_targets <- tensor_arg "labels: None values not supported" stop_token_targets ;;
       stop_token_outputs <- getattr "stop_token_outputs" ;;
       stop_token_outputs <- tensor_arg "logits: None values not supported" stop_token_outputs ;;
       let stop_token_loss :=
         reduce_mean_sigmoid_cross_entropy C stop_token_targets stop_token_outputs in
       ret (before_loss, after_loss, stop_token_loss, Some attention_loss)) ;;
  let before_loss := fst (fst (fst locals)) in
  let after_loss := snd (fst (fst locals)) in
  let stop_token_loss := snd (fst locals) in
  let attention_loss := snd locals in
  g <- get_graph ;;
  let all_vars := trainable_variables g in
  l2 <- tf_add_n
          (map (fun v => l2_loss C (snd v))
             (filter (fun v => negb (contains "bias" (fst v) || contains "Bias" (fst v)))
                all_vars)) ;;
  let regularization_loss := l2 * tacotron_reg_weight hp in
  setattr "before_loss" (PFloat before_loss) ;;
  setattr "after_loss" (PFloat after_loss) ;;
  setattr "stop_token_loss" (PFloat stop_token_loss) ;;
  setattr "regularization_loss" (PFloat regularization_loss) ;;
  attention_loss <- local "attention_loss" attention_loss ;;
  setattr "attention_loss" (of_float attention_loss) ;;
  self_before_loss <- (v <- getattr "before_loss" ;; as_tf_float v) ;;
  self_after_loss <- (v <- getattr "after_loss" ;; as_tf_float v) ;;
  self_stop_token_loss <- (v <- getattr "stop_token_loss" ;; as_tf_float v) ;;
  self_regularization_loss <- (v <- getattr "regularization_loss" ;; as_tf_float v) ;;
  self_attention_loss <- (v <- getattr "attention_loss" ;; as_tf_float v) ;;
  setattr "loss"
    (of_float
       (tf_add (tf_add (tf_add (tf_add self_before_loss self_after_loss)
                          self_stop_token_loss)
                  self_regularization_loss)
          self_attention_loss)).

(** ** Notions used to state the properties *)

(** The closed form of [_learning_rate_decay] at the values that
    [add_optimizer] stores in [self.decay_steps] and [self.decay_rate]. *)
Definition scheduled_rate (hp : HParams) (global_step : Z) : tf_float :=
  tf_minimum
    (tf_maximum
       (exponential_decay (tacotron_initial_learning_rate hp)
          (wrap_int32 (global_step - tacotron_start_decay hp))
          (tacotron_decay_steps hp) (tacotron_decay_rate hp))
       (tacotron_final_learning_rate hp))
    (tacotron_initial_learning_rate hp).

(** The schedule as a real function of the difference [k] between the
    global step and the warmup step.  It is what the code computes where
    the power is one of real numbers: for a positive decay rate and a
    decay window other than 0. *)
Definition rate_at (hp : HParams) (k : Z) : R :=
  Rmin
    (Rmax
       (tacotron_initial_learning_rate hp
        * Rpower (tacotron_decay_rate hp) (IZR k / IZR (tacotron_decay_steps hp)))
       (tacotron_final_learning_rate hp))
    (tacotron_initial_learning_rate hp).

Definition decayed_rate (hp : HParams) (global_step : Z) : R :=
  rate_at hp (global_step - tacotron_start_decay hp).

(** The difference between the global step and the warmup step fits
    int32: the subtraction does not wrap around. *)
Definition no_overflow (hp : HParams) (global_step : Z) : Prop :=
  int32 (global_step - tacotron_start_decay hp).

(** The schedule as the specification words it: the decayed value clipped
    from below by the floor, then from above by the initial rate. *)
Definition clip_below (lo x : R) : R := if Rlt_dec x lo then lo else x.
Definition clip_above (hi x : R) : R := if Rlt_dec hi x then hi else x.
Definition clip (x lo hi : R) : R := clip_above hi (clip_below lo x).

Definition spec_rate (hp : HParams) (step : Z) : R :=
  clip (tacotron_initial_learning_rate hp
        * Rpower (tacotron_decay_rate hp)
            ((IZR step - IZR (tacotron_start_decay hp))
             / IZR (tacotron_decay_steps hp)))
       (tacotron_final_learning_rate hp)
       (tacotron_initial_learning_rate hp).



(** The error of the fourth check of [initialize]. *)
Definition mask_lengths_error : exception :=
  RuntimeError "Model set to mask paddings but no targets lengths provided for the mask!".

(** [ValueError] and [RuntimeError] are what the checks of [initialize]
    raise on a bad configuration. *)
Definition configuration_error (e : exception) : Prop :=
  match e with
  | ValueError _ | RuntimeError _ => True
  | _ => False
  end.

(** None of the five checks and neither assertion of [initialize] fires. *)
Definition passes_checks (hp : HParams) (a : init_args) : bool :=
  negb (is_None (lf0_targets a) && negb (is_None (stop_token_targets a)))
  && negb (negb (is_None (lf0_targets a)) && is_None (stop_token_targets a)
           && negb (gta a))
  && negb (gta a && negb (is_None (mgc_targets a)))
  && negb (is_training a && mask_decoder hp && is_None (targets_lengths a))
  && negb (is_training a && is_evaluating a)
  && (String.eqb (tacotron_teacher_forcing_mode hp) "constant"
      || String.eqb (tacotron_teacher_forcing_mode hp) "scheduled")
  && (if String.eqb (tacotron_teacher_forcing_mode hp) "scheduled" && is_training a
      then negb (is_None (global_step a)) else true).

(** Decoder-cell iterations run so far. *)
Definition steps (s : state) : nat := decoder_steps_run (graph s).

Definition add_steps (n : nat) (s : state) : state :=
  {| _hparams := _hparams s;
     attrs := attrs s;
     graph := {| trainable_variables := trainable_variables (graph s);
                 UPDATE_OPS := UPDATE_OPS (graph s);
                 control_stack := control_stack (graph s);
                 operations := operations (graph s);
                 decoder_steps_run := n + decoder_steps_run (graph s) |} |}.

(** The stop condition never fires: the decoder never reports the batch
    finished, neither at the start nor after a step. *)
Definition never_finishes (C : Collaborators) : Prop :=
  (forall d, fst (fst (decoder_initialize C d)) = false) /\
  (forall d t i st, snd (decoder_step C d t i st) = false).

(** Control inputs recorded for an operation (the latest of that name). *)
Fixpoint control_inputs (ops : list (string * list string)) (op : string)
    : list string :=
  match ops with
  | [] => []
  | (name, deps) :: rest =>
      if String.eqb name op then deps else control_inputs rest op
  end.

(** A run executes operations one at a time; an operation may run only
    when all its control inputs have run. *)
Fixpoint run_respects (ops : list (string * list string)) (ran : list string)
    (schedule : list string) : Prop :=
  match schedule with
  | [] => True
  | op :: rest =>
      (forall d, In d (control_inputs ops op) -> In d ran)
      /\ run_respects ops (op :: ran) rest
  end.

Definition apply_gradients_op : string := "optimizer/apply_gradients".

(** An attribute that holds a tensor, not [None]. *)
Definition tensor_attr (s : state) (name : string) (v : pyval) : Prop :=
  attrs s !! name = Some v /\ is_None v = false.

(** The variables that enter the regularization term of [add_loss]. *)
Definition regularized (g : tf_graph) : list (string * pyval) :=
  filter (fun v => negb (contains "bias" (fst v) || contains "Bias" (fst v)))
    (trainable_variables g).

(** Alignments are probabilities. *)
Definition probabilities (t : list (list (list R))) : Prop :=
  Forall (Forall (Forall (fun x => 0 <= x <= 1))) t.

Definition mask (x : R) : R := if Req_dec_T x sentinel then 0 else 1.

(** Entry [b, i, j] of a tensor, where it has one. *)
Definition entry (t : list (list (list R))) (b i j : nat) : option R :=
  match t !! b with
  | Some mat =>
      match mat !! i with
      | Some row => row !! j
      | None => None
      end
  | None => None
  end.

Definition sum_over (n : nat) (f : nat -> R) : R := sum_list (map f (seq 0 n)).

Definition count_over (n : nat) (f : nat -> nat) : nat := list_sum (map f (seq 0 n)).

(** The guided-attention loss as the specification words it.  The valid
    entries are the genuine alignment entries at the positions of the
    N x T template: [valid_sum] adds them up, each weighted by the
    magnitude of its penalty, [valid_count] counts them, and the loss is
    the quotient of the two as floats (NaN where there is no valid entry). *)
Definition valid_sum (g : nat -> nat -> R) (N T : nat)
    (alignments : list (list (list R))) : R :=
  sum_over (length alignments) (fun b =>
    sum_over N (fun i =>
      sum_over T (fun j =>
        match entry alignments b i j with
        | Some x => x * Rabs (g i j)
        | None => 0
        end))).

Definition valid_count (N T : nat) (alignments : list (list (list R))) : nat :=
  count_over (length alignments) (fun b =>
    count_over N (fun i =>
      count_over T (fun j =>
        match entry alignments b i j with
        | Some _ => 1%nat
        | None => 0%nat
        end))).

Definition guided_attention_spec (C : Collaborators) (N T : nat)
    (alignments : list (list (list R))) : tf_float :=
  tf_div (valid_sum (GuidedAttention C N T) N T alignments)
    (INR (valid_count N T alignments)).

(** The same sum and count, read off the alignments cut to the template. *)
Definition weighted_entries (g : nat -> nat -> R) (mat : list (list R)) : R :=
  sum_list (imap (fun i row => sum_list (imap (fun j x => x * Rabs (g i j)) row)) mat).

(** One row of the masked product of [guided_attention_loss]. *)
Definition row_weighted (f : nat -> R) (row : list R) : R :=
  sum_list (zip_with Rmult (map Rabs (imap (fun j x => x * f j) row)) (map mask row)).

(** One batch element of the masked product, of the mask, and of the
    padded and truncated alignments. *)
Definition mat_weighted (g : nat -> nat -> R) (mat : list (list R)) : R :=
  sum_list (map sum_list
    (zip_with (zip_with Rmult)
       (map (map Rabs) (imap (fun i => imap (fun j x => x * g i j)) mat))
       (map (map mask) mat))).

Definition mat_mask (mat : list (list R)) : R :=
  sum_list (map sum_list (map (map mask) mat)).

Definition padded (mat : list (list R)) (N T W P Q : nat) : list (list R) :=
  map (firstn T) (firstn N (map (fun row => row ++ repeat sentinel Q) mat
                            ++ repeat (repeat sentinel W) P)).

(** ** Concrete inputs *)

Definition demo_hparams (mask decay : bool) (floor : R) (window : Z) : HParams :=
  {| embedding_dim := 4; encoder_lstm_units := 4; tacotron_zoneout_rate := 0;
     prenet_layers := [4%Z; 4%Z]; tacotron_dropout_rate := 0; attention_dim := 4;
     mask_encoder := false; smoothing := false; cumulative_weights := true;
     decoder_layers := 2; decoder_lstm_units := 4; outputs_per_step := 1;
     num_lf0 := 1; num_mgc := 2; num_bap := 1;
     tacotron_teacher_forcing_mode := "constant"; max_iters := 2;
     tacotron_swap_with_cpu := false; mask_decoder := mask;
     max_text_length := 2; max_frame_num := 2; tacotron_reg_weight := 0;
     tacotron_decay_learning_rate := decay; tacotron_decay_steps := window;
     tacotron_decay_rate := / 2; tacotron_start_decay := 0;
     tacotron_initial_learning_rate := 1; tacotron_final_learning_rate := floor;
     tacotron_adam_beta1 := 0; tacotron_adam_beta2 := 0;
     tacotron_adam_epsilon := 0; tacotron_clip_gradients := true |}.

Definition demo_collaborators : Collaborators :=
  {| symbols_len := 10;
     layer_variables := fun fn => [(fn +:+ "/kernel:0", PFeed fn)];
     layer_update_ops := fun _ => [];
     decoder_initialize := fun _ => (false, PFeed "go_frame", PFeed "zero_state");
     decoder_step := fun _ _ inp st => (inp, st, inp, false);
     entries := fun _ => [[[/ 2]]];
     MaskedMSE := fun _ _ _ _ => 0;
     MaskedSigmoidCrossEntropy := fun _ _ _ _ => 0;
     GuidedAttention := fun _ _ _ _ => 1;
     reduce_mean_abs_diff := fun _ _ => 0;
     reduce_mean_sigmoid_cross_entropy := fun _ _ => 0;
     l2_loss := fun _ => 0 |}.

Definition demo_graph : tf_graph :=
  {| trainable_variables := [("inference/inputs_embedding:0", PFeed "embedding")];
     UPDATE_OPS := ["batch_normalization/AssignMovingAvg"];
     control_stack := [];
     operations := [];
     decoder_steps_run := 0 |}.

Definition demo_args (targets stop lengths : bool) (gta training : bool) : init_args :=
  {| inputs := PFeed "inputs"; input_lengths := PFeed "input_lengths";
     lf0_targets := if targets then PFeed "lf0_targets" else PNone;
     mgc_targets := if targets && negb gta then PFeed "mgc_targets" else PNone;
     bap_targets := if targets then PFeed "bap_targets" else PNone;
     stop_token_targets := if stop then PFeed "stop_token_targets" else PNone;
     targets_lengths := if lengths then PFeed "targets_lengths" else PNone;
     gta := gta; global_step := PNone;
     is_training := training; is_evaluating := false |}.

(** A model object as a training-mode [initialize] leaves it. *)
Definition demo_initialized (mask : bool) : state :=
  {| _hparams := demo_hparams mask true 0 1;
     attrs := <["lf0_targets" := PFeed "lf0_targets"]>
              (<["mgc_targets" := PFeed "mgc_targets"]>
              (<["bap_targets" := PFeed "bap_targets"]>
              (<["decoder_outputs" := PFeed "decoder_outputs"]>
              (<["final_outputs" := PFeed "final_outputs"]>
              (<["targets_lengths" := PFeed "targets_lengths"]>
              (<["stop_token_targets" := PFeed "stop_token_targets"]>
              (<["stop_token_outputs" := PFeed "stop_token_outputs"]>
              (<["alignments" := PFeed "alignments"]> ∅))))))));
     graph := demo_graph |}.

(** A model object with a loss, as [add_loss] leaves it. *)
Definition demo_with_loss : state :=
  {| _hparams := demo_hparams false true 0 1;
     attrs := <["loss" := PFloat 0]> ∅;
     graph := demo_graph |}.

(** ** Notions used to state the further properties *)

(** What construction may do to the graph: add trainable variables and
    update operations after those already there, and leave the open
    control-dependency contexts as they are. *)
Definition graph_extended (g g' : tf_graph) : Prop :=
  trainable_variables g `prefix_of` trainable_variables g' /\
  UPDATE_OPS g `prefix_of` UPDATE_OPS g' /\
  control_stack g' = control_stack g.

(** The attributes that [initialize] assigns. *)
Definition initialize_fields : list string :=
  ["helper"; "ratio"; "inputs"; "input_lengths"; "decoder_outputs";
   "final_outputs"; "alignments"; "stop_token_outputs"; "stop_token_targets";
   "lf0_outputs"; "mgc_outputs"; "bap_outputs"; "lf0_targets"; "mgc_targets";
   "bap_targets"; "targets_lengths"].

(** The object [s'] that a call of [initialize] on [s] with arguments [a]
    leaves when it returns. *)
Definition initialize_post (a : init_args) (s s' : state) : Prop :=
  passes_checks (_hparams s) a = true /\
  gta a = false /\
  (exists v, In ("inference/inputs_embedding:0", v) (trainable_variables (graph s'))) /\
  attrs s' !! "inputs" = Some (inputs a) /\
  attrs s' !! "input_lengths" = Some (input_lengths a) /\
  attrs s' !! "lf0_targets" = Some (lf0_targets a) /\
  attrs s' !! "mgc_targets" = Some (mgc_targets a) /\
  attrs s' !! "bap_targets" = Some (bap_targets a) /\
  attrs s' !! "stop_token_targets" = Some (stop_token_targets a) /\
  attrs s' !! "targets_lengths" = Some (targets_lengths a) /\
  (forall name, In name ["decoder_outputs"; "final_outputs"; "alignments";
                         "stop_token_outputs"; "lf0_outputs"; "mgc_outputs";
                         "bap_outputs"] ->
     exists v, tensor_attr s' name v) /\
  (exists args,
     attrs s' !! "helper"
     = Some (PCall (if (is_training a || is_evaluating a)%bool
                    then "TacoTrainingHelper" else "TacoTestHelper") args)) /\
  ((is_training a || is_evaluating a)%bool = true ->
     gta a = false /\
     is_None (lf0_targets a) = false /\ is_None (mgc_targets a) = false /\
     is_None (bap_targets a) = false /\ is_None (stop_token_targets a) = false) /\
  (if is_training a
   then exists h, attrs s' !! "helper" = Some h /\
                  attrs s' !! "ratio" = Some (PCall "_ratio" [h])
   else attrs s' !! "ratio" = attrs s !! "ratio") /\
  (forall name, ~ In name initialize_fields -> attrs s' !! name = attrs s !! name).

(** State and next inputs of the decoder after [n] steps from [time]. *)
Fixpoint decoder_trace (C : Collaborators) (d : pyval) (n time : nat)
    (st inp : pyval) : pyval * pyval :=
  match n with
  | O => (st, inp)
  | S n' =>
      match decoder_step C d time inp st with
      | (_, st', inp', _) => decoder_trace C d n' (time + 1) st' inp'
      end
  end.

(** Whether the step taken at [time] from state and inputs [p] reports the
    batch finished. *)
Definition stop_fires (C : Collaborators) (d : pyval) (time : nat)
    (p : pyval * pyval) : bool :=
  snd (decoder_step C d time (snd p) (fst p)).

(** The step taken at [time + j] is the first to report the batch
    finished. *)
Definition first_stop (C : Collaborators) (d : pyval) (j time : nat)
    (st inp : pyval) : Prop :=
  (forall i, (i < j)%nat ->
     stop_fires C d (time + i) (decoder_trace C d i time st inp) = false) /\
  stop_fires C d (time + j) (decoder_trace C d j time st inp) = true.

(** Every decoder starts unfinished and first reports the batch finished
    in its step number [j], counting from 0. *)
Definition stops_at (C : Collaborators) (j : nat) : Prop :=
  forall d,
    fst (fst (decoder_initialize C d)) = false /\
    first_stop C d j 0 (snd (decoder_initialize C d))
      (snd (fst (decoder_initialize C d))).

(** Iterations of the decoding loop from [time] on, when the stop condition
    first fires in step [time + j] and the cap is [m]. *)
Definition iterations (m : option nat) (j time : nat) : nat :=
  match m with
  | None => (j + 1)%nat
  | Some k => Nat.min (j + 1) (k - time)
  end.

(** [self.world_targets], from the three targets. *)
Definition world_targets_of (lf0 mgc bap : pyval) : pyval :=
  PCall "tf.concat"
    [PList [PCall "tf.expand_dims" [lf0; PInt (-1)]; mgc; bap]; PInt (-1)].

(** The regularization term of [add_loss]. *)
Definition regularization_of (C : Collaborators) (s : state) : R :=
  sum_list (map (fun v => l2_loss C (snd v)) (regularized (graph s)))
  * tacotron_reg_weight (_hparams s).

(** The same model object in a graph whose trainable variables are [vs]. *)
Definition with_variables (vs : list (string * pyval)) (s : state) : state :=
  {| _hparams := _hparams s;
     attrs := attrs s;
     graph := {| trainable_variables := vs;
                 UPDATE_OPS := UPDATE_OPS (graph s);
                 control_stack := control_stack (graph s);
                 operations := operations (graph s);
                 decoder_steps_run := decoder_steps_run (graph s) |} |}.

(** The attributes that [add_loss] assigns. *)
Definition loss_fields : list string :=
  ["world_targets"; "before_loss"; "after_loss"; "stop_token_loss";
   "regularization_loss"; "attention_loss"; "loss"].

(** What [add_optimizer] stores before it asks for the loss. *)
Definition learning_rate_value (hp : HParams) (step : Z) : pyval :=
  if tacotron_decay_learning_rate hp
  then of_float (scheduled_rate hp step)
  else PFloat (tacotron_initial_learning_rate hp).

Definition rate_attributes (step : Z) (s : state) : gmap string pyval :=
  if tacotron_decay_learning_rate (_hparams s)
  then <["learning_rate" := learning_rate_value (_hparams s) step]>
       (<["decay_rate" := PFloat (tacotron_decay_rate (_hparams s))]>
       (<["decay_steps" := PInt (tacotron_decay_steps (_hparams s))]> (attrs s)))
  else <["learning_rate" := learning_rate_value (_hparams s) step]>
       (attrs s).

(** [self.gradients]: the gradients of the loss by the Adam optimizer at
    the stored learning rate, one for each trainable variable. *)
Definition gradients_of (hp : HParams) (step : Z) (loss : pyval)
    (vars : list (string * pyval)) : pyval :=
  PCall "gradients"
    [PCall "tf.train.AdamOptimizer"
       [learning_rate_value hp step; PFloat (tacotron_adam_beta1 hp);
        PFloat (tacotron_adam_beta2 hp); PFloat (tacotron_adam_epsilon hp)];
     loss; PList (map snd vars)].

(** The attributes that [add_optimizer] assigns. *)
Definition optimizer_fields : list string :=
  ["decay_steps"; "decay_rate"; "learning_rate"; "gradients"; "optimize"].

(** What a method that assigns only the attributes [fields] leaves as it
    found it: the hyperparameters, the trainable variables, the
    collection of update operations, the open control-dependency
    contexts, and every other attribute. *)
Definition frame_respected (fields : list string) (s s' : state) : Prop :=
  _hparams s' = _hparams s /\
  trainable_variables (graph s') = trainable_variables (graph s) /\
  UPDATE_OPS (graph s') = UPDATE_OPS (graph s) /\
  control_stack (graph s') = control_stack (graph s) /\
  forall name, ~ In name fields -> attrs s' !! name = attrs s !! name.

(** A computation that respects the frame from every state. *)
Definition frames {A} (fields : list string) (c : M A) : Prop :=
  forall s, frame_respected fields s (snd (c s)).

(** A rank-3 tensor of shape [B, N, T]. *)
Definition has_shape (t : list (list (list R))) (B N T : nat) : Prop :=
  length t = B /\
  Forall (fun mat => length mat = N /\ Forall (fun row => length row = T) mat) t.

(** ** Further concrete inputs *)

(** A decoder whose helper reports the batch finished in step [j], and
    layers that register an update operation each. *)
Definition demo_finishing (j : nat) : Collaborators :=
  {| symbols_len := symbols_len demo_collaborators;
     layer_variables := layer_variables demo_collaborators;
     layer_update_ops := fun fn => [fn +:+ "/update"];
     decoder_initialize := decoder_initialize demo_collaborators;
     decoder_step := fun _ time inp st => (inp, st, inp, (j <=? time)%nat);
     entries := entries demo_collaborators;
     MaskedMSE := MaskedMSE demo_collaborators;
     MaskedSigmoidCrossEntropy := MaskedSigmoidCrossEntropy demo_collaborators;
     GuidedAttention := GuidedAttention demo_collaborators;
     reduce_mean_abs_diff := reduce_mean_abs_diff demo_collaborators;
     reduce_mean_sigmoid_cross_entropy :=
       reduce_mean_sigmoid_cross_entropy demo_collaborators;
     l2_loss := l2_loss demo_collaborators |}.

Definition demo_fresh (mask : bool) : state :=
  Tacotron (demo_hparams mask true 0 1) demo_graph.

(** The object after a training-mode and after a free-synthesis call. *)
Definition demo_trained (mask : bool) : state :=
  snd (initialize (demo_finishing 0) 1 (demo_args true true true false true)
         (demo_fresh mask)).

Definition demo_synthesized : state :=
  snd (initialize (demo_finishing 0) 1 (demo_args false false false false false)
         (demo_fresh false)).

(** Arguments that ask for ground-truth-aligned mode and supply
    spectral-envelope targets, and arguments that ask for training and
    evaluation at once. *)
Definition demo_gta_with_mgc : init_args :=
  {| inputs := PFeed "inputs"; input_lengths := PFeed "input_lengths";
     lf0_targets := PFeed "lf0_targets"; mgc_targets := PFeed "mgc_targets";
     bap_targets := PFeed "bap_targets";
     stop_token_targets := PFeed "stop_token_targets";
     targets_lengths := PFeed "targets_lengths";
     gta := true; global_step := PNone;
     is_training := false; is_evaluating := false |}.


Definition with_teacher_forcing_mode (mode : string) (hp : HParams) : HParams :=
  {| embedding_dim := embedding_dim hp;
     encoder_lstm_units := encoder_lstm_units hp;
     tacotron_zoneout_rate := tacotron_zoneout_rate hp;
     prenet_layers := prenet_layers hp;
     tacotron_dropout_rate := tacotron_dropout_rate hp;
     attention_dim := attention_dim hp;
     mask_encoder := mask_encoder hp;
     smoothing := smoothing hp;
     cumulative_weights := cumulative_weights hp;
     decoder_layers := decoder_layers hp;
     decoder_lstm_units := decoder_lstm_units hp;
     outputs_per_step := outputs_per_step hp;
     num_lf0 := num_lf0 hp;
     num_mgc := num_mgc hp;
     num_bap := num_bap hp;
     tacotron_teacher_forcing_mode := mode;
     max_iters := max_iters hp;
     tacotron_swap_with_cpu := tacotron_swap_with_cpu hp;
     mask_decoder := mask_decoder hp;
     max_text_length := max_text_length hp;
     max_frame_num := max_frame_num hp;
     tacotron_reg_weight := tacotron_reg_weight hp;
     tacotron_decay_learning_rate := tacotron_decay_learning_rate hp;
     tacotron_decay_steps := tacotron_decay_steps hp;
     tacotron_decay_rate := tacotron_decay_rate hp;
     tacotron_start_decay := tacotron_start_decay hp;
     tacotron_initial_learning_rate := tacotron_initial_learning_rate hp;
     tacotron_final_learning_rate := tacotron_final_learning_rate hp;
     tacotron_adam_beta1 := tacotron_adam_beta1 hp;
     tacotron_adam_beta2 := tacotron_adam_beta2 hp;
     tacotron_adam_epsilon := tacotron_adam_epsilon hp;
     tacotron_clip_gradients := tacotron_clip_gradients hp |}.

Definition with_start_decay (start : Z) (hp : HParams) : HParams :=
  {| embedding_dim := embedding_dim hp;
     encoder_lstm_units := encoder_lstm_units hp;
     tacotron_zoneout_rate := tacotron_zoneout_rate hp;
     prenet_layers := prenet_layers hp;
     tacotron_dropout_rate := tacotron_dropout_rate hp;
     attention_dim := attention_dim hp;
     mask_encoder := mask_encoder hp;
     smoothing := smoothing hp;
     cumulative_weights := cumulative_weights hp;
     decoder_layers := decoder_layers hp;
     decoder_lstm_units := decoder_lstm_units hp;
     outputs_per_step := outputs_per_step hp;
     num_lf0 := num_lf0 hp;
     num_mgc := num_mgc hp;
     num_bap := num_bap hp;
     tacotron_teacher_forcing_mode := tacotron_teacher_forcing_mode hp;
     max_iters := max_iters hp;
     tacotron_swap_with_cpu := tacotron_swap_with_cpu hp;
     mask_decoder := mask_decoder hp;
     max_text_length := max_text_length hp;
     max_frame_num := max_frame_num hp;
     tacotron_reg_weight := tacotron_reg_weight hp;
     tacotron_decay_learning_rate := tacotron_decay_learning_rate hp;
     tacotron_decay_steps := tacotron_decay_steps hp;
     tacotron_decay_rate := tacotron_decay_rate hp;
     tacotron_start_decay := start;
     tacotron_initial_learning_rate := tacotron_initial_learning_rate hp;
     tacotron_final_learning_rate := tacotron_final_learning_rate hp;
     tacotron_adam_beta1 := tacotron_adam_beta1 hp;
     tacotron_adam_beta2 := tacotron_adam_beta2 hp;
     tacotron_adam_epsilon := tacotron_adam_epsilon hp;
     tacotron_clip_gradients := tacotron_clip_gradients hp |}.

(** Hyperparameters with decay enabled, decay rate 1/2 and initial rate
    1, for a floor, a decay window and a warmup step; and a fresh object
    with them. *)
Definition demo_schedule_hparams (floor : R) (window start : Z) : HParams :=
  with_start_decay start (demo_hparams false true floor window).

Definition demo_schedule (floor : R) (window start : Z) : state :=
  Tacotron (demo_schedule_hparams floor window start) demo_graph.

(** Arguments of an evaluation call with every target and no target
    lengths. *)
Definition demo_evaluating : init_args :=
  {| inputs := PFeed "inputs"; input_lengths := PFeed "input_lengths";
     lf0_targets := PFeed "lf0_targets"; mgc_targets := PFeed "mgc_targets";
     bap_targets := PFeed "bap_targets";
     stop_token_targets := PFeed "stop_token_targets";
     targets_lengths := PNone;
     gta := false; global_step := PNone;
     is_training := false; is_evaluating := true |}.

Definition demo_mode (mode : string) : state :=
  Tacotron (with_teacher_forcing_mode mode (demo_hparams false true 0 1)) demo_graph.

(** Alignments of one batch element, two text positions by two frames. *)
Definition demo_alignments : list (list (list R)) := [[[/ 2; 1]; [0; / 4]]].

(** * Properties *)

(** ** Running a method statement by statement *)

Lemma bind_ok {A B} (c : M A) (k : A -> M B) s a s' :
  c s = (Ok a, s') -> bind c k s = k a s'.
Proof. intros E. unfold bind. by rewrite E. Qed.

Lemma bind_raise {A B} (c : M A) (k : A -> M B) s e s' :
  c s = (Raise e, s') -> bind c k s = (Raise e, s').
Proof. intros E. unfold bind. by rewrite E. Qed.

Lemma bind_assoc {A B D} (c : M A) (k1 : A -> M B) (k : B -> M D) s :
  bind (bind c k1) k s = bind c (fun x => bind (k1 x) k) s.
Proof. unfold bind. by destruct (c s) as [[a|e] s']. Qed.

Lemma getattr_ok name s v : attrs s !! name = Some v -> getattr name s = (Ok v, s).
Proof. intros E. unfold getattr. by rewrite E. Qed.

Lemma getattr_raise name s :
  attrs s !! name = None -> getattr name s = (Raise (AttributeError name), s).
Proof. intros E. unfold getattr. by rewrite E. Qed.

Lemma tensor_arg_ok op v s : is_None v = false -> tensor_arg op v s = (Ok v, s).
Proof. intros E. unfold tensor_arg. by rewrite E. Qed.

Lemma tensor_arg_raise op v s :
  is_None v = true -> tensor_arg op v s = (Raise (TFError op), s).
Proof. intros E. unfold tensor_arg. by rewrite E. Qed.

Lemma tf_expand_dims_ok v axis s :
  is_None v = false ->
  tf_expand_dims v axis s = (Ok (PCall "tf.expand_dims" [v; PInt axis]), s).
Proof. intros E. unfold tf_expand_dims, tensor_arg. by rewrite E. Qed.

Lemma tf_expand_dims_raise v axis s :
  is_None v = true ->
  tf_expand_dims v axis s
  = (Raise (TFError "tf.expand_dims: None values not supported"), s).
Proof. intros E. unfold tf_expand_dims, tensor_arg. by rewrite E. Qed.

Lemma tf_concat_ok values axis s :
  existsb is_None values = false ->
  tf_concat values axis s = (Ok (PCall "tf.concat" [PList values; PInt axis]), s).
Proof. intros E. unfold tf_concat. by rewrite E. Qed.

Lemma tf_concat_raise values axis s :
  existsb is_None values = true ->
  tf_concat values axis s
  = (Raise (TFError "tf.concat: None values not supported"), s).
Proof. intros E. unfold tf_concat. by rewrite E. Qed.

Lemma as_tf_float_of_float f s : as_tf_float (of_float f) s = (Ok f, s).
Proof. by destruct f. Qed.

Ltac none_facts :=
  cbn [existsb is_None orb];
  repeat match goal with H : is_None _ = _ |- _ => rewrite H end;
  reflexivity.

Ltac tidy :=
  cbn beta iota zeta delta
    [_hparams attrs graph trainable_variables UPDATE_OPS control_stack
     operations decoder_steps_run fst snd negb andb orb is_None].

(** One statement of the method, run on the current state. *)
Ltac exec1 :=
  lazymatch goal with
  | |- context [bind (bind ?c ?k1) ?k ?s] => rewrite (bind_assoc c k1 k s)
  | |- context [bind (getattr ?n) ?k ?s] =>
      first [ rewrite (bind_ok (getattr n) k s _ s
                         (getattr_ok n s _ ltac:(by simplify_map_eq)))
            | rewrite (bind_raise (getattr n) k s _ s
                         (getattr_raise n s ltac:(by simplify_map_eq))) ]
  | |- context [bind (tensor_arg ?op ?v) ?k ?s] =>
      first [ rewrite (bind_ok _ k s _ _ (tensor_arg_ok op v s ltac:(none_facts)))
            | rewrite (bind_raise _ k s _ _
                         (tensor_arg_raise op v s ltac:(none_facts))) ]
  | |- context [bind (tf_expand_dims ?v ?ax) ?k ?s] =>
      first [ rewrite (bind_ok _ k s _ _
                         (tf_expand_dims_ok v ax s ltac:(none_facts)))
            | rewrite (bind_raise _ k s _ _
                         (tf_expand_dims_raise v ax s ltac:(none_facts))) ]
  | |- context [bind (tf_concat ?vs ?ax) ?k ?s] =>
      first [ rewrite (bind_ok _ k s _ _ (tf_concat_ok vs ax s ltac:(none_facts)))
            | rewrite (bind_raise _ k s _ _
                         (tf_concat_raise vs ax s ltac:(none_facts))) ]
  | |- context [bind (as_tf_float (of_float ?f)) ?k ?s] =>
      rewrite (bind_ok _ k s _ _ (as_tf_float_of_float f s))
  | |- context [bind ?c ?k ?s] =>
      first [ rewrite (bind_ok c k s _ _ eq_refl)
            | rewrite (bind_raise c k s _ _ eq_refl) ]
  end; tidy.

Ltac exec := repeat exec1.

Ltac raised := eexists _, _; split; [reflexivity | by simplify_map_eq].

Ltac case_attr s name :=
  destruct (attrs s !! name) eqn:?; exec; try raised.

Ltac case_none v :=
  destruct (is_None v) eqn:?; exec; try raised.

Ltac lookup_attr :=
  repeat (rewrite lookup_insert_ne by discriminate);
  first [apply lookup_insert_eq | reflexivity].

Ltac split_checks H :=
  unfold passes_checks in H;
  repeat match type of H with
         | (_ && _)%bool = true =>
             let H1 := fresh "Hc" in apply andb_true_iff in H as [H H1]
         end.

(** ** The definitions on small inputs *)

Example contains_bias : contains "bias" "decoder/dense/bias:0" = true.
Proof. reflexivity. Qed.

Example contains_kernel : contains "Bias" "decoder/dense/kernel:0" = false.
Proof. reflexivity. Qed.

Example regularized_demo :
  regularized
    {| trainable_variables := [("inference/inputs_embedding:0", PFeed "e");
                               ("inference/dense/bias:0", PFeed "b")];
       UPDATE_OPS := []; control_stack := []; operations := [];
       decoder_steps_run := 0 |}
  = [("inference/inputs_embedding:0", PFeed "e")].
Proof. reflexivity. Qed.

(** Two encoder steps and two decoder steps, cut to a 3 x 1 template: one
    row of padding is added, the second column is dropped. *)
Example pad_slice_demo :
  slice3 (tf_pad [[[/ 2; 1]; [0; / 4]]] 3 1 sentinel) 3 1
  = [[[/ 2]; [0]; [sentinel]]].
Proof. reflexivity. Qed.

Example decode_loop_demo :
  fst (decode_loop demo_collaborators 10 (PFeed "decoder") (Some 3%nat) 0 []
         (PFeed "state") (PFeed "frame") false
         (Tacotron (demo_hparams false true 0 1) demo_graph))
  = Ok ([PFeed "frame"; PFeed "frame"; PFeed "frame"], PFeed "state").
Proof. reflexivity. Qed.

Example initialize_demo_checks :
  passes_checks (demo_hparams true true 0 1) (demo_args true true true false true)
  = true.
Proof. reflexivity. Qed.

(** ** Floats and int32 *)

Lemma wrap_int32_id z : int32 z -> wrap_int32 z = z.
Proof. unfold int32, wrap_int32. intros H. rewrite Z.mod_small; lia. Qed.

Lemma tf_div_finite a b : b <> 0 -> tf_div a b = Finite (a / b).
Proof. intros H. unfold tf_div. by destruct Req_dec_T. Qed.

Lemma tf_div_by_zero a :
  tf_div a 0 = if Req_dec_T a 0 then NaN else if Rlt_dec 0 a then PosInf else NegInf.
Proof. unfold tf_div. by destruct (Req_dec_T 0 0). Qed.

Lemma tf_pow_finite x y : 0 < x -> tf_pow x (Finite y) = Finite (Rpower x y).
Proof.
  intros Hx. unfold tf_pow. destruct Req_dec_T as [->|]; [by rewrite Rpower_O|].
  by destruct Rlt_dec.
Qed.

Lemma exponential_decay_finite lr k ds d :
  0 < d -> ds <> 0%Z ->
  exponential_decay lr k ds d = Finite (lr * Rpower d (IZR k / IZR ds)).
Proof.
  intros Hd Hds. unfold exponential_decay.
  rewrite tf_div_finite by (by apply not_0_IZR). by rewrite tf_pow_finite.
Qed.

(** Where the power is one of real numbers the schedule is the real
    function [rate_at] of the wrapped difference, and [decayed_rate] where
    the difference does not wrap. *)
Lemma scheduled_rate_finite hp step :
  0 < tacotron_decay_rate hp -> tacotron_decay_steps hp <> 0%Z ->
  scheduled_rate hp step
  = Finite (rate_at hp (wrap_int32 (step - tacotron_start_decay hp))).
Proof.
  intros Hd Hds. unfold scheduled_rate. by rewrite exponential_decay_finite.
Qed.

Lemma scheduled_rate_decayed hp step :
  0 < tacotron_decay_rate hp -> tacotron_decay_steps hp <> 0%Z ->
  no_overflow hp step ->
  scheduled_rate hp step = Finite (decayed_rate hp step).
Proof.
  intros Hd Hds Hno. rewrite scheduled_rate_finite by done.
  unfold decayed_rate. by rewrite wrap_int32_id.
Qed.

(** ** What [add_optimizer] leaves, case by case *)

Lemma compute_gradients_ok optimizer loss s :
  trainable_variables (graph s) <> [] ->
  compute_gradients optimizer loss s
  = (Ok (PCall "gradients"
           [optimizer; loss; PList (map snd (trainable_variables (graph s)))],
         PList (map snd (trainable_variables (graph s)))), s).
Proof.
  intros H. unfold compute_gradients, bind, get_graph.
  by destruct (trainable_variables (graph s)).
Qed.

Lemma compute_gradients_raise optimizer loss s :
  trainable_variables (graph s) = [] ->
  compute_gradients optimizer loss s
  = (Raise (ValueError "No variables to optimize."), s).
Proof.
  intros H. unfold compute_gradients, bind, get_graph. by rewrite H.
Qed.

Lemma control_inputs_pushed {A} (deps : list A) (stack : list (list A)) :
  concat (rev (deps :: stack)) = concat (rev stack) ++ deps.
Proof. simpl. rewrite concat_app. simpl. by rewrite app_nil_r. Qed.

Lemma add_optimizer_state step s loss :
  attrs s !! "loss" = Some loss ->
  trainable_variables (graph s) <> [] ->
  add_optimizer step s
  = (Ok tt,
     {| _hparams := _hparams s;
        attrs := <["optimize" := POp apply_gradients_op]>
                 (<["gradients" := gradients_of (_hparams s) step loss
                                     (trainable_variables (graph s))]>
                 (rate_attributes step s));
        graph := {| trainable_variables := trainable_variables (graph s);
                    UPDATE_OPS := UPDATE_OPS (graph s);
                    control_stack := control_stack (graph s);
                    operations :=
                      (apply_gradients_op,
                       control_inputs_now (graph s) ++ UPDATE_OPS (graph s))
                      :: operations (graph s);
                    decoder_steps_run := decoder_steps_run (graph s) |} |}).
Proof.
  intros Hloss Hvars. unfold add_optimizer. exec1.
  unfold rate_attributes, gradients_of, learning_rate_value, scheduled_rate.
  destruct (tacotron_decay_learning_rate (_hparams s)) eqn:Hd;
    [unfold _learning_rate_decay|]; exec;
    match goal with
    | |- context [bind (compute_gradients ?o ?l) ?k ?s0] =>
        rewrite (bind_ok _ k s0 _ _ (compute_gradients_ok o l s0 Hvars))
    end; tidy; exec;
    unfold get_collection_UPDATE_OPS; exec;
    unfold with_control_dependencies, push_control; exec;
    unfold control_inputs_now; tidy; rewrite control_inputs_pushed;
    reflexivity.
Qed.

Lemma add_optimizer_without_loss_state step s :
  attrs s !! "loss" = None ->
  add_optimizer step s
  = (Raise (AttributeError "loss"),
     {| _hparams := _hparams s; attrs := rate_attributes step s;
        graph := graph s |}).
Proof.
  intros Hloss. unfold add_optimizer. exec1.
  unfold rate_attributes, learning_rate_value, scheduled_rate.
  destruct (tacotron_decay_learning_rate (_hparams s)) eqn:Hd;
    [unfold _learning_rate_decay|]; exec; reflexivity.
Qed.

Lemma add_optimizer_without_variables_state step s loss :
  attrs s !! "loss" = Some loss ->
  trainable_variables (graph s) = [] ->
  add_optimizer step s
  = (Raise (ValueError "No variables to optimize."),
     {| _hparams := _hparams s; attrs := rate_attributes step s;
        graph := graph s |}).
Proof.
  intros Hloss Hvars. unfold add_optimizer. exec1.
  unfold rate_attributes, learning_rate_value, scheduled_rate.
  destruct (tacotron_decay_learning_rate (_hparams s)) eqn:Hd;
    [unfold _learning_rate_decay|]; exec;
    match goal with
    | |- context [bind (compute_gradients ?o ?l) ?k ?s0] =>
        rewrite (bind_raise _ k s0 _ _ (compute_gradients_raise o l s0 Hvars))
    end; reflexivity.
Qed.

(** ** The learning rate *)

(** [self.learning_rate] is set before anything in [add_optimizer] can
    fail. *)
Lemma add_optimizer_rate step s :
  learning_rate s step = Some (learning_rate_value (_hparams s) step).
Proof.
  unfold learning_rate.
  destruct (attrs s !! "loss") as [loss|] eqn:Hloss.
  - destruct (trainable_variables (graph s)) as [|v vs] eqn:Hvars.
    + rewrite (add_optimizer_without_variables_state step s loss) by done.
      cbn [snd attrs]. unfold rate_attributes.
      destruct (tacotron_decay_learning_rate (_hparams s)); apply lookup_insert_eq.
    + rewrite (add_optimizer_state step s loss) by (by rewrite ?Hvars).
      cbn [snd attrs]. rewrite !lookup_insert_ne by discriminate.
      unfold rate_attributes.
      destruct (tacotron_decay_learning_rate (_hparams s)); apply lookup_insert_eq.
  - rewrite add_optimizer_without_loss_state by done.
    cbn [snd attrs]. unfold rate_attributes.
    destruct (tacotron_decay_learning_rate (_hparams s)); apply lookup_insert_eq.
Qed.

Lemma learning_rate_decay_on s step :
  tacotron_decay_learning_rate (_hparams s) = true ->
  learning_rate s step = Some (of_float (scheduled_rate (_hparams s) step)).
Proof.
  intros Hd. rewrite add_optimizer_rate. unfold learning_rate_value. by rewrite Hd.
Qed.

Lemma learning_rate_decay_off s step :
  tacotron_decay_learning_rate (_hparams s) = false ->
  learning_rate s step
  = Some (PFloat (tacotron_initial_learning_rate (_hparams s))).
Proof.
  intros Hd. rewrite add_optimizer_rate. unfold learning_rate_value. by rewrite Hd.
Qed.

(** With decay enabled, a positive decay rate and a decay window other
    than 0, the stored rate is a real number. *)
Lemma learning_rate_real s step :
  tacotron_decay_learning_rate (_hparams s) = true ->
  0 < tacotron_decay_rate (_hparams s) ->
  tacotron_decay_steps (_hparams s) <> 0%Z ->
  learning_rate s step
  = Some (PFloat (rate_at (_hparams s)
                    (wrap_int32 (step - tacotron_start_decay (_hparams s))))).
Proof.
  intros Hon Hd Hds. rewrite learning_rate_decay_on by done.
  by rewrite scheduled_rate_finite.
Qed.

Lemma learning_rate_decayed s step :
  tacotron_decay_learning_rate (_hparams s) = true ->
  0 < tacotron_decay_rate (_hparams s) ->
  tacotron_decay_steps (_hparams s) <> 0%Z ->
  no_overflow (_hparams s) step ->
  learning_rate s step = Some (PFloat (decayed_rate (_hparams s) step)).
Proof.
  intros Hon Hd Hds Hno. rewrite learning_rate_real by done.
  unfold decayed_rate. by rewrite wrap_int32_id.
Qed.

Lemma min_max_clip x lo hi : Rmin (Rmax x lo) hi = clip x lo hi.
Proof.
  unfold clip, clip_above, clip_below, Rmin, Rmax.
  repeat (destruct Rle_dec; try destruct Rlt_dec); try lra.
Qed.

(** With the floor at or below the ceiling, the order of the two
    clippings does not matter. *)
Lemma clip_order_irrelevant x lo hi :
  lo <= hi -> clip x lo hi = clip_below lo (clip_above hi x).
Proof.
  intros H. unfold clip, clip_above, clip_below.
  repeat destruct Rlt_dec; lra.
Qed.

Lemma decayed_rate_spec hp step : decayed_rate hp step = spec_rate hp step.
Proof.
  unfold decayed_rate, rate_at, spec_rate.
  rewrite min_max_clip, minus_IZR. reflexivity.
Qed.

Lemma ln_neg x : 0 < x < 1 -> ln x < 0.
Proof. intros [H0 H1]. rewrite <- ln_1. by apply ln_increasing. Qed.

Lemma Rpower_antitone d p q : 0 < d < 1 -> p <= q -> Rpower d q <= Rpower d p.
Proof.
  intros Hd Hpq. unfold Rpower. pose proof (ln_neg d Hd) as Hl.
  destruct (Req_dec p q) as [->|Hne]; [lra|].
  left. apply exp_increasing. nra.
Qed.

Lemma Rpower_pos d p : 0 < Rpower d p.
Proof. unfold Rpower. apply exp_pos. Qed.

Lemma Rpower_le_1 d p : 0 < d < 1 -> 0 <= p -> Rpower d p <= 1.
Proof.
  intros Hd Hp. pose proof (Rpower_antitone d 0 p Hd Hp) as H0.
  by rewrite Rpower_O in H0 by lra.
Qed.

Lemma Rpower_ge_1 d p : 0 < d < 1 -> p <= 0 -> 1 <= Rpower d p.
Proof.
  intros Hd Hp. pose proof (Rpower_antitone d p 0 Hd Hp) as H0.
  by rewrite Rpower_O in H0 by lra.
Qed.

Lemma Rpower_lt_1 d p : 0 < d < 1 -> 0 < p -> Rpower d p < 1.
Proof.
  intros Hd Hp. unfold Rpower. pose proof (ln_neg d Hd) as Hl.
  rewrite <- exp_0. apply exp_increasing. nra.
Qed.

Lemma Rpower_small d eps :
  0 < d < 1 -> 0 < eps -> forall p, ln eps / ln d < p -> Rpower d p < eps.
Proof.
  intros Hd He p Hp. pose proof (ln_neg d Hd) as Hl.
  unfold Rpower. pose proof (exp_ln eps He) as E. rewrite <- E.
  apply exp_increasing.
  assert (ln eps = (ln eps / ln d) * ln d) as -> by (field; lra).
  nra.
Qed.

(** The quotient of the difference by the window, by the sign of the
    window. *)
Lemma quotient_monotone (a b ds : Z) :
  (a <= b)%Z -> (0 < ds)%Z -> IZR a / IZR ds <= IZR b / IZR ds.
Proof.
  intros Hab Hds. assert (0 < IZR ds) by (by apply IZR_lt).
  apply Rmult_le_compat_r; [left; by apply Rinv_0_lt_compat|]. by apply IZR_le.
Qed.

Lemma quotient_antitone (a b ds : Z) :
  (a <= b)%Z -> (ds < 0)%Z -> IZR b / IZR ds <= IZR a / IZR ds.
Proof.
  intros Hab Hds. assert (IZR ds < 0) by (by apply IZR_lt).
  assert (/ IZR ds < 0) by (by apply Rinv_lt_0_compat).
  assert (IZR a <= IZR b) by (by apply IZR_le).
  unfold Rdiv. nra.
Qed.

Lemma quotient_sign (k ds : Z) :
  (0 <= k)%Z ->
  ((0 < ds)%Z -> 0 <= IZR k / IZR ds) /\ ((ds < 0)%Z -> IZR k / IZR ds <= 0).
Proof.
  intros Hk. split; intros Hds.
  - pose proof (quotient_monotone 0 k ds Hk Hds) as H.
    unfold Rdiv in H at 1. by rewrite Rmult_0_l in H.
  - pose proof (quotient_antitone 0 k ds Hk Hds) as H.
    unfold Rdiv in H at 2. by rewrite Rmult_0_l in H.
Qed.

Section Schedule.
Variable hp : HParams.
Let init := tacotron_initial_learning_rate hp.
Let floor := tacotron_final_learning_rate hp.
Let d := tacotron_decay_rate hp.
Let ds := tacotron_decay_steps hp.
Hypothesis Hd : 0 < d < 1.






End Schedule.

(** C3 as stated fails.  The global step and the warmup step are int32
    values and so is their difference.  With the warmup step -1, the
    non-negative step 2147483647 gives the difference -2147483648: the
    learning rate is the initial rate 1, where the formula gives
    (1/2)^2147483648, which is less than 1. *)
Lemma schedule_overflow_counterexample :
  tacotron_decay_learning_rate (demo_schedule_hparams 0 1 (-1)) = true /\
  (0 <= 2147483647)%Z /\
  learning_rate (demo_schedule 0 1 (-1)) 2147483647 = Some (PFloat 1) /\
  spec_rate (demo_schedule_hparams 0 1 (-1)) 2147483647 < 1.
Proof.
  split; [reflexivity|]. split; [lia|]. split.
  - rewrite learning_rate_real; [|reflexivity|simpl; lra|discriminate].
    do 2 f_equal.
    change (rate_at (demo_schedule_hparams 0 1 (-1)) (-2147483648) = 1).
    unfold rate_at. simpl.
    assert (1 <= Rpower (/ 2) (-2147483648 / 1)) by (apply Rpower_ge_1; lra).
    rewrite Rmax_left by lra. apply Rmin_right. lra.
  - rewrite <- decayed_rate_spec.
    change (rate_at (demo_schedule_hparams 0 1 (-1)) 2147483648 < 1).
    unfold rate_at. simpl.
    assert (Rpower (/ 2) (2147483648 / 1) < 1) by (apply Rpower_lt_1; lra).
    pose proof (Rpower_pos (/ 2) (2147483648 / 1)).
    rewrite Rmax_left by lra. rewrite Rmin_left by lra. lra.
Qed.

(** C3, amended.  With decay enabled, a positive decay rate and a decay
    window other than 0, at every global step such that the step, the
    warmup step and their difference fit int32, the learning rate that
    [add_optimizer] stores is
    clip(init_rate * decay_rate^((step - warmup)/decay_steps), floor_rate,
    init_rate): the exponentially decayed value clipped from below by the
    floor rate and from above by the initial rate. *)
Theorem learning_rate_is_clipped_decay (s : state) (step : Z) :
  tacotron_decay_learning_rate (_hparams s) = true ->
  0 < tacotron_decay_rate (_hparams s) ->
  tacotron_decay_steps (_hparams s) <> 0%Z ->
  int32 step ->
  int32 (tacotron_start_decay (_hparams s)) ->
  no_overflow (_hparams s) step ->
  learning_rate s step = Some (PFloat (spec_rate (_hparams s) step)).
Proof.
  intros Hon Hd Hds _ _ Hno. rewrite learning_rate_decayed by done.
  by rewrite decayed_rate_spec.
Qed.

Lemma learning_rate_is_clipped_decay_witness :
  learning_rate (Tacotron (demo_hparams false true 0 1) demo_graph) 5
  = Some (PFloat (spec_rate (demo_hparams false true 0 1) 5)).
Proof.
  apply (learning_rate_is_clipped_decay
           (Tacotron (demo_hparams false true 0 1) demo_graph) 5).
  - reflexivity.
  - simpl. lra.
  - simpl. lia.
  - unfold int32. lia.
  - unfold int32. simpl. lia.
  - unfold no_overflow, int32. simpl. lia.
Defined.

(** C10. With the decay toggle off, the learning rate that [add_optimizer]
    stores is the configured initial rate at every global step, whatever
    the warmup, decay window, decay rate and floor rate are. *)
Theorem learning_rate_constant_without_decay (s : state) (step : Z) :
  tacotron_decay_learning_rate (_hparams s) = false ->
  learning_rate s step
  = Some (PFloat (tacotron_initial_learning_rate (_hparams s))).
Proof. apply learning_rate_decay_off. Qed.

Lemma learning_rate_constant_without_decay_witness :
  learning_rate (Tacotron (demo_hparams false false 0 1) demo_graph) 7
  = Some (PFloat 1).
Proof.
  apply (learning_rate_constant_without_decay
           (Tacotron (demo_hparams false false 0 1) demo_graph) 7).
  reflexivity.
Defined.





(** ** Construction: the configuration checks *)

(** C2. When acoustic targets are supplied (the check reads the pitch
    targets) without stop-token targets, outside ground-truth-aligned
    mode, [initialize] raises the configuration error of its second check
    before anything is built: the object and the graph are left as they
    were, so no model field is set. *)
Theorem initialize_targets_without_stop_tokens
    (C : Collaborators) (fuel : nat) (a : init_args) (s : state) :
  is_None (lf0_targets a) = false ->
  is_None (stop_token_targets a) = true ->
  gta a = false ->
  initialize C fuel a s
  = (Raise (ValueError "Mel targets are provided without corresponding token_targets"),
     s).
Proof.
  intros H1 H2 H3. unfold initialize. rewrite H1, H2, H3. tidy. exec.
  reflexivity.
Qed.

Lemma initialize_targets_without_stop_tokens_witness :
  initialize demo_collaborators 3 (demo_args true false true false true)
    (Tacotron (demo_hparams true true 0 1) demo_graph)
  = (Raise (ValueError "Mel targets are provided without corresponding token_targets"),
     Tacotron (demo_hparams true true 0 1) demo_graph).
Proof.
  apply (initialize_targets_without_stop_tokens demo_collaborators 3
           (demo_args true false true false true)
           (Tacotron (demo_hparams true true 0 1) demo_graph));
    reflexivity.
Defined.

(** ** Construction: the decoding loop *)

Lemma add_steps_0 s : add_steps 0 s = s.
Proof. destruct s as [hp at_ [? ? ? ? ?]]. reflexivity. Qed.

Lemma add_steps_S n s :
  add_steps n (snd (count_decoder_step s)) = add_steps (S n) s.
Proof.
  unfold add_steps, count_decoder_step. simpl. do 2 f_equal. lia.
Qed.

(** With a cap of [k] and enough fuel the loop ends normally after at
    most [k - time] further steps, and after exactly that many when the
    decoder never reports the batch finished. *)
Lemma decode_loop_capped C k decoder fuel :
  forall time outs st inp fin s,
    (k <= time + fuel)%nat ->
    exists n r,
      decode_loop C fuel decoder (Some k) time outs st inp fin s
      = (Ok r, add_steps n s) /\
      (n <= k - time)%nat /\
      (never_finishes C -> (fin = true -> (k <= time)%nat) -> n = (k - time)%nat).
Proof.
  induction fuel as [|fuel IH]; intros time outs st inp fin s Hk.
  - exists O. eexists. simpl. unfold loop_condition.
    replace (time <? k)%nat with false by (symmetry; apply Nat.ltb_ge; lia).
    rewrite andb_false_r, add_steps_0. split; [reflexivity|]. split; lia.
  - simpl. unfold loop_condition.
    destruct (negb fin && (time <? k)%nat) eqn:Hc.
    + apply andb_true_iff in Hc as [Hf Ht]. apply Nat.ltb_lt in Ht.
      apply negb_true_iff in Hf. subst fin.
      unfold bind at 1.
      destruct (decoder_step C decoder time inp st) as [[[o st'] inp'] df] eqn:Hstep.
      change (count_decoder_step s) with (Ok tt, snd (count_decoder_step s)).
      destruct (IH (time + 1)%nat (outs ++ [o]) st' inp'
                  (force_finished (Some k) (time + 1) (df || false))
                  (snd (count_decoder_step s))) as (n & r & E & Hn & Hex); [lia|].
      unfold force_finished in *.
      exists (S n), r. rewrite E, add_steps_S. split; [reflexivity|].
      split; [lia|]. intros Hnf _.
      rewrite Hex; [lia|done|].
      destruct Hnf as [_ Hnf]. specialize (Hnf decoder time inp st).
      rewrite Hstep in Hnf. simpl in Hnf. subst df. simpl.
      intros Hle. apply Nat.leb_le in Hle. lia.
    + exists O. eexists. rewrite add_steps_0. split; [reflexivity|].
      split; [lia|]. intros _ Hfin.
      apply andb_false_iff in Hc as [Hc|Hc].
      * apply negb_false_iff in Hc. specialize (Hfin Hc). lia.
      * apply Nat.ltb_ge in Hc. lia.
Qed.

(** Without a cap, a decoder that never finishes uses up any fuel. *)
Lemma decode_loop_uncapped C decoder fuel :
  never_finishes C ->
  forall time outs st inp s,
    decode_loop C fuel decoder None time outs st inp false s
    = (Raise FuelExhausted, add_steps fuel s).
Proof.
  intros Hnf. induction fuel as [|fuel IH]; intros time outs st inp s.
  - simpl. by rewrite add_steps_0.
  - simpl. unfold bind at 1.
    change (count_decoder_step s) with (Ok tt, snd (count_decoder_step s)).
    destruct (decoder_step C decoder time inp st) as [[[o st'] inp'] df] eqn:Hstep.
    destruct Hnf as [? Hnf']. pose proof (Hnf' decoder time inp st) as Hdf.
    rewrite Hstep in Hdf. simpl in Hdf. subst df. simpl.
    rewrite IH. unfold add_steps. simpl. do 3 f_equal. lia.
Qed.

Lemma initialize_free_synthesis C fuel a s :
  is_training a = false -> is_evaluating a = false -> gta a = false ->
  passes_checks (_hparams s) a = true ->
  (max_iters (_hparams s) <= fuel)%nat ->
  exists s',
    initialize C fuel a s = (Ok tt, s') /\
    (steps s' <= steps s + max_iters (_hparams s))%nat /\
    (never_finishes C -> steps s' = (steps s + max_iters (_hparams s))%nat).
Proof.
  intros Ht He Hg Hc Hfuel. split_checks Hc.
  apply negb_true_iff in Hc, Hc2, Hc3, Hc4, Hc5.
  unfold initialize. exec1. rewrite Hc, Hc5, Hc4, Hc3, Hc2. exec.
  rewrite Hc1. exec. rewrite Ht, andb_false_r. exec.
  rewrite He, Hg. tidy. exec.
  unfold dynamic_decode.
  match goal with |- context [decoder_initialize C ?d] =>
    destruct (decoder_initialize C d) as [[fin0 inp0] st0] eqn:Hinit end.
  exec.
  match goal with
  | |- context [bind (decode_loop C fuel ?d ?m ?t ?o ?st ?i ?f) ?k ?s0] =>
      destruct (decode_loop_capped C (max_iters (_hparams s)) d fuel t o st i f s0)
        as (n & r & E & Hn & Hex); [simpl; lia|];
      rewrite (bind_ok _ k s0 _ _ E)
  end.
  unfold add_steps. tidy. exec.
  eexists. split; [reflexivity|]. unfold steps. tidy.
  split; [lia|]. intros Hnf. rewrite Hex; [lia|done|].
  destruct Hnf as [Hnf _].
  match type of Hinit with decoder_initialize C ?d = _ => specialize (Hnf d) end.
  rewrite Hinit in Hnf. simpl in Hnf. subst fin0. simpl.
  intros Hle. apply Nat.leb_le in Hle. lia.
Qed.

Lemma initialize_training_uncapped C fuel a s :
  (is_training a || is_evaluating a)%bool = true ->
  passes_checks (_hparams s) a = true ->
  is_None (lf0_targets a) = false ->
  is_None (mgc_targets a) = false ->
  is_None (bap_targets a) = false ->
  never_finishes C ->
  exists s',
    initialize C fuel a s = (Raise FuelExhausted, s') /\
    steps s' = (steps s + fuel)%nat.
Proof.
  intros Hte Hc Hl Hm Hb Hnf. split_checks Hc.
  apply negb_true_iff in Hc, Hc2, Hc3, Hc4, Hc5.
  unfold initialize. exec1. rewrite Hc, Hc5, Hc4, Hc3, Hc2. exec.
  rewrite Hc1. exec.
  destruct (_ && is_training a)%bool eqn:Hsched;
    try rewrite Hc0; exec; rewrite Hte; tidy; exec;
    unfold dynamic_decode;
    match goal with |- context [decoder_initialize C ?d] =>
      pose proof (proj1 Hnf d) as Hnf0;
      destruct (decoder_initialize C d) as [[fin0 inp0] st0] eqn:Hinit
    end;
    simpl in Hnf0; subst fin0; cbn [force_finished]; exec;
    match goal with
    | |- context [bind (decode_loop C fuel ?d None ?t ?o ?st ?i false) ?k ?s0] =>
        rewrite (bind_raise _ k s0 _ _
                   (decode_loop_uncapped C d fuel Hnf t o st i s0))
    end;
    eexists; (split; [reflexivity|]); unfold steps, add_steps; tidy; lia.
Qed.

Lemma demo_never_finishes : never_finishes demo_collaborators.
Proof. split; reflexivity. Qed.

(** ** Construction: every way a call can end *)

(** The decoding loop changes nothing but the count of decoder steps,
    and it fails only by running out of fuel. *)
Lemma decode_loop_frame C d m fuel :
  forall time outs st inp fin s,
    exists o n,
      decode_loop C fuel d m time outs st inp fin s = (o, add_steps n s) /\
      forall e, o = Raise e -> e = FuelExhausted.
Proof.
  induction fuel as [|fuel IH]; intros time outs st inp fin s; simpl.
  - destruct (loop_condition m time fin); eexists _, O;
      (split; [by rewrite add_steps_0|]); intros e [=]; done.
  - destruct (loop_condition m time fin).
    + unfold bind at 1.
      change (count_decoder_step s) with (Ok tt, snd (count_decoder_step s)).
      destruct (decoder_step C d time inp st) as [[[o st'] inp'] df].
      cbv iota beta.
      destruct (IH (time + 1)%nat (outs ++ [o]) st' inp'
                  (force_finished m (time + 1) (df || fin))
                  (snd (count_decoder_step s))) as (r & n & E & He).
      exists r, (S n). rewrite E. by rewrite add_steps_S.
    + eexists _, O; (split; [by rewrite add_steps_0|]); intros e [=].
Qed.

Ltac close_graph :=
  unfold graph_extended; cbn [trainable_variables UPDATE_OPS control_stack];
  repeat split; try reflexivity; repeat apply prefix_app_r; reflexivity.

Ltac other_error :=
  let H := fresh in
  intros H; unfold mask_lengths_error in H;
  first [discriminate H | assumption | reflexivity].

Ltac stop_raise :=
  eexists _, _; split; [reflexivity|]; split; [reflexivity|];
  split; [close_graph|]; split; [other_error | discriminate].

Ltac use_facts :=
  repeat match goal with
         | H : ?c = _ |- context [?c] => rewrite H
         end.

Ltac enter_decode C :=
  unfold dynamic_decode;
  match goal with
  | |- context [decoder_initialize C ?d] =>
      destruct (decoder_initialize C d) as [[fin0 inp0] st0]
  end;
  exec;
  match goal with
  | |- context [bind (decode_loop C ?fuel ?d ?m ?t ?o ?st ?i ?f) ?k ?s0] =>
      let E := fresh "E" in
      let He := fresh "He" in
      destruct (decode_loop_frame C d m fuel t o st i f s0)
        as ([r|e] & n & E & He);
      [rewrite (bind_ok _ k s0 _ _ E)
      |rewrite (bind_raise _ k s0 _ _ E); rewrite (He e eq_refl)]
  end;
  unfold add_steps; tidy.

(** Every call of [initialize], however it ends, keeps the
    hyperparameters and only extends the graph; the error of the fourth
    check is raised by that check only; a call that returns leaves the
    object described by [initialize_post]. *)
Lemma initialize_outcome C fuel a s :
  exists o s',
    initialize C fuel a s = (o, s') /\
    _hparams s' = _hparams s /\
    graph_extended (graph s) (graph s') /\
    (o = Raise mask_lengths_error ->
     (is_training a && mask_decoder (_hparams s)
      && is_None (targets_lengths a))%bool = true) /\
    (o = Ok tt -> initialize_post a s s').
Proof.
  unfold initialize. exec1.
  do 5 (lazymatch goal with
        | |- context [bind (when_raise ?c _) _ _] => destruct c eqn:?
        end; exec; [stop_raise|]).
  lazymatch goal with
  | |- context [bind (py_assert ?c) _ _] => destruct c eqn:Hmode
  end; exec; [|stop_raise].
  lazymatch goal with
  | |- context [bind (if ?c then _ else _) _ _] => destruct c eqn:Hsched
  end; [destruct (is_None (global_step a)) eqn:Hgs|]; exec; [stop_raise| |];
  (assert (passes_checks (_hparams s) a = true) as Hpass
     by (unfold passes_checks; use_facts; reflexivity));
  (destruct (is_training a || is_evaluating a || gta a)%bool eqn:Hhelper;
   [ destruct (is_None (lf0_targets a)) eqn:Hlf0; exec; [stop_raise|];
     destruct (is_None (mgc_targets a)) eqn:Hmgc;
       [exec; stop_raise|];
     destruct (is_None (bap_targets a)) eqn:Hbap;
       [exec; stop_raise|]; exec
   | exec ]);
  (enter_decode C; [|stop_raise]).
  all: destruct (is_training a) eqn:Htrain; cbn [orb] in Hhelper;
       try discriminate Hhelper; exec.
  all: eexists _, _; split; [reflexivity|]; split; [reflexivity|];
       split; [close_graph|]; split; [discriminate|]; intros _.
  all: repeat match goal with H : decode_loop _ _ _ _ _ _ _ _ _ _ = _ |- _ => clear H end.
  all: unfold initialize_post; rewrite !Htrain;
       cbn [attrs graph trainable_variables _hparams].
  all: split; [exact Hpass|].
  all: split; [destruct (is_evaluating a), (gta a);
               cbn [andb orb negb] in *; try discriminate; reflexivity|].
  all: split; [eexists; rewrite <- !app_assoc; apply in_or_app; right; left; reflexivity|].
  all: do 7 (split; [lookup_attr|]).
  all: split; [intros name Hin; cbn [In] in Hin;
               repeat (destruct Hin as [<-|Hin];
                       [eexists; split; [cbn [attrs]; lookup_attr|reflexivity]|]);
               destruct Hin|].
  all: split; [destruct (is_evaluating a), (gta a);
               cbn [andb orb negb] in *; try discriminate;
               eexists; lookup_attr|].
  all: split; [intros Hte;
               destruct (is_evaluating a), (gta a), (is_None (stop_token_targets a));
               cbn [andb orb negb] in *; try discriminate; by repeat split|].
  all: split; [first [eexists; split; lookup_attr | lookup_attr]|].
  all: intros name Hn; unfold initialize_fields in Hn; cbn [In] in Hn.
  all: rewrite !lookup_insert_ne by (intros <-; tauto); reflexivity.
Qed.

Lemma initialize_ok_post C fuel a s s' :
  initialize C fuel a s = (Ok tt, s') ->
  _hparams s' = _hparams s /\ graph_extended (graph s) (graph s') /\
  initialize_post a s s'.
Proof.
  intros H.
  destruct (initialize_outcome C fuel a s) as (o & s1 & E & Hh & Hg & _ & Hp).
  rewrite E in H. injection H as -> ->. auto.
Qed.

(** C5 as stated fails: a free-synthesis call with length-masking enabled
    and no target lengths builds the model. *)
Lemma synthesis_without_lengths_builds :
  mask_decoder (demo_hparams true true 0 1) = true /\
  is_None (targets_lengths (demo_args false false false false false)) = true /\
  exists s',
    initialize demo_collaborators 2 (demo_args false false false false false)
      (Tacotron (demo_hparams true true 0 1) demo_graph)
    = (Ok tt, s').
Proof.
  split; [reflexivity|]. split; [reflexivity|].
  destruct (initialize_free_synthesis demo_collaborators 2
              (demo_args false false false false false)
              (Tacotron (demo_hparams true true 0 1) demo_graph))
    as (s' & E & _); try reflexivity.
  by exists s'.
Qed.

(** An evaluation call with length-masking enabled and no target lengths
    builds the model as well. *)
Example evaluation_without_lengths_builds :
  mask_decoder (_hparams (demo_fresh true)) = true /\
  is_None (targets_lengths demo_evaluating) = true /\
  fst (initialize (demo_finishing 0) 1 demo_evaluating (demo_fresh true)) = Ok tt.
Proof. repeat split. Qed.

(** C5, amended.  In training mode, when length-masking of the decoder
    loss is enabled and per-example target lengths are not supplied,
    [initialize] raises a configuration error and leaves the object as it
    was.  Outside training mode the check is not made: in evaluation, in
    ground-truth-aligned mode and in free synthesis alike, whatever the
    masking toggle and the target lengths are, [initialize] does not end
    in the error of that check. *)
Theorem training_mask_without_lengths
    (C : Collaborators) (fuel : nat) (a : init_args) (s : state) :
  (is_training a = true ->
   mask_decoder (_hparams s) = true ->
   is_None (targets_lengths a) = true ->
   exists e, initialize C fuel a s = (Raise e, s) /\ configuration_error e) /\
  (is_training a = false ->
   fst (initialize C fuel a s) <> Raise mask_lengths_error).
Proof.
  split.
  - intros H1 H2 H3. unfold initialize. exec1. rewrite H1, H2, H3.
    destruct (is_None (lf0_targets a)), (is_None (stop_token_targets a)),
      (gta a), (is_None (mgc_targets a)); tidy; exec;
      (eexists; split; [reflexivity | exact I]).
  - intros Ht.
    destruct (initialize_outcome C fuel a s) as (o & s' & E & _ & _ & Hm & _).
    rewrite E. cbn [fst]. intros ->. specialize (Hm eq_refl).
    rewrite Ht in Hm. discriminate Hm.
Qed.

Lemma training_mask_without_lengths_witness :
  (exists e,
     initialize demo_collaborators 3 (demo_args true true false false true)
       (Tacotron (demo_hparams true true 0 1) demo_graph)
     = (Raise e, Tacotron (demo_hparams true true 0 1) demo_graph)
     /\ configuration_error e) /\
  fst (initialize (demo_finishing 0) 1 demo_evaluating (demo_fresh true))
  <> Raise mask_lengths_error.
Proof.
  split.
  - apply (proj1 (training_mask_without_lengths demo_collaborators 3
                    (demo_args true true false false true)
                    (Tacotron (demo_hparams true true 0 1) demo_graph)));
      reflexivity.
  - apply (proj2 (training_mask_without_lengths (demo_finishing 0) 1
                    demo_evaluating (demo_fresh true))).
    reflexivity.
Defined.

(** C6. The iteration cap reaches the decoding loop exactly outside
    training and evaluation.  In free synthesis with enough fuel
    [initialize] returns, having run at most [max_iters] decoder-cell
    iterations, and exactly [max_iters] when the stop condition never
    fires.  In training or evaluation no cap is supplied: a decoder that
    never finishes runs for as long as the fuel lasts, whatever
    [max_iters] is. *)
Theorem max_iterations_only_outside_training
    (C : Collaborators) (fuel : nat) (a : init_args) (s : state) :
  passes_checks (_hparams s) a = true ->
  (is_training a = false -> is_evaluating a = false -> gta a = false ->
   (max_iters (_hparams s) <= fuel)%nat ->
   exists s',
     initialize C fuel a s = (Ok tt, s') /\
     (steps s' <= steps s + max_iters (_hparams s))%nat /\
     (never_finishes C -> steps s' = (steps s + max_iters (_hparams s))%nat))
  /\
  ((is_training a || is_evaluating a)%bool = true ->
   is_None (lf0_targets a) = false ->
   is_None (mgc_targets a) = false ->
   is_None (bap_targets a) = false ->
   never_finishes C ->
   exists s',
     initialize C fuel a s = (Raise FuelExhausted, s') /\
     steps s' = (steps s + fuel)%nat).
Proof.
  intros Hc. split.
  - intros. by apply initialize_free_synthesis.
  - intros. by apply initialize_training_uncapped.
Qed.

Lemma max_iterations_only_outside_training_witness :
  exists s',
    initialize demo_collaborators 20 (demo_args false false false false false)
      (Tacotron (demo_hparams false true 0 1) demo_graph)
    = (Ok tt, s') /\ steps s' = 2%nat.
Proof.
  destruct (max_iterations_only_outside_training demo_collaborators 20
              (demo_args false false false false false)
              (Tacotron (demo_hparams false true 0 1) demo_graph) eq_refl)
    as [Hsyn _].
  destruct (Hsyn eq_refl eq_refl eq_refl ltac:(simpl; lia)) as (s' & E & _ & Hex).
  exists s'. split; [exact E|]. exact (Hex demo_never_finishes).
Defined.

(** C9. In ground-truth-aligned mode the third check rejects any supplied
    spectral-envelope targets, and the teacher-forcing decoder targets are
    still built from the pitch, spectral-envelope and aperiodicity
    targets.  So a gta call never builds the model; when it passes the
    checks the spectral-envelope targets are absent and the construction
    of the decoder targets fails inside TensorFlow, before any field of
    the object is set. *)
Theorem gta_targets_ill_formed
    (C : Collaborators) (fuel : nat) (a : init_args) (s : state) :
  gta a = true ->
  (exists e s', initialize C fuel a s = (Raise e, s') /\ attrs s' = attrs s)
  /\
  (passes_checks (_hparams s) a = true ->
   mgc_targets a = PNone /\
   exists msg s',
     initialize C fuel a s = (Raise (TFError msg), s') /\ attrs s' = attrs s).
Proof.
  intros Hg.
  assert (passes_checks (_hparams s) a = true ->
          mgc_targets a = PNone /\
          exists msg s',
            initialize C fuel a s = (Raise (TFError msg), s') /\
            attrs s' = attrs s) as Hpass.
  { intros Hc. split_checks Hc.
    apply negb_true_iff in Hc, Hc2, Hc3, Hc4, Hc5.
    assert (is_None (mgc_targets a) = true) as Hm.
    { rewrite Hg in Hc4. simpl in Hc4. by apply negb_false_iff in Hc4. }
    split; [by destruct (mgc_targets a)|].
    unfold initialize. exec1. rewrite Hc, Hc5, Hc4, Hc3, Hc2. exec.
    rewrite Hc1. exec.
    destruct (_ && is_training a)%bool eqn:Hsched;
      try rewrite Hc0; exec; rewrite Hg, !orb_true_r; tidy;
      destruct (is_None (lf0_targets a)) eqn:Hl; exec; eauto. }
  split; [|exact Hpass].
  destruct (passes_checks (_hparams s) a) eqn:Hc.
  - destruct (Hpass eq_refl) as (_ & msg & s' & E & Hs). eauto.
  - unfold passes_checks in Hc. unfold initialize. exec1.
    repeat match type of Hc with
           | (_ && _)%bool = false => apply andb_false_iff in Hc as [Hc|Hc]
           end;
    repeat match goal with
           | |- context [when_raise ?c _] =>
               lazymatch c with
               | true => fail
               | false => fail
               | _ => destruct c eqn:?
               end; exec
           end; eauto; try discriminate.
    all: try (rewrite Hc; exec; eauto).
    all: destruct (_ || _)%bool eqn:? in Hc |- *; exec; eauto.
    all: destruct (_ && is_training a)%bool eqn:?; try discriminate.
    all: rewrite Hc; exec; eauto.
Qed.

Lemma gta_targets_ill_formed_witness :
  mgc_targets (demo_args true true true true false) = PNone /\
  exists msg s',
    initialize demo_collaborators 3 (demo_args true true true true false)
      (Tacotron (demo_hparams false true 0 1) demo_graph)
    = (Raise (TFError msg), s')
    /\ attrs s' = attrs (Tacotron (demo_hparams false true 0 1) demo_graph).
Proof.
  destruct (gta_targets_ill_formed demo_collaborators 3
              (demo_args true true true true false)
              (Tacotron (demo_hparams false true 0 1) demo_graph) eq_refl)
    as [_ H].
  exact (H eq_refl).
Defined.

(** ** The loss *)

(** With length-masking enabled [add_loss] never produces a loss. *)
Lemma add_loss_masked_raises C s :
  mask_decoder (_hparams s) = true ->
  exists e s', add_loss C s = (Raise e, s') /\ attrs s' !! "loss" = attrs s !! "loss".
Proof.
  intros Hm. unfold add_loss. exec1. rewrite Hm.
  case_attr s "lf0_targets".
  match goal with H : attrs s !! "lf0_targets" = Some ?v |- _ => case_none v end.
  case_attr s "mgc_targets". case_attr s "bap_targets".
  match goal with H : attrs s !! "mgc_targets" = Some ?v |- _ => case_none v end;
    match goal with H : attrs s !! "bap_targets" = Some ?v |- _ => case_none v end.
  case_attr s "decoder_outputs". case_attr s "targets_lengths".
  case_attr s "final_outputs". case_attr s "stop_token_targets".
  case_attr s "stop_token_outputs".
  match goal with |- context [filter ?f ?l] => destruct (filter f l) end;
    exec; raised.
Qed.

(** Without length-masking the total is the sum of the five terms, as
    floats: NaN when the guided-attention term is. *)
Lemma add_loss_unmasked C s lf0 mgc bap al dout fout stt sto :
  mask_decoder (_hparams s) = false ->
  tensor_attr s "lf0_targets" lf0 ->
  tensor_attr s "mgc_targets" mgc ->
  tensor_attr s "bap_targets" bap ->
  tensor_attr s "alignments" al ->
  tensor_attr s "decoder_outputs" dout ->
  tensor_attr s "final_outputs" fout ->
  tensor_attr s "stop_token_targets" stt ->
  tensor_attr s "stop_token_outputs" sto ->
  regularized (graph s) <> [] ->
  let hp := _hparams s in
  let world := PCall "tf.concat"
                 [PList [PCall "tf.expand_dims" [lf0; PInt (-1)]; mgc; bap];
                  PInt (-1)] in
  let before := reduce_mean_abs_diff C world dout in
  let after := reduce_mean_abs_diff C world fout in
  let stop := reduce_mean_sigmoid_cross_entropy C stt sto in
  let reg := sum_list (map (fun v => l2_loss C (snd v)) (regularized (graph s)))
             * tacotron_reg_weight hp in
  let att := guided_attention_loss C (max_text_length hp) (max_frame_num hp)
               (entries C al) in
  exists s',
    add_loss C s = (Ok tt, s') /\
    attrs s' !! "attention_loss" = Some (of_float att) /\
    attrs s' !! "loss"
    = Some (of_float (tf_add (Finite (before + after + stop + reg)) att)).
Proof.
  intros Hm [Hl Hln] [Hg Hgn] [Hb Hbn] [Ha Han] [Hdo Hdon] [Hfo Hfon]
    [Hstt Hsttn] [Hsto Hston] Hreg. simpl.
  unfold add_loss. exec1. rewrite Hm. exec.
  fold (regularized (graph s)).
  destruct (regularized (graph s)) eqn:E; [done|]. exec.
  eexists. split; [reflexivity|]. tidy. by simplify_map_eq.
Qed.

(** C1 fails on the code.  With length-masking enabled, on a model whose
    targets and outputs are in place, [add_loss] computes the masked
    reconstruction, stop-token and regularization terms and then reads the
    local [attention_loss], which only the unmasked branch assigns: it
    raises [UnboundLocalError] and sets neither [self.attention_loss] nor
    [self.loss]. *)
Theorem add_loss_masked_unbound
    (C : Collaborators) (s : state) (lf0 mgc bap dout fout tl stt sto : pyval) :
  mask_decoder (_hparams s) = true ->
  tensor_attr s "lf0_targets" lf0 ->
  tensor_attr s "mgc_targets" mgc ->
  tensor_attr s "bap_targets" bap ->
  attrs s !! "decoder_outputs" = Some dout ->
  attrs s !! "final_outputs" = Some fout ->
  attrs s !! "targets_lengths" = Some tl ->
  attrs s !! "stop_token_targets" = Some stt ->
  attrs s !! "stop_token_outputs" = Some sto ->
  regularized (graph s) <> [] ->
  exists s',
    add_loss C s = (Raise (UnboundLocalError "attention_loss"), s') /\
    attrs s' !! "loss" = attrs s !! "loss" /\
    attrs s' !! "attention_loss" = attrs s !! "attention_loss".
Proof.
  intros Hm [Hl Hln] [Hg Hgn] [Hb Hbn] Hdo Hfo Htl Hstt Hsto Hreg.
  unfold add_loss. exec1. rewrite Hm. exec.
  fold (regularized (graph s)).
  destruct (regularized (graph s)) eqn:E; [done|]. exec.
  eexists. split; [reflexivity|]. tidy. by simplify_map_eq.
Qed.

Lemma add_loss_masked_unbound_witness :
  exists s',
    add_loss demo_collaborators (demo_initialized true)
    = (Raise (UnboundLocalError "attention_loss"), s') /\
    attrs s' !! "loss" = None /\
    attrs s' !! "attention_loss" = None.
Proof.
  apply (add_loss_masked_unbound demo_collaborators (demo_initialized true)
           (PFeed "lf0_targets") (PFeed "mgc_targets") (PFeed "bap_targets")
           (PFeed "decoder_outputs") (PFeed "final_outputs")
           (PFeed "targets_lengths") (PFeed "stop_token_targets")
           (PFeed "stop_token_outputs"));
    try reflexivity; try (split; reflexivity).
  vm_compute. discriminate.
Defined.

(** ** The guided-attention loss *)

Lemma mask_sentinel : mask sentinel = 0.
Proof. unfold mask. destruct Req_dec_T; [done|congruence]. Qed.

Lemma mask_probability x : 0 <= x <= 1 -> mask x = 1.
Proof. unfold mask, sentinel. intros H. destruct Req_dec_T; [lra|done]. Qed.

Lemma firstn_repeat {A} (x : A) n m : firstn n (repeat x m) = repeat x (min n m).
Proof.
  revert m. induction n; intros [|m]; simpl; try done. by rewrite IHn.
Qed.

Lemma map_repeat {A B} (f : A -> B) x n : map f (repeat x n) = repeat (f x) n.
Proof. induction n; simpl; congruence. Qed.

Lemma zip_with_map_diag {A B C D} (f : B -> C -> D) (g : A -> B) (h : A -> C) l :
  zip_with f (map g l) (map h l) = map (fun x => f (g x) (h x)) l.
Proof. induction l; simpl; congruence. Qed.

Lemma row_weighted_cons f x row :
  row_weighted f (x :: row) = Rabs (x * f O) * mask x + row_weighted (f ∘ S) row.
Proof. reflexivity. Qed.

Lemma row_weighted_padding f P : row_weighted f (repeat sentinel P) = 0.
Proof.
  revert f. induction P as [|P IH]; intros f; [done|].
  simpl repeat. rewrite row_weighted_cons, IH, mask_sentinel. lra.
Qed.

Lemma row_weighted_valid f row T P :
  Forall (fun x => 0 <= x <= 1) row ->
  row_weighted f (firstn T (row ++ repeat sentinel P))
  = sum_list (imap (fun j x => x * Rabs (f j)) (firstn T row)).
Proof.
  intros Hrow. revert f T. induction Hrow as [|x row Hx Hrow IH]; intros f T.
  - simpl. rewrite firstn_repeat, row_weighted_padding. by destruct T.
  - destruct T as [|T]; [done|].
    simpl firstn. rewrite row_weighted_cons, IH, mask_probability by done.
    simpl. rewrite Rabs_mult, (Rabs_right x) by lra.
    f_equal. lra.
Qed.

Lemma row_mask_padding P : sum_list (map mask (repeat sentinel P)) = 0.
Proof.
  induction P as [|P IH]; [done|]. simpl. rewrite IH, mask_sentinel. lra.
Qed.

Lemma row_mask_valid row T P :
  Forall (fun x => 0 <= x <= 1) row ->
  sum_list (map mask (firstn T (row ++ repeat sentinel P)))
  = INR (length (firstn T row)).
Proof.
  intros Hrow. revert T. induction Hrow as [|x row Hx Hrow IH]; intros T.
  - simpl. rewrite firstn_repeat, row_mask_padding. by destruct T.
  - destruct T as [|T]; [done|].
    simpl firstn. simpl map. simpl sum_list.
    rewrite IH, mask_probability by done.
    change (length (x :: firstn T row)) with (S (length (firstn T row))).
    rewrite S_INR. lra.
Qed.

Lemma map_mask_row row :
  Forall (fun x => 0 <= x <= 1) row -> map mask row = map (fun _ => 1) row.
Proof.
  induction 1 as [|x row Hx Hrow IH]; [done|].
  simpl. by rewrite IH, mask_probability.
Qed.

Lemma mat_weighted_cons g row mat :
  mat_weighted g (row :: mat) = row_weighted (g O) row + mat_weighted (g ∘ S) mat.
Proof. reflexivity. Qed.

Lemma mat_mask_cons row mat :
  mat_mask (row :: mat) = sum_list (map mask row) + mat_mask mat.
Proof. reflexivity. Qed.

Lemma mat_weighted_padding g W P :
  mat_weighted g (repeat (repeat sentinel W) P) = 0.
Proof.
  revert g. induction P as [|P IH]; intros g; [done|].
  simpl repeat. rewrite mat_weighted_cons, IH, row_weighted_padding. lra.
Qed.

Lemma mat_mask_padding W P : mat_mask (repeat (repeat sentinel W) P) = 0.
Proof.
  induction P as [|P IH]; [done|].
  simpl repeat. rewrite mat_mask_cons, IH, row_mask_padding. lra.
Qed.

Lemma mat_weighted_valid g mat N T W P Q :
  Forall (Forall (fun x => 0 <= x <= 1)) mat ->
  mat_weighted g (padded mat N T W P Q)
  = weighted_entries g (map (firstn T) (firstn N mat)).
Proof.
  unfold padded.
  intros Hmat. revert g N. induction Hmat as [|row mat Hrow Hmat IH]; intros g N.
  - simpl. rewrite firstn_repeat, map_repeat, firstn_repeat, mat_weighted_padding.
    by destruct N.
  - destruct N as [|N]; [done|].
    simpl. rewrite mat_weighted_cons, IH, row_weighted_valid by done.
    reflexivity.
Qed.

Lemma mat_mask_valid mat N T W P Q :
  Forall (Forall (fun x => 0 <= x <= 1)) mat ->
  mat_mask (padded mat N T W P Q)
  = INR (length (concat (map (firstn T) (firstn N mat)))).
Proof.
  unfold padded.
  intros Hmat. revert N. induction Hmat as [|row mat Hrow Hmat IH]; intros N.
  - simpl. rewrite firstn_repeat, map_repeat, firstn_repeat, mat_mask_padding.
    by destruct N.
  - destruct N as [|N]; [done|].
    simpl. rewrite mat_mask_cons, IH, row_mask_valid by done.
    rewrite length_app, plus_INR. reflexivity.
Qed.

Lemma width_map (f : R -> R) mat : width (map (map f) mat) = width mat.
Proof. destruct mat; [done|]. simpl. apply length_map. Qed.

(** The whole batch. *)
Lemma reduce_sum_weighted g (A : list (list (list R))) :
  reduce_sum (mul3 (tf_abs (mul_broadcast A g)) (not_equal_float sentinel A))
  = sum_list (map (mat_weighted g) A).
Proof.
  unfold reduce_sum, mul3, tf_abs, mul_broadcast, not_equal_float, map3.
  rewrite map_map, zip_with_map_diag, map_map. reflexivity.
Qed.

Lemma reduce_sum_mask (A : list (list (list R))) :
  reduce_sum (not_equal_float sentinel A) = sum_list (map mat_mask A).
Proof.
  unfold reduce_sum, not_equal_float, map3. rewrite map_map. reflexivity.
Qed.

Lemma slice_pad_padded al N T :
  slice3 (tf_pad al N T sentinel) N T
  = map (fun mat => padded mat N T (width mat + T) N T) al.
Proof. unfold slice3, tf_pad. rewrite map_map. reflexivity. Qed.

(** For alignments that are probabilities the loss is the quotient, as
    floats, of the weighted sum and the number of the entries of the
    alignments cut to the template. *)
Lemma guided_attention_loss_slices C N T al :
  probabilities al ->
  guided_attention_loss C N T al
  = tf_div (sum_list (map (weighted_entries (GuidedAttention C N T)) (slice3 al N T)))
      (INR (length (concat (concat (slice3 al N T))))).
Proof.
  intros Hal. unfold guided_attention_loss.
  rewrite reduce_sum_weighted, reduce_sum_mask, slice_pad_padded.
  unfold slice3. rewrite !map_map.
  f_equal.
  - induction Hal as [|mat al Hmat Hal IH]; [done|].
    simpl. rewrite IH, mat_weighted_valid by done. reflexivity.
  - induction Hal as [|mat al Hmat Hal IH]; [done|].
    simpl. rewrite IH, mat_mask_valid, concat_app, length_app, plus_INR by done.
    reflexivity.
Qed.

(** *** Entries by their indices *)

Lemma lookup_map {A B} (f : A -> B) (l : list A) (i : nat) :
  map f l !! i = f <$> l !! i.
Proof. exact (list_lookup_fmap f l i). Qed.

Lemma lookup_repeat {A} (x : A) (n i : nat) :
  (i < n)%nat -> repeat x n !! i = Some x.
Proof.
  revert i. induction n as [|n IH]; intros [|i] Hi; simpl; try lia; [done|].
  apply IH. lia.
Qed.

Lemma entry_map3 f t b i j : entry (map3 f t) b i j = f <$> entry t b i j.
Proof.
  unfold entry, map3. rewrite lookup_map.
  destruct (t !! b) as [mat|]; [|done]. simpl. rewrite lookup_map.
  destruct (mat !! i) as [row|]; [|done]. simpl. apply lookup_map.
Qed.

Lemma entry_probability al b i j x :
  probabilities al -> entry al b i j = Some x -> 0 <= x <= 1.
Proof.
  unfold probabilities, entry. intros Hal H.
  destruct (al !! b) as [mat|] eqn:Eb; [|done].
  destruct (mat !! i) as [row|] eqn:Ei; [|done].
  pose proof (Forall_lookup_1 _ _ _ _ Hal Eb) as Hmat.
  pose proof (Forall_lookup_1 _ _ _ _ Hmat Ei) as Hrow.
  exact (Forall_lookup_1 _ _ _ _ Hrow H).
Qed.

(** An entry of the padded and cut tensor, at a position of the
    template: the entry of the tensor there, and the padding value where
    it has none. *)
Lemma entry_slice_pad t N T c b i j :
  (b < length t)%nat -> (i < N)%nat -> (j < T)%nat ->
  entry (slice3 (tf_pad t N T c) N T) b i j = Some (default c (entry t b i j)).
Proof.
  intros Hb Hi Hj. unfold entry, slice3, tf_pad. rewrite !lookup_map.
  destruct (lookup_lt_is_Some_2 t b Hb) as [mat Eb]. rewrite Eb. simpl.
  rewrite lookup_map, lookup_take_lt by done.
  destruct (decide (i < length mat)%nat) as [Hlt|Hge].
  - rewrite lookup_app_l by (by rewrite length_map).
    rewrite lookup_map.
    destruct (lookup_lt_is_Some_2 mat i Hlt) as [row Ei]. rewrite Ei. simpl.
    rewrite lookup_take_lt by done.
    destruct (decide (j < length row)%nat) as [Hjlt|Hjge].
    + rewrite lookup_app_l by done.
      destruct (lookup_lt_is_Some_2 row j Hjlt) as [x Ej]. by rewrite Ej.
    + rewrite lookup_app_r by lia. rewrite lookup_repeat by lia.
      by rewrite (lookup_ge_None_2 row j) by lia.
  - rewrite lookup_app_r by (rewrite length_map; lia).
    rewrite lookup_repeat by (rewrite length_map; lia).
    rewrite (lookup_ge_None_2 mat i) by lia. simpl.
    rewrite lookup_take_lt by done. by rewrite lookup_repeat by lia.
Qed.

(** The validity mask, entry by entry. *)
Lemma mask_entry al N T b i j :
  probabilities al ->
  (b < length al)%nat -> (i < N)%nat -> (j < T)%nat ->
  entry (not_equal_float sentinel (slice3 (tf_pad al N T sentinel) N T)) b i j
  = Some (match entry al b i j with Some _ => 1 | None => 0 end).
Proof.
  intros Hal Hb Hi Hj. unfold not_equal_float. fold mask.
  rewrite entry_map3, entry_slice_pad by done. simpl. f_equal.
  destruct (entry al b i j) as [x|] eqn:E; simpl.
  - apply mask_probability. by eapply entry_probability.
  - apply mask_sentinel.
Qed.

(** *** Sums and counts over index ranges *)

Lemma sum_over_S n f : sum_over (S n) f = f O + sum_over n (f ∘ S).
Proof.
  unfold sum_over. simpl. by rewrite <- seq_shift, map_map.
Qed.

Lemma count_over_S n f : count_over (S n) f = (f O + count_over n (f ∘ S))%nat.
Proof.
  unfold count_over. simpl. by rewrite <- seq_shift, map_map.
Qed.

Lemma sum_over_zero n f : (forall i, (i < n)%nat -> f i = 0) -> sum_over n f = 0.
Proof.
  revert f. induction n as [|n IH]; intros f H; [done|].
  rewrite sum_over_S, (H O) by lia. rewrite IH; [lra|].
  intros i Hi. apply H. lia.
Qed.

Lemma count_over_zero n f :
  count_over n f = O -> forall i, (i < n)%nat -> f i = O.
Proof.
  revert f. induction n as [|n IH]; intros f H i Hi; [lia|].
  rewrite count_over_S in H. destruct i as [|i]; [lia|].
  apply (IH (f ∘ S)); lia.
Qed.

Lemma count_over_none n f : (forall i, f i = O) -> count_over n f = O.
Proof.
  revert f. induction n as [|n IH]; intros f H; [done|].
  rewrite count_over_S, H, IH; [done|]. intros i. apply H.
Qed.

Lemma row_sum_indexed (h : nat -> R) row T :
  sum_list (imap (fun j x => x * h j) (firstn T row))
  = sum_over T (fun j => match row !! j with Some x => x * h j | None => 0 end).
Proof.
  revert h T. induction row as [|x row IH]; intros h T.
  - rewrite firstn_nil. simpl. symmetry. by apply sum_over_zero.
  - destruct T as [|T]; [done|].
    simpl firstn. rewrite imap_cons, sum_over_S. simpl sum_list. f_equal.
    exact (IH (h ∘ S) T).
Qed.

Lemma row_count_indexed (row : list R) T :
  length (firstn T row)
  = count_over T (fun j => match row !! j with Some _ => 1%nat | None => O end).
Proof.
  revert T. induction row as [|x row IH]; intros T.
  - rewrite firstn_nil. simpl. symmetry. by apply count_over_none.
  - destruct T as [|T]; [done|].
    simpl firstn. rewrite count_over_S. simpl length. f_equal. exact (IH T).
Qed.

Lemma mat_sum_indexed (g : nat -> nat -> R) mat N T :
  weighted_entries g (map (firstn T) (firstn N mat))
  = sum_over N (fun i =>
      sum_over T (fun j =>
        match match mat !! i with Some row => row !! j | None => None end with
        | Some x => x * Rabs (g i j)
        | None => 0
        end)).
Proof.
  unfold weighted_entries. revert g N. induction mat as [|row mat IH]; intros g N.
  - rewrite firstn_nil. simpl. symmetry.
    apply sum_over_zero. intros i _. by apply sum_over_zero.
  - destruct N as [|N]; [done|].
    simpl firstn. simpl map. rewrite imap_cons, sum_over_S. simpl sum_list.
    f_equal.
    + exact (row_sum_indexed (fun j => Rabs (g O j)) row T).
    + exact (IH (g ∘ S) N).
Qed.

Lemma mat_count_indexed (mat : list (list R)) N T :
  length (concat (map (firstn T) (firstn N mat)))
  = count_over N (fun i =>
      count_over T (fun j =>
        match match mat !! i with Some row => row !! j | None => None end with
        | Some _ => 1%nat
        | None => O
        end)).
Proof.
  revert N. induction mat as [|row mat IH]; intros N.
  - rewrite firstn_nil. simpl. symmetry.
    apply count_over_none. intros i. by apply count_over_none.
  - destruct N as [|N]; [done|].
    simpl firstn. simpl map. simpl concat. rewrite length_app, count_over_S.
    f_equal.
    + exact (row_count_indexed row T).
    + exact (IH N).
Qed.

(** The sum and the count over the alignments cut to the template are
    the sum and the count over the valid entries. *)
Lemma valid_sum_slices g N T al :
  sum_list (map (weighted_entries g) (slice3 al N T)) = valid_sum g N T al.
Proof.
  unfold valid_sum, slice3, entry. rewrite map_map.
  induction al as [|mat al IH]; [done|].
  simpl length. rewrite sum_over_S. simpl map. simpl sum_list. f_equal.
  - exact (mat_sum_indexed g mat N T).
  - exact IH.
Qed.

Lemma valid_count_slices N T al :
  length (concat (concat (slice3 al N T))) = valid_count N T al.
Proof.
  unfold valid_count, slice3, entry.
  induction al as [|mat al IH]; [done|].
  simpl length. rewrite count_over_S. simpl map. simpl concat.
  rewrite concat_app, length_app. f_equal.
  - exact (mat_count_indexed mat N T).
  - exact IH.
Qed.

Lemma valid_sum_empty g N T al : valid_count N T al = O -> valid_sum g N T al = 0.
Proof.
  unfold valid_count, valid_sum. intros H.
  apply sum_over_zero. intros b Hb.
  pose proof (count_over_zero _ _ H b Hb) as Hb0. cbv beta in Hb0.
  apply sum_over_zero. intros i Hi.
  pose proof (count_over_zero _ _ Hb0 i Hi) as Hi0. cbv beta in Hi0.
  apply sum_over_zero. intros j Hj.
  pose proof (count_over_zero _ _ Hi0 j Hj) as Hj0. cbv beta in Hj0.
  by destruct (entry al b i j).
Qed.

Lemma guided_attention_loss_spec C N T al :
  probabilities al ->
  guided_attention_loss C N T al = guided_attention_spec C N T al.
Proof.
  intros Hal. rewrite guided_attention_loss_slices by done.
  unfold guided_attention_spec. by rewrite valid_sum_slices, valid_count_slices.
Qed.

(** C8. The sentinel with which [add_loss] pads the alignments lies
    outside [0, 1].  Hence, for alignments that are probabilities, the
    validity mask is 1 at every position of the template where the
    alignments have an entry and 0 at every position that holds padding,
    and the guided-attention loss is the sum over the valid entries, each
    weighted by the magnitude of its penalty, divided by the number of
    valid entries: their real quotient when there is a valid entry, and
    NaN, the float quotient 0 / 0, when there is none. *)
Theorem guided_attention_masks_valid_entries
    (C : Collaborators) (N T : nat) (alignments : list (list (list R))) :
  probabilities alignments ->
  ~ (0 <= sentinel <= 1) /\
  (forall b i j, (b < length alignments)%nat -> (i < N)%nat -> (j < T)%nat ->
     entry (not_equal_float sentinel
              (slice3 (tf_pad alignments N T sentinel) N T)) b i j
     = Some (match entry alignments b i j with Some _ => 1 | None => 0 end)) /\
  guided_attention_loss C N T alignments = guided_attention_spec C N T alignments /\
  ((0 < valid_count N T alignments)%nat ->
   guided_attention_loss C N T alignments
   = Finite (valid_sum (GuidedAttention C N T) N T alignments
             / INR (valid_count N T alignments))) /\
  (valid_count N T alignments = O ->
   guided_attention_loss C N T alignments = NaN).
Proof.
  intros Hal. split; [unfold sentinel; lra|]. split.
  { intros b i j Hb Hi Hj. by apply mask_entry. }
  split; [by apply guided_attention_loss_spec|].
  rewrite guided_attention_loss_spec by done. unfold guided_attention_spec.
  split.
  - intros Hpos. apply tf_div_finite.
    apply not_0_INR. lia.
  - intros Hzero. rewrite valid_sum_empty, Hzero by done. simpl INR.
    rewrite tf_div_by_zero. by destruct (Req_dec_T 0 0).
Qed.

Lemma demo_alignments_probabilities : probabilities demo_alignments.
Proof. repeat constructor; lra. Qed.

Lemma guided_attention_masks_valid_entries_witness :
  entry (not_equal_float sentinel
           (slice3 (tf_pad demo_alignments 3 1 sentinel) 3 1)) 0 1 0 = Some 1 /\
  entry (not_equal_float sentinel
           (slice3 (tf_pad demo_alignments 3 1 sentinel) 3 1)) 0 2 0 = Some 0 /\
  guided_attention_loss demo_collaborators 3 1 demo_alignments
  = guided_attention_spec demo_collaborators 3 1 demo_alignments /\
  guided_attention_loss demo_collaborators 0 1 demo_alignments = NaN.
Proof.
  destruct (guided_attention_masks_valid_entries demo_collaborators 3 1
              demo_alignments demo_alignments_probabilities)
    as (_ & Hm & Hl & _).
  destruct (guided_attention_masks_valid_entries demo_collaborators 0 1
              demo_alignments demo_alignments_probabilities)
    as (_ & _ & _ & _ & Hnan).
  split; [apply (Hm 0 1 0)%nat; simpl; lia|].
  split; [apply (Hm 0 2 0)%nat; simpl; lia|].
  split; [exact Hl|]. apply Hnan. reflexivity.
Defined.

(** In [add_loss] itself: without length-masking, on alignments that are
    probabilities, [self.attention_loss] is the loss of the
    specification. *)
Corollary add_loss_attention_term C s lf0 mgc bap al dout fout stt sto :
  mask_decoder (_hparams s) = false ->
  tensor_attr s "lf0_targets" lf0 ->
  tensor_attr s "mgc_targets" mgc ->
  tensor_attr s "bap_targets" bap ->
  tensor_attr s "alignments" al ->
  tensor_attr s "decoder_outputs" dout ->
  tensor_attr s "final_outputs" fout ->
  tensor_attr s "stop_token_targets" stt ->
  tensor_attr s "stop_token_outputs" sto ->
  regularized (graph s) <> [] ->
  probabilities (entries C al) ->
  exists s',
    add_loss C s = (Ok tt, s') /\
    attrs s' !! "attention_loss"
    = Some (of_float (guided_attention_spec C (max_text_length (_hparams s))
                        (max_frame_num (_hparams s)) (entries C al))).
Proof.
  intros Hm Hl Hg Hb Ha Hdo Hfo Hstt Hsto Hreg Hp.
  destruct (add_loss_unmasked C s lf0 mgc bap al dout fout stt sto)
    as (s' & E & Hatt & _); try done.
  exists s'. split; [done|].
  by rewrite Hatt, guided_attention_loss_spec.
Qed.

(** ** The optimizer *)

Lemma add_optimizer_operations step s loss :
  attrs s !! "loss" = Some loss ->
  trainable_variables (graph s) <> [] ->
  exists s',
    add_optimizer step s = (Ok tt, s') /\
    attrs s' !! "optimize" = Some (POp apply_gradients_op) /\
    operations (graph s')
    = (apply_gradients_op, control_inputs_now (graph s) ++ UPDATE_OPS (graph s))
      :: operations (graph s) /\
    UPDATE_OPS (graph s') = UPDATE_OPS (graph s) /\
    control_stack (graph s') = control_stack (graph s).
Proof.
  intros Hloss Hvars. rewrite (add_optimizer_state step s loss) by done.
  eexists. split; [reflexivity|]. cbn [attrs graph operations UPDATE_OPS control_stack].
  split; [apply lookup_insert_eq|]. by repeat split.
Qed.

Lemma run_respects_before ops ran pre op post :
  run_respects ops ran (pre ++ op :: post) ->
  forall d, In d (control_inputs ops op) -> In d ran \/ In d pre.
Proof.
  revert ran. induction pre as [|p pre IH]; intros ran H d Hd; simpl in H.
  - left. by apply H.
  - destruct H as [_ H]. destruct (IH _ H d Hd) as [[->|?]|?]; simpl; auto.
Qed.

(** C7. On a model with a loss and trainable variables [add_optimizer]
    succeeds, and the apply-gradients operation it stores in
    [self.optimize] has every operation of the UPDATE_OPS collection among
    its control inputs.  So in every run that respects control
    dependencies, each update operation has run before the parameter
    update. *)
Theorem updates_before_apply (step : Z) (s : state) (loss : pyval) :
  attrs s !! "loss" = Some loss ->
  trainable_variables (graph s) <> [] ->
  exists s',
    add_optimizer step s = (Ok tt, s') /\
    attrs s' !! "optimize" = Some (POp apply_gradients_op) /\
    (forall u, In u (UPDATE_OPS (graph s)) ->
       In u (control_inputs (operations (graph s')) apply_gradients_op)) /\
    (forall pre post,
       run_respects (operations (graph s')) [] (pre ++ apply_gradients_op :: post) ->
       forall u, In u (UPDATE_OPS (graph s)) -> In u pre).
Proof.
  intros Hloss Hvars.
  destruct (add_optimizer_operations step s loss Hloss Hvars)
    as (s' & E & Hopt & Hops & _ & _).
  exists s'. split; [done|]. split; [done|].
  assert (forall u, In u (UPDATE_OPS (graph s)) ->
            In u (control_inputs (operations (graph s')) apply_gradients_op)) as Hin.
  { intros u Hu. rewrite Hops. simpl. apply in_or_app. by right. }
  split; [done|].
  intros pre post Hrun u Hu.
  destruct (run_respects_before _ _ _ _ _ Hrun u (Hin u Hu)) as [[]|?]. done.
Qed.

Lemma updates_before_apply_witness :
  exists s',
    add_optimizer 10 demo_with_loss = (Ok tt, s') /\
    In "batch_normalization/AssignMovingAvg"
      (control_inputs (operations (graph s')) apply_gradients_op).
Proof.
  destruct (updates_before_apply 10 demo_with_loss (PFloat 0))
    as (s' & E & _ & Hin & _); [reflexivity | discriminate |].
  exists s'. split; [exact E|]. apply Hin. simpl. by left.
Defined.

(** * Further properties *)

(** ** Construction: the remaining checks and assertions *)

(** X1. Stop-token targets without pitch targets: the first check of
    [initialize] raises its [ValueError], whatever the other arguments,
    and the object and the graph stay as they were. *)
Theorem initialize_stop_tokens_without_targets
    (C : Collaborators) (fuel : nat) (a : init_args) (s : state) :
  is_None (lf0_targets a) = true ->
  is_None (stop_token_targets a) = false ->
  initialize C fuel a s
  = (Raise (ValueError "no lf0 targets were provided but token_targets were given"),
     s).
Proof.
  intros H1 H2. unfold initialize. rewrite H1, H2. tidy. exec. reflexivity.
Qed.

Lemma initialize_stop_tokens_without_targets_witness :
  initialize demo_collaborators 1 (demo_args false true false false false)
    (demo_fresh false)
  = (Raise (ValueError "no lf0 targets were provided but token_targets were given"),
     demo_fresh false).
Proof.
  apply (initialize_stop_tokens_without_targets demo_collaborators 1
           (demo_args false true false false false) (demo_fresh false));
    reflexivity.
Defined.

(** X2. Ground-truth-aligned mode with spectral-envelope targets: when
    the first check does not fire, the third raises its [ValueError] and
    nothing has changed.  (The second check is off in this mode.) *)
Theorem initialize_gta_with_spectral_targets
    (C : Collaborators) (fuel : nat) (a : init_args) (s : state) :
  gta a = true ->
  is_None (mgc_targets a) = false ->
  (is_None (lf0_targets a) && negb (is_None (stop_token_targets a)))%bool = false ->
  initialize C fuel a s
  = (Raise (ValueError "Linear spectrogram prediction is not supported in GTA mode!"),
     s).
Proof.
  intros H1 H2 H3. unfold initialize. rewrite H1, H2, H3, !andb_false_r. tidy.
  exec. reflexivity.
Qed.

Lemma initialize_gta_with_spectral_targets_witness :
  initialize demo_collaborators 1 demo_gta_with_mgc (demo_fresh false)
  = (Raise (ValueError "Linear spectrogram prediction is not supported in GTA mode!"),
     demo_fresh false).
Proof.
  apply (initialize_gta_with_spectral_targets demo_collaborators 1
           demo_gta_with_mgc (demo_fresh false));
    reflexivity.
Defined.



(** X4. A teacher-forcing mode other than 'constant' and 'scheduled':
    [initialize] ends in a configuration error or in the
    [AssertionError] of line 50, before a variable is created or a field
    set. *)
Theorem initialize_unknown_teacher_forcing_mode
    (C : Collaborators) (fuel : nat) (a : init_args) (s : state) :
  tacotron_teacher_forcing_mode (_hparams s) <> "constant" ->
  tacotron_teacher_forcing_mode (_hparams s) <> "scheduled" ->
  exists e, initialize C fuel a s = (Raise e, s) /\
            (configuration_error e \/ e = AssertionError).
Proof.
  intros H1 H2. apply String.eqb_neq in H1, H2.
  unfold initialize. exec1.
  do 5 (lazymatch goal with
        | |- context [bind (when_raise ?c _) _ _] => destruct c
        end; exec; [eexists; split; [reflexivity | left; exact I]|]).
  rewrite H1, H2. exec. eexists; split; [reflexivity | by right].
Qed.

Lemma initialize_unknown_teacher_forcing_mode_witness :
  exists e,
    initialize demo_collaborators 1 (demo_args true true true false true)
      (demo_mode "linear")
    = (Raise e, demo_mode "linear") /\
    (configuration_error e \/ e = AssertionError).
Proof.
  apply (initialize_unknown_teacher_forcing_mode demo_collaborators 1
           (demo_args true true true false true) (demo_mode "linear"));
    discriminate.
Defined.

(** X5. Scheduled teacher forcing in training without a global step:
    [initialize] ends in a configuration error or in the
    [AssertionError] of line 52, before a variable is created or a field
    set. *)
Theorem initialize_scheduled_needs_global_step
    (C : Collaborators) (fuel : nat) (a : init_args) (s : state) :
  tacotron_teacher_forcing_mode (_hparams s) = "scheduled" ->
  is_training a = true ->
  is_None (global_step a) = true ->
  exists e, initialize C fuel a s = (Raise e, s) /\
            (configuration_error e \/ e = AssertionError).
Proof.
  intros H1 H2 H3. unfold initialize. exec1.
  do 5 (lazymatch goal with
        | |- context [bind (when_raise ?c _) _ _] => destruct c
        end; exec; [eexists; split; [reflexivity | left; exact I]|]).
  rewrite H1, H2, H3. exec. eexists; split; [reflexivity | by right].
Qed.

Lemma initialize_scheduled_needs_global_step_witness :
  exists e,
    initialize demo_collaborators 1 (demo_args true true true false true)
      (demo_mode "scheduled")
    = (Raise e, demo_mode "scheduled") /\
    (configuration_error e \/ e = AssertionError).
Proof.
  apply (initialize_scheduled_needs_global_step demo_collaborators 1
           (demo_args true true true false true) (demo_mode "scheduled"));
    reflexivity.
Defined.

(** ** Construction: what a call leaves behind *)

Lemma demo_trained_built mask :
  initialize (demo_finishing 0) 1 (demo_args true true true false true)
    (demo_fresh mask)
  = (Ok tt, demo_trained mask).
Proof. destruct mask; vm_compute; reflexivity. Qed.

Lemma demo_synthesized_built :
  initialize (demo_finishing 0) 1 (demo_args false false false false false)
    (demo_fresh false)
  = (Ok tt, demo_synthesized).
Proof. vm_compute. reflexivity. Qed.

(** X6. When [initialize] returns, the object holds the arguments it was
    given under [inputs], [input_lengths], the three targets, the
    stop-token targets and the target lengths (a target that was not
    supplied is stored as [None]), and a tensor under each of the seven
    output fields. *)
Theorem initialize_stores_arguments
    (C : Collaborators) (fuel : nat) (a : init_args) (s s' : state) :
  initialize C fuel a s = (Ok tt, s') ->
  attrs s' !! "inputs" = Some (inputs a) /\
  attrs s' !! "input_lengths" = Some (input_lengths a) /\
  attrs s' !! "lf0_targets" = Some (lf0_targets a) /\
  attrs s' !! "mgc_targets" = Some (mgc_targets a) /\
  attrs s' !! "bap_targets" = Some (bap_targets a) /\
  attrs s' !! "stop_token_targets" = Some (stop_token_targets a) /\
  attrs s' !! "targets_lengths" = Some (targets_lengths a) /\
  (forall name, In name ["decoder_outputs"; "final_outputs"; "alignments";
                         "stop_token_outputs"; "lf0_outputs"; "mgc_outputs";
                         "bap_outputs"] ->
     exists v, tensor_attr s' name v).
Proof.
  intros H. apply initialize_ok_post in H as (_ & _ & Hp).
  unfold initialize_post in Hp. tauto.
Qed.

Lemma initialize_stores_arguments_witness :
  attrs (demo_trained false) !! "inputs" = Some (PFeed "inputs") /\
  attrs (demo_trained false) !! "input_lengths" = Some (PFeed "input_lengths") /\
  attrs (demo_trained false) !! "lf0_targets" = Some (PFeed "lf0_targets") /\
  attrs (demo_trained false) !! "mgc_targets" = Some (PFeed "mgc_targets") /\
  attrs (demo_trained false) !! "bap_targets" = Some (PFeed "bap_targets") /\
  attrs (demo_trained false) !! "stop_token_targets"
  = Some (PFeed "stop_token_targets") /\
  attrs (demo_trained false) !! "targets_lengths" = Some (PFeed "targets_lengths") /\
  (forall name, In name ["decoder_outputs"; "final_outputs"; "alignments";
                         "stop_token_outputs"; "lf0_outputs"; "mgc_outputs";
                         "bap_outputs"] ->
     exists v, tensor_attr (demo_trained false) name v).
Proof.
  apply (initialize_stores_arguments (demo_finishing 0) 1
           (demo_args true true true false true) (demo_fresh false)
           (demo_trained false)).
  exact (demo_trained_built false).
Defined.

(** X7. When [initialize] returns, [self.helper] is the teacher-forcing
    helper in training and in evaluation and the test helper otherwise,
    and [self.ratio] is that helper's ratio in training and is left alone
    outside training. *)
Theorem initialize_helper_by_mode
    (C : Collaborators) (fuel : nat) (a : init_args) (s s' : state) :
  initialize C fuel a s = (Ok tt, s') ->
  (exists args,
     attrs s' !! "helper"
     = Some (PCall (if (is_training a || is_evaluating a)%bool
                    then "TacoTrainingHelper" else "TacoTestHelper") args)) /\
  (if is_training a
   then exists h, attrs s' !! "helper" = Some h /\
                  attrs s' !! "ratio" = Some (PCall "_ratio" [h])
   else attrs s' !! "ratio" = attrs s !! "ratio").
Proof.
  intros H. apply initialize_ok_post in H as (_ & _ & Hp).
  unfold initialize_post in Hp. tauto.
Qed.

Lemma initialize_helper_by_mode_witness :
  (exists args,
     attrs demo_synthesized !! "helper" = Some (PCall "TacoTestHelper" args)) /\
  attrs demo_synthesized !! "ratio" = attrs (demo_fresh false) !! "ratio".
Proof.
  apply (initialize_helper_by_mode (demo_finishing 0) 1
           (demo_args false false false false false) (demo_fresh false)
           demo_synthesized).
  exact demo_synthesized_built.
Defined.

(** X8. However a call of [initialize] ends, it keeps the
    hyperparameters of the object, keeps every trainable variable and
    every update operation that the graph held and adds the new ones
    after them, and leaves the open control-dependency contexts as they
    were. *)
Theorem initialize_extends_graph
    (C : Collaborators) (fuel : nat) (a : init_args) (s : state) :
  _hparams (snd (initialize C fuel a s)) = _hparams s /\
  graph_extended (graph s) (graph (snd (initialize C fuel a s))).
Proof.
  destruct (initialize_outcome C fuel a s) as (o & s1 & E & Hh & Hg & _).
  rewrite E. auto.
Qed.

(** X9. When [initialize] returns, every attribute of the object other
    than the sixteen it assigns is as it was before the call. *)
Theorem initialize_keeps_other_attributes
    (C : Collaborators) (fuel : nat) (a : init_args) (s s' : state) (name : string) :
  initialize C fuel a s = (Ok tt, s') ->
  ~ In name initialize_fields ->
  attrs s' !! name = attrs s !! name.
Proof.
  intros H. apply initialize_ok_post in H as (_ & _ & Hp).
  unfold initialize_post in Hp. intros Hn. by apply Hp.
Qed.

Lemma initialize_keeps_other_attributes_witness :
  attrs (snd (initialize (demo_finishing 0) 1 (demo_args true true true false true)
                demo_with_loss)) !! "loss"
  = attrs demo_with_loss !! "loss".
Proof.
  apply (initialize_keeps_other_attributes (demo_finishing 0) 1
           (demo_args true true true false true) demo_with_loss
           (snd (initialize (demo_finishing 0) 1
                   (demo_args true true true false true) demo_with_loss))
           "loss").
  - vm_compute. reflexivity.
  - unfold initialize_fields. simpl. intuition discriminate.
Defined.

(** X10. [initialize] returns only on consistent arguments: never in
    ground-truth-aligned mode, never in training and evaluation at once,
    with pitch targets exactly when with stop-token targets, with target
    lengths when it trains with length-masking, and with all four targets
    when it trains or evaluates. *)
Theorem initialize_success_targets_paired
    (C : Collaborators) (fuel : nat) (a : init_args) (s s' : state) :
  initialize C fuel a s = (Ok tt, s') ->
  gta a = false /\
  is_None (lf0_targets a) = is_None (stop_token_targets a) /\
  (is_training a && is_evaluating a)%bool = false /\
  ((is_training a && mask_decoder (_hparams s))%bool = true ->
   is_None (targets_lengths a) = false) /\
  ((is_training a || is_evaluating a)%bool = true ->
   is_None (lf0_targets a) = false /\ is_None (mgc_targets a) = false /\
   is_None (bap_targets a) = false /\ is_None (stop_token_targets a) = false).
Proof.
  intros H. apply initialize_ok_post in H as (_ & _ & Hp).
  destruct Hp as (Hc & Hg & _ & _ & _ & _ & _ & _ & _ & _ & _ & _ & Hte & _).
  split_checks Hc. apply negb_true_iff in Hc, Hc2, Hc3, Hc4, Hc5.
  rewrite Hg in *. repeat split.
  - destruct (is_None (lf0_targets a)), (is_None (stop_token_targets a));
      simpl in *; congruence.
  - done.
  - intros Hm. rewrite Hm in Hc3. simpl in Hc3. done.
  - by apply Hte.
  - by apply Hte.
  - by apply Hte.
  - by apply Hte.
Qed.

Lemma initialize_success_targets_paired_witness :
  gta (demo_args true true true false true) = false /\
  is_None (lf0_targets (demo_args true true true false true))
  = is_None (stop_token_targets (demo_args true true true false true)) /\
  (is_training (demo_args true true true false true)
   && is_evaluating (demo_args true true true false true))%bool = false /\
  ((is_training (demo_args true true true false true)
    && mask_decoder (_hparams (demo_fresh true)))%bool = true ->
   is_None (targets_lengths (demo_args true true true false true)) = false) /\
  ((is_training (demo_args true true true false true)
    || is_evaluating (demo_args true true true false true))%bool = true ->
   is_None (lf0_targets (demo_args true true true false true)) = false /\
   is_None (mgc_targets (demo_args true true true false true)) = false /\
   is_None (bap_targets (demo_args true true true false true)) = false /\
   is_None (stop_token_targets (demo_args true true true false true)) = false).
Proof.
  apply (initialize_success_targets_paired (demo_finishing 0) 1
           (demo_args true true true false true) (demo_fresh true)
           (demo_trained true)).
  exact (demo_trained_built true).
Defined.

(** ** Construction: when decoding stops *)

Lemma decode_loop_done C fuel d m time outs st inp fin s :
  loop_condition m time fin = false ->
  decode_loop C fuel d m time outs st inp fin s = (Ok (outs, st), s).
Proof. intros H. destruct fuel; simpl; by rewrite H. Qed.

Lemma decode_loop_step C fuel d m time outs st inp fin s :
  loop_condition m time fin = true ->
  decode_loop C (S fuel) d m time outs st inp fin s
  = decode_loop C fuel d m (time + 1)
      (outs ++ [fst (fst (fst (decoder_step C d time inp st)))])
      (snd (fst (fst (decoder_step C d time inp st))))
      (snd (fst (decoder_step C d time inp st)))
      (force_finished m (time + 1) (snd (decoder_step C d time inp st) || fin))
      (add_steps 1 s).
Proof.
  intros H. simpl. rewrite H. unfold bind at 1.
  change (count_decoder_step s) with (Ok tt, snd (count_decoder_step s)).
  cbv iota beta. rewrite <- (add_steps_0 (snd (count_decoder_step s))).
  rewrite add_steps_S.
  by destruct (decoder_step C d time inp st) as [[[o st'] inp'] df].
Qed.

Lemma add_steps_add n k s : add_steps n (add_steps k s) = add_steps (n + k) s.
Proof. unfold add_steps. simpl. do 2 f_equal. lia. Qed.

Lemma first_stop_next C d j time st inp :
  first_stop C d (S j) time st inp ->
  snd (decoder_step C d time inp st) = false /\
  first_stop C d j (time + 1)
    (snd (fst (fst (decoder_step C d time inp st))))
    (snd (fst (decoder_step C d time inp st))).
Proof.
  intros [Hbefore Hat]. split.
  - specialize (Hbefore O ltac:(lia)). unfold stop_fires in Hbefore. simpl in Hbefore.
    by rewrite Nat.add_0_r in Hbefore.
  - split.
    + intros i Hi. specialize (Hbefore (S i) ltac:(lia)).
      simpl in Hbefore.
      destruct (decoder_step C d time inp st) as [[[o st'] inp'] df]. simpl.
      by replace (time + 1 + i)%nat with (time + S i)%nat by lia.
    + simpl in Hat.
      destruct (decoder_step C d time inp st) as [[[o st'] inp'] df]. simpl.
      by replace (time + 1 + j)%nat with (time + S j)%nat by lia.
Qed.

(** From an unfinished batch the loop runs one iteration for each step up
    to and including the first that reports the batch finished, unless
    the cap ends it before. *)
Lemma decode_loop_first_stop C d m j :
  forall fuel time outs st inp s,
    first_stop C d j time st inp ->
    (iterations m j time <= fuel)%nat ->
    exists r,
      decode_loop C fuel d m time outs st inp false s
      = (Ok r, add_steps (iterations m j time) s).
Proof.
  induction j as [|j IH]; intros fuel time outs st inp s Hstop Hfuel.
  - destruct (loop_condition m time false) eqn:Hc.
    + assert (iterations m 0 time = 1%nat) as Hit.
      { unfold iterations. destruct m as [k|]; [|done].
        unfold loop_condition in Hc. simpl in Hc. apply Nat.ltb_lt in Hc. lia. }
      rewrite Hit in *. destruct fuel as [|fuel]; [lia|].
      rewrite decode_loop_step by done.
      destruct Hstop as [_ Hat]. unfold stop_fires in Hat. simpl in Hat.
      rewrite Nat.add_0_r in Hat. rewrite Hat.
      rewrite decode_loop_done; [by eexists|].
      unfold loop_condition, force_finished. by destruct m.
    + assert (iterations m 0 time = 0%nat) as ->.
      { unfold iterations. destruct m as [k|]; [|done].
        unfold loop_condition in Hc. simpl in Hc. apply Nat.ltb_ge in Hc. lia. }
      rewrite decode_loop_done, add_steps_0 by done. by eexists.
  - destruct (loop_condition m time false) eqn:Hc.
    + apply first_stop_next in Hstop as [Hdf Hnext].
      assert (iterations m (S j) time = S (iterations m j (time + 1))) as Hit.
      { unfold iterations. destruct m as [k|]; [|lia].
        unfold loop_condition in Hc. simpl in Hc. apply Nat.ltb_lt in Hc. lia. }
      rewrite Hit in *. destruct fuel as [|fuel]; [lia|].
      rewrite decode_loop_step by done. rewrite Hdf. simpl orb.
      destruct (force_finished m (time + 1) false) eqn:Hforce.
      * assert (iterations m j (time + 1) = 0%nat) as ->.
        { unfold iterations, force_finished in *. destruct m as [k|]; [|done].
          simpl in Hforce. apply Nat.leb_le in Hforce. lia. }
        rewrite decode_loop_done; [by eexists|].
        unfold loop_condition. by destruct m.
      * destruct (IH fuel (time + 1)%nat
                    (outs ++ [fst (fst (fst (decoder_step C d time inp st)))])
                    _ _ (add_steps 1 s) Hnext) as [r E]; [lia|].
        exists r. rewrite E, add_steps_add. do 2 f_equal. lia.
    + assert (iterations m (S j) time = 0%nat) as ->.
      { unfold iterations. destruct m as [k|]; [|done].
        unfold loop_condition in Hc. simpl in Hc. apply Nat.ltb_ge in Hc. lia. }
      rewrite decode_loop_done, add_steps_0 by done. by eexists.
Qed.

Lemma demo_finishing_stops j : stops_at (demo_finishing j) j.
Proof.
  intros d. split; [reflexivity|]. split.
  - intros i Hi. unfold stop_fires. simpl. apply Nat.leb_gt. lia.
  - unfold stop_fires. simpl. apply Nat.leb_le. lia.
Qed.

(** X11. In training and in evaluation, when the stop condition of the
    decoder first fires in its step number [j] (counting from 0) and the
    fuel allows [j + 1] steps, [initialize] returns after exactly [j + 1]
    decoder steps, whatever [max_iters] is. *)
Theorem initialize_training_stops
    (C : Collaborators) (fuel : nat) (a : init_args) (s : state) (j : nat) :
  (is_training a || is_evaluating a)%bool = true ->
  passes_checks (_hparams s) a = true ->
  is_None (lf0_targets a) = false ->
  is_None (mgc_targets a) = false ->
  is_None (bap_targets a) = false ->
  stops_at C j ->
  (j < fuel)%nat ->
  exists s',
    initialize C fuel a s = (Ok tt, s') /\
    steps s' = (steps s + (j + 1))%nat.
Proof.
  intros Hte Hc Hl Hm Hb Hstop Hfuel. split_checks Hc.
  apply negb_true_iff in Hc, Hc2, Hc3, Hc4, Hc5.
  unfold initialize. exec1. rewrite Hc, Hc5, Hc4, Hc3, Hc2. exec.
  rewrite Hc1. exec.
  destruct (_ && is_training a)%bool eqn:Hsched;
    try rewrite Hc0; exec; rewrite Hte; tidy; exec;
    unfold dynamic_decode;
    match goal with |- context [decoder_initialize C ?d] =>
      destruct (Hstop d) as [Hfin0 Hfirst];
      destruct (decoder_initialize C d) as [[fin0 inp0] st0] eqn:Hinit
    end;
    simpl in Hfin0, Hfirst; subst fin0; cbn [force_finished]; exec;
    match goal with
    | |- context [bind (decode_loop C fuel ?d None ?t ?o ?st ?i false) ?k ?s0] =>
        destruct (decode_loop_first_stop C d None j fuel t o st i s0 Hfirst)
          as [r E]; [simpl; lia|];
        rewrite (bind_ok _ k s0 _ _ E)
    end;
    unfold add_steps, iterations; tidy;
    destruct (is_training a); exec;
    (eexists; split; [reflexivity|]); unfold steps; tidy; lia.
Qed.

Lemma initialize_training_stops_witness :
  exists s',
    initialize (demo_finishing 4) 5 (demo_args true true true false true)
      (demo_fresh false)
    = (Ok tt, s') /\
    steps s' = (steps (demo_fresh false) + (4 + 1))%nat.
Proof.
  apply (initialize_training_stops (demo_finishing 4) 5
           (demo_args true true true false true) (demo_fresh false) 4);
    [reflexivity | reflexivity | reflexivity | reflexivity | reflexivity
    | exact (demo_finishing_stops 4) | lia].
Defined.

(** X12. In free synthesis, when the stop condition of the decoder first
    fires in its step number [j] and the fuel suffices, [initialize]
    returns after exactly [min (j + 1) max_iters] decoder steps: the stop
    condition ends decoding before the cap is reached, and the cap ends
    it otherwise. *)
Theorem initialize_synthesis_stops
    (C : Collaborators) (fuel : nat) (a : init_args) (s : state) (j : nat) :
  is_training a = false -> is_evaluating a = false -> gta a = false ->
  passes_checks (_hparams s) a = true ->
  stops_at C j ->
  (Nat.min (j + 1) (max_iters (_hparams s)) <= fuel)%nat ->
  exists s',
    initialize C fuel a s = (Ok tt, s') /\
    steps s' = (steps s + Nat.min (j + 1) (max_iters (_hparams s)))%nat.
Proof.
  intros Ht He Hg Hc Hstop Hfuel. split_checks Hc.
  apply negb_true_iff in Hc, Hc2, Hc3, Hc4, Hc5.
  unfold initialize. exec1. rewrite Hc, Hc5, Hc4, Hc3, Hc2. exec.
  rewrite Hc1. exec. rewrite Ht, andb_false_r. exec.
  rewrite He, Hg. tidy. exec.
  unfold dynamic_decode.
  match goal with |- context [decoder_initialize C ?d] =>
    destruct (Hstop d) as [Hfin0 Hfirst];
    destruct (decoder_initialize C d) as [[fin0 inp0] st0] eqn:Hinit end.
  simpl in Hfin0, Hfirst. subst fin0. exec.
  destruct (max_iters (_hparams s)) as [|k] eqn:Hk.
  - cbn [force_finished Nat.leb orb].
    match goal with
    | |- context [bind (decode_loop C fuel ?d ?m ?t ?o ?st ?i true) ?k ?s0] =>
        rewrite (bind_ok _ k s0 _ _
                   (decode_loop_done C fuel d m t o st i true s0 eq_refl))
    end.
    tidy. exec. eexists. split; [reflexivity|]. unfold steps. tidy. lia.
  - replace (force_finished (Some (S k)) 0 false) with false by reflexivity.
    match goal with
    | |- context [bind (decode_loop C fuel ?d ?m ?t ?o ?st ?i false) ?k ?s0] =>
        destruct (decode_loop_first_stop C d m j fuel t o st i s0 Hfirst)
          as [r E]; [simpl; lia|];
        rewrite (bind_ok _ k s0 _ _ E)
    end.
    unfold add_steps, iterations. tidy. exec.
    eexists. split; [reflexivity|]. unfold steps. tidy. lia.
Qed.

Lemma initialize_synthesis_stops_witness :
  exists s',
    initialize (demo_finishing 0) 1 (demo_args false false false false false)
      (demo_fresh false)
    = (Ok tt, s') /\
    steps s' = (steps (demo_fresh false)
                + Nat.min (0 + 1) (max_iters (_hparams (demo_fresh false))))%nat.
Proof.
  apply (initialize_synthesis_stops (demo_finishing 0) 1
           (demo_args false false false false false) (demo_fresh false) 0);
    [reflexivity | reflexivity | reflexivity | reflexivity
    | exact (demo_finishing_stops 0) | simpl; lia].
Defined.

(** ** What the loss and the optimizer leave alone *)

Lemma frame_refl fields s : frame_respected fields s s.
Proof. by repeat split. Qed.

Lemma frame_trans fields s1 s2 s3 :
  frame_respected fields s1 s2 -> frame_respected fields s2 s3 ->
  frame_respected fields s1 s3.
Proof.
  intros (H1 & H2 & H3 & H4 & H5) (G1 & G2 & G3 & G4 & G5).
  repeat split; try congruence.
  intros name Hn. rewrite G5, H5; done.
Qed.

Lemma frames_ret {A} fields (a : A) : frames fields (ret a).
Proof. intros s. apply frame_refl. Qed.

Lemma frames_raise {A} fields e : frames fields (@raise A e).
Proof. intros s. apply frame_refl. Qed.

Lemma frames_bind {A B} fields (c : M A) (k : A -> M B) :
  frames fields c -> (forall a, frames fields (k a)) -> frames fields (bind c k).
Proof.
  intros Hc Hk s. unfold bind. specialize (Hc s).
  destruct (c s) as [[a|e] s1]; cbn [snd] in *; [|done].
  eapply frame_trans; [exact Hc | apply Hk].
Qed.

Lemma frames_hparams fields : frames fields hparams.
Proof. intros s. apply frame_refl. Qed.

Lemma frames_get_graph fields : frames fields get_graph.
Proof. intros s. apply frame_refl. Qed.

Lemma frames_getattr fields name : frames fields (getattr name).
Proof. intros s. unfold getattr. destruct (attrs s !! name); apply frame_refl. Qed.

Lemma frames_setattr fields name v :
  In name fields -> frames fields (setattr name v).
Proof.
  intros Hin s. repeat split. intros name' Hn. cbn [setattr snd attrs].
  apply lookup_insert_ne. by intros <-.
Qed.

Lemma frames_as_float fields v : frames fields (as_float v).
Proof. intros s. destruct v; apply frame_refl. Qed.

Lemma frames_as_int fields v : frames fields (as_int v).
Proof. intros s. destruct v; apply frame_refl. Qed.

Lemma frames_as_tf_float fields v : frames fields (as_tf_float v).
Proof. intros s. destruct v; apply frame_refl. Qed.

Lemma frames_tensor_arg fields op v : frames fields (tensor_arg op v).
Proof. intros s. unfold tensor_arg. destruct (is_None v); apply frame_refl. Qed.

Lemma frames_tf_expand_dims fields v axis : frames fields (tf_expand_dims v axis).
Proof.
  apply frames_bind; [apply frames_tensor_arg | intros t; apply frames_ret].
Qed.

Lemma frames_tf_concat fields values axis : frames fields (tf_concat values axis).
Proof.
  intros s. unfold tf_concat. destruct (existsb is_None values); apply frame_refl.
Qed.

Lemma frames_tf_add_n fields l : frames fields (tf_add_n l).
Proof. intros s. destruct l; apply frame_refl. Qed.

Lemma frames_local {A} fields name (v : option A) : frames fields (local name v).
Proof. intros s. destruct v; apply frame_refl. Qed.

Lemma frames_compute_gradients fields optimizer loss :
  frames fields (compute_gradients optimizer loss).
Proof.
  intros s. unfold compute_gradients, bind, get_graph.
  destruct (trainable_variables (graph s)); apply frame_refl.
Qed.

Lemma frames_get_collection fields : frames fields get_collection_UPDATE_OPS.
Proof. intros s. apply frame_refl. Qed.

(** Building an operation adds to the recorded operations only. *)
Lemma frames_create_op fields name : frames fields (create_op name).
Proof. intros s. by repeat split. Qed.

(** A control-dependency context is closed again when its body ends,
    with a result or with an exception. *)
Lemma frames_with_control_dependencies {A} fields deps (body : M A) :
  frames fields body -> frames fields (with_control_dependencies deps body).
Proof.
  intros Hbody s.
  cbv [with_control_dependencies bind push_control get_graph put_graph].
  match goal with |- context [body ?s1] =>
    specialize (Hbody s1); destruct (body s1) as [[a|e] s2]
  end;
    destruct Hbody as (H1 & H2 & H3 & H4 & H5);
    cbn [_hparams attrs graph trainable_variables UPDATE_OPS control_stack snd] in *;
    cbv [bind pop_control get_graph put_graph ret raise];
    cbn [_hparams attrs graph trainable_variables UPDATE_OPS control_stack
         fst snd];
    repeat split; try done; by rewrite H4.
Qed.

Lemma frames_learning_rate_decay fields init_lr step :
  frames fields (_learning_rate_decay init_lr step).
Proof.
  unfold _learning_rate_decay.
  apply frames_bind; [apply frames_hparams | intros hp].
  apply frames_bind; [apply frames_getattr | intros ds].
  apply frames_bind; [apply frames_as_int | intros decay_steps].
  apply frames_bind; [apply frames_getattr | intros dr].
  apply frames_bind; [apply frames_as_float | intros decay_rate].
  apply frames_ret.
Qed.

Ltac frame_step :=
  first
    [ apply frames_ret
    | apply frames_raise
    | apply frames_hparams
    | apply frames_get_graph
    | apply frames_getattr
    | apply frames_setattr; simpl; tauto
    | apply frames_as_float
    | apply frames_as_int
    | apply frames_as_tf_float
    | apply frames_tensor_arg
    | apply frames_tf_expand_dims
    | apply frames_tf_concat
    | apply frames_tf_add_n
    | apply frames_local
    | apply frames_compute_gradients
    | apply frames_get_collection
    | apply frames_create_op
    | apply frames_with_control_dependencies
    | apply frames_learning_rate_decay
    | apply frames_bind; [|intros ?]
    | match goal with |- frames _ (if ?b then _ else _) => destruct b end
    | progress cbv zeta ].

(** X13. However [add_loss] ends, in either branch, with a result or with
    an exception, it keeps the hyperparameters of the object, the
    trainable variables, the collection of update operations and the open
    control-dependency contexts, and every attribute other than the
    seven it assigns. *)
Theorem add_loss_frame (C : Collaborators) (s : state) :
  frame_respected loss_fields s (snd (add_loss C s)).
Proof.
  revert s. change (frames loss_fields (add_loss C)).
  unfold add_loss, loss_fields. repeat frame_step.
Qed.

(** ** The loss without length-masking *)

Lemma add_loss_unmasked_state C s lf0 mgc bap al dout fout stt sto :
  mask_decoder (_hparams s) = false ->
  tensor_attr s "lf0_targets" lf0 ->
  tensor_attr s "mgc_targets" mgc ->
  tensor_attr s "bap_targets" bap ->
  tensor_attr s "alignments" al ->
  tensor_attr s "decoder_outputs" dout ->
  tensor_attr s "final_outputs" fout ->
  tensor_attr s "stop_token_targets" stt ->
  tensor_attr s "stop_token_outputs" sto ->
  regularized (graph s) <> [] ->
  let world := world_targets_of lf0 mgc bap in
  let before := reduce_mean_abs_diff C world dout in
  let after := reduce_mean_abs_diff C world fout in
  let stop := reduce_mean_sigmoid_cross_entropy C stt sto in
  let reg := regularization_of C s in
  let att := guided_attention_loss C (max_text_length (_hparams s))
               (max_frame_num (_hparams s)) (entries C al) in
  add_loss C s
  = (Ok tt,
     {| _hparams := _hparams s;
        attrs := <["loss" := of_float (tf_add (Finite (before + after + stop + reg))
                                         att)]>
                 (<["attention_loss" := of_float att]>
                 (<["regularization_loss" := PFloat reg]>
                 (<["stop_token_loss" := PFloat stop]>
                 (<["after_loss" := PFloat after]>
                 (<["before_loss" := PFloat before]>
                 (<["world_targets" := world]> (attrs s)))))));
        graph := graph s |}).
Proof.
  intros Hm [Hl Hln] [Hg Hgn] [Hb Hbn] [Ha Han] [Hdo Hdon] [Hfo Hfon]
    [Hstt Hsttn] [Hsto Hston] Hreg. simpl.
  unfold add_loss. exec1. rewrite Hm. exec.
  unfold regularization_of.
  fold (regularized (graph s)).
  destruct (regularized (graph s)) eqn:E; [done|]. exec.
  destruct s as [hp at_ g]. reflexivity.
Qed.

Lemma demo_regularized mask : regularized (graph (demo_initialized mask)) <> [].
Proof. vm_compute. discriminate. Qed.

(** X14. [add_loss] on an object on which [initialize] has not stored
    the pitch targets raises [AttributeError] at its first statement and
    changes nothing. *)
Theorem add_loss_requires_initialize (C : Collaborators) (s : state) :
  attrs s !! "lf0_targets" = None ->
  add_loss C s = (Raise (AttributeError "lf0_targets"), s).
Proof. intros H. unfold add_loss. exec. reflexivity. Qed.

Lemma add_loss_requires_initialize_witness :
  add_loss demo_collaborators (demo_fresh false)
  = (Raise (AttributeError "lf0_targets"), demo_fresh false).
Proof.
  apply (add_loss_requires_initialize demo_collaborators (demo_fresh false)).
  reflexivity.
Defined.

(** X15. When one of the three stored targets is [None], [add_loss]
    fails inside TensorFlow while it builds the concatenated targets,
    before it has set a field. *)
Theorem add_loss_absent_target
    (C : Collaborators) (s : state) (lf0 mgc bap : pyval) :
  attrs s !! "lf0_targets" = Some lf0 ->
  attrs s !! "mgc_targets" = Some mgc ->
  attrs s !! "bap_targets" = Some bap ->
  (is_None lf0 || is_None mgc || is_None bap)%bool = true ->
  exists msg, add_loss C s = (Raise (TFError msg), s).
Proof.
  intros Hl Hm Hb Hn. unfold add_loss. exec1.
  destruct (is_None lf0) eqn:El; exec; [by eexists|].
  destruct (is_None mgc) eqn:Em; [exec; by eexists|].
  destruct (is_None bap) eqn:Eb; [exec; by eexists|]. done.
Qed.

Lemma add_loss_absent_target_witness :
  exists msg,
    add_loss demo_collaborators demo_synthesized
    = (Raise (TFError msg), demo_synthesized).
Proof.
  apply (add_loss_absent_target demo_collaborators demo_synthesized
           PNone PNone PNone);
    vm_compute; reflexivity.
Defined.

Lemma regularized_skip_bias l1 l2 name v g :
  (contains "bias" name || contains "Bias" name)%bool = true ->
  trainable_variables g = l1 ++ (name, v) :: l2 ->
  regularized g
  = filter (fun v => negb (contains "bias" (fst v) || contains "Bias" (fst v)))
      (l1 ++ l2).
Proof.
  intros Hb E. unfold regularized. rewrite E, !filter_app. f_equal.
  rewrite filter_cons_False; [done|]. simpl. rewrite Hb. simpl. tauto.
Qed.

(** X16. A trainable variable whose name contains 'bias' or 'Bias' does
    not enter the loss: with such a variable added anywhere among the
    trainable variables, [add_loss] returns as without it and stores the
    same seven fields. *)
Theorem add_loss_ignores_bias_variables
    (C : Collaborators) (s : state) (lf0 mgc bap al dout fout stt sto : pyval)
    (l1 l2 : list (string * pyval)) (name : string) (v : pyval) :
  mask_decoder (_hparams s) = false ->
  tensor_attr s "lf0_targets" lf0 ->
  tensor_attr s "mgc_targets" mgc ->
  tensor_attr s "bap_targets" bap ->
  tensor_attr s "alignments" al ->
  tensor_attr s "decoder_outputs" dout ->
  tensor_attr s "final_outputs" fout ->
  tensor_attr s "stop_token_targets" stt ->
  tensor_attr s "stop_token_outputs" sto ->
  trainable_variables (graph s) = l1 ++ l2 ->
  regularized (graph s) <> [] ->
  (contains "bias" name || contains "Bias" name)%bool = true ->
  fst (add_loss C (with_variables (l1 ++ (name, v) :: l2) s)) = Ok tt /\
  fst (add_loss C s) = Ok tt /\
  attrs (snd (add_loss C (with_variables (l1 ++ (name, v) :: l2) s)))
  = attrs (snd (add_loss C s)).
Proof.
  intros Hm Hl Hg Hb Ha Hdo Hfo Hstt Hsto Hvars Hreg Hbias.
  assert (regularized (graph (with_variables (l1 ++ (name, v) :: l2) s))
          = regularized (graph s)) as Hsame.
  { rewrite (regularized_skip_bias l1 l2 name v) by done.
    unfold regularized. by rewrite Hvars. }
  rewrite (add_loss_unmasked_state C s lf0 mgc bap al dout fout stt sto) by done.
  rewrite (add_loss_unmasked_state C (with_variables (l1 ++ (name, v) :: l2) s)
             lf0 mgc bap al dout fout stt sto); try done.
  - cbn [fst snd attrs]. unfold regularization_of. rewrite Hsame. done.
  - by rewrite Hsame.
Qed.

Lemma add_loss_ignores_bias_variables_witness :
  fst (add_loss demo_collaborators
         (with_variables
            ([("inference/inputs_embedding:0", PFeed "embedding")]
             ++ ("decoder/dense/bias:0", PFeed "bias") :: [])
            (demo_initialized false))) = Ok tt /\
  fst (add_loss demo_collaborators (demo_initialized false)) = Ok tt /\
  attrs (snd (add_loss demo_collaborators
                (with_variables
                   ([("inference/inputs_embedding:0", PFeed "embedding")]
                    ++ ("decoder/dense/bias:0", PFeed "bias") :: [])
                   (demo_initialized false))))
  = attrs (snd (add_loss demo_collaborators (demo_initialized false))).
Proof.
  apply (add_loss_ignores_bias_variables demo_collaborators (demo_initialized false)
           (PFeed "lf0_targets") (PFeed "mgc_targets") (PFeed "bap_targets")
           (PFeed "alignments") (PFeed "decoder_outputs") (PFeed "final_outputs")
           (PFeed "stop_token_targets") (PFeed "stop_token_outputs")
           [("inference/inputs_embedding:0", PFeed "embedding")] []
           "decoder/dense/bias:0" (PFeed "bias"));
    try reflexivity; try (split; reflexivity).
  exact (demo_regularized false).
Defined.

(** X17. Without length-masking, when every trainable variable is a
    bias (or there is none), [add_loss] raises the [ValueError] of
    [tf.add_n] on an empty list: the concatenated targets are stored, the
    loss and its terms are not. *)
Theorem add_loss_nothing_to_regularize
    (C : Collaborators) (s : state) (lf0 mgc bap al dout fout stt sto : pyval) :
  mask_decoder (_hparams s) = false ->
  tensor_attr s "lf0_targets" lf0 ->
  tensor_attr s "mgc_targets" mgc ->
  tensor_attr s "bap_targets" bap ->
  tensor_attr s "alignments" al ->
  tensor_attr s "decoder_outputs" dout ->
  tensor_attr s "final_outputs" fout ->
  tensor_attr s "stop_token_targets" stt ->
  tensor_attr s "stop_token_outputs" sto ->
  regularized (graph s) = [] ->
  exists msg s',
    add_loss C s = (Raise (ValueError msg), s') /\
    attrs s' !! "world_targets" = Some (world_targets_of lf0 mgc bap) /\
    (forall name, name <> "world_targets" -> attrs s' !! name = attrs s !! name).
Proof.
  intros Hm [Hl Hln] [Hg Hgn] [Hb Hbn] [Ha Han] [Hdo Hdon] [Hfo Hfon]
    [Hstt Hsttn] [Hsto Hston] Hreg.
  unfold add_loss. exec1. rewrite Hm. exec.
  fold (regularized (graph s)). rewrite Hreg. exec.
  eexists _, _. split; [reflexivity|]. cbn [attrs].
  split; [apply lookup_insert_eq|].
  intros name Hn. by rewrite lookup_insert_ne.
Qed.

Lemma add_loss_nothing_to_regularize_witness :
  exists msg s',
    add_loss demo_collaborators
      (with_variables [("decoder/dense/bias:0", PFeed "bias")]
         (demo_initialized false))
    = (Raise (ValueError msg), s') /\
    attrs s' !! "world_targets"
    = Some (world_targets_of (PFeed "lf0_targets") (PFeed "mgc_targets")
              (PFeed "bap_targets")) /\
    (forall name, name <> "world_targets" ->
       attrs s' !! name
       = attrs (with_variables [("decoder/dense/bias:0", PFeed "bias")]
                  (demo_initialized false)) !! name).
Proof.
  apply (add_loss_nothing_to_regularize demo_collaborators
           (with_variables [("decoder/dense/bias:0", PFeed "bias")]
              (demo_initialized false))
           (PFeed "lf0_targets") (PFeed "mgc_targets") (PFeed "bap_targets")
           (PFeed "alignments") (PFeed "decoder_outputs") (PFeed "final_outputs")
           (PFeed "stop_token_targets") (PFeed "stop_token_outputs"));
    try reflexivity; split; reflexivity.
Defined.

(** ** The guided-attention template *)

(** X18. Padding the alignments by [N] and [T] and cutting them to the
    first [N] rows and [T] columns gives a tensor of shape
    [batch, N, T], whatever the shape of the alignments (ragged ones
    included): it fits the [N] by [T] penalty matrix. *)
Theorem template_shape (al : list (list (list R))) (N T : nat) (c : R) :
  has_shape (slice3 (tf_pad al N T c) N T) (length al) N T.
Proof.
  unfold has_shape, slice3, tf_pad. rewrite !length_map. split; [done|].
  rewrite !Forall_map. apply Forall_forall. intros mat _. split.
  - rewrite length_map, length_take, length_app, length_map, repeat_length. lia.
  - rewrite Forall_map. apply Forall_take, Forall_app. split.
    + rewrite Forall_map. apply Forall_forall. intros row _. simpl.
      rewrite length_take, length_app, repeat_length. lia.
    + apply Forall_forall. intros row Hrow. apply list_elem_of_In, repeat_spec in Hrow.
      subst row. simpl. rewrite length_take, repeat_length. lia.
Qed.

Lemma firstn_pad_firstn (c : R) (row : list R) T P :
  firstn T (firstn T row ++ repeat c P) = firstn T (row ++ repeat c P).
Proof.
  revert T. induction row as [|x row IH]; intros [|T]; simpl; try done.
  by rewrite IH.
Qed.

Lemma slice_pad_rows (c : R) T (pad1 pad2 : list R) Q (mat : list (list R)) :
  firstn T pad1 = firstn T pad2 ->
  forall N,
    map (firstn T)
      (firstn N (map (fun row => row ++ repeat c T) (map (firstn T) (firstn N mat))
                 ++ repeat pad2 Q))
    = map (firstn T)
        (firstn N (map (fun row => row ++ repeat c T) mat ++ repeat pad1 Q)).
Proof.
  intros Hpad. induction mat as [|row mat IH]; intros N.
  - rewrite firstn_nil. simpl. rewrite !firstn_repeat, !map_repeat. by rewrite Hpad.
  - destruct N as [|N]; [done|]. simpl. rewrite firstn_pad_firstn. f_equal.
    apply IH.
Qed.

Lemma template_of_slice (al : list (list (list R))) (N T : nat) (c : R) :
  slice3 (tf_pad (slice3 al N T) N T c) N T = slice3 (tf_pad al N T c) N T.
Proof.
  unfold slice3, tf_pad. rewrite !map_map. apply map_ext. intros mat.
  apply slice_pad_rows. rewrite !firstn_repeat. f_equal. lia.
Qed.

(** X19. Alignment entries beyond text position [N] or frame [T] do not
    enter the guided-attention loss: it is the same on the alignments cut
    to [N] by [T]. *)
Theorem guided_attention_ignores_overflow
    (C : Collaborators) (N T : nat) (al : list (list (list R))) :
  guided_attention_loss C N T (slice3 al N T) = guided_attention_loss C N T al.
Proof.
  unfold guided_attention_loss. by rewrite template_of_slice.
Qed.

Lemma row_weighted_bounds (B : R) (f : nat -> R) (row : list R) :
  (forall j, Rabs (f j) <= B) ->
  Forall (fun x => 0 <= x <= 1) row ->
  0 <= sum_list (imap (fun j x => x * Rabs (f j)) row) <= B * INR (length row).
Proof.
  intros Hf Hrow. revert f Hf.
  induction Hrow as [|x row Hx Hrow IH]; intros f Hf.
  - simpl. lra.
  - rewrite imap_cons. change (length (x :: row)) with (S (length row)).
    rewrite S_INR. simpl sum_list.
    specialize (IH (f ∘ S) (fun j => Hf (S j))).
    unfold compose in *. cbv beta in *.
    pose proof (Hf O). pose proof (Rabs_pos (f O)). nra.
Qed.

Lemma mat_weighted_bounds (B : R) (g : nat -> nat -> R) (mat : list (list R)) :
  (forall i j, Rabs (g i j) <= B) ->
  Forall (Forall (fun x => 0 <= x <= 1)) mat ->
  0 <= weighted_entries g mat <= B * INR (length (concat mat)).
Proof.
  intros Hg Hmat. revert g Hg. unfold weighted_entries.
  induction Hmat as [|row mat Hrow Hmat IH]; intros g Hg.
  - simpl. lra.
  - rewrite imap_cons. simpl concat. rewrite length_app, plus_INR. simpl sum_list.
    specialize (IH (g ∘ S) (fun i j => Hg (S i) j)).
    pose proof (row_weighted_bounds B (g O) row (Hg O) Hrow).
    unfold compose in *. cbv beta in *. lra.
Qed.

Lemma probabilities_slice al N T :
  probabilities al -> probabilities (slice3 al N T).
Proof.
  unfold probabilities, slice3. intros H. rewrite Forall_map.
  eapply Forall_impl; [exact H|]. intros mat Hmat. simpl.
  rewrite Forall_map. apply Forall_take.
  eapply Forall_impl; [exact Hmat|]. intros row Hrow. simpl.
  by apply Forall_take.
Qed.

(** X20. For alignments that are probabilities, with an entry inside the
    [N] by [T] template, the guided-attention loss is a real number that
    lies between 0 and any bound on the absolute penalties. *)
Theorem guided_attention_loss_bounds
    (C : Collaborators) (N T : nat) (al : list (list (list R))) (B : R) :
  probabilities al ->
  (forall i j, Rabs (GuidedAttention C N T i j) <= B) ->
  (0 < length (concat (concat (slice3 al N T))))%nat ->
  exists loss,
    guided_attention_loss C N T al = Finite loss /\ 0 <= loss <= B.
Proof.
  intros Hal Hg Hcount. rewrite guided_attention_loss_slices by done.
  pose proof (probabilities_slice al N T Hal) as Hv.
  set (valid := slice3 al N T) in *.
  assert (0 < INR (length (concat (concat valid)))) as Hpos
    by (apply lt_0_INR; lia).
  rewrite tf_div_finite by lra. eexists. split; [reflexivity|].
  assert (0 <= sum_list (map (weighted_entries (GuidedAttention C N T)) valid)
          <= B * INR (length (concat (concat valid)))) as Hsum.
  { clear Hcount Hpos. induction Hv as [|mat v Hmat Hv IH].
    - simpl. lra.
    - simpl. rewrite concat_app, length_app, plus_INR.
      pose proof (mat_weighted_bounds B _ mat Hg Hmat). lra. }
  split.
  - apply Rmult_le_pos; [lra|]. left. by apply Rinv_0_lt_compat.
  - apply Rmult_le_reg_r with (INR (length (concat (concat valid)))); [done|].
    unfold Rdiv. rewrite Rmult_assoc, Rinv_l by lra. lra.
Qed.

Lemma guided_attention_loss_bounds_witness :
  exists loss,
    guided_attention_loss demo_collaborators 2 2 demo_alignments = Finite loss /\
    0 <= loss <= 1.
Proof.
  apply (guided_attention_loss_bounds demo_collaborators 2 2 demo_alignments 1).
  - exact demo_alignments_probabilities.
  - intros i j. simpl. rewrite Rabs_R1. lra.
  - simpl. lia.
Defined.

(** ** The three methods in sequence *)

(** X21. An object built without pitch targets (free synthesis) has no
    loss: [add_loss] after [initialize] fails inside TensorFlow on the
    absent targets and changes nothing. *)
Theorem synthesis_model_has_no_loss
    (C : Collaborators) (fuel : nat) (a : init_args) (s s' : state) :
  initialize C fuel a s = (Ok tt, s') ->
  is_None (lf0_targets a) = true ->
  add_loss C s'
  = (Raise (TFError "tf.expand_dims: None values not supported"), s').
Proof.
  intros H Hn. apply initialize_ok_post in H as (_ & _ & Hp).
  destruct Hp as (_ & _ & _ & _ & _ & Hl & _).
  unfold add_loss. exec. reflexivity.
Qed.

Lemma synthesis_model_has_no_loss_witness :
  add_loss (demo_finishing 0) demo_synthesized
  = (Raise (TFError "tf.expand_dims: None values not supported"), demo_synthesized).
Proof.
  apply (synthesis_model_has_no_loss (demo_finishing 0) 1
           (demo_args false false false false false) (demo_fresh false)
           demo_synthesized).
  - exact demo_synthesized_built.
  - reflexivity.
Defined.

(** X22. After a call of [initialize] for training or evaluation that
    returns, on an object without length-masking, [add_loss] and then
    [add_optimizer] both return: the object holds a total loss, which
    [add_optimizer] keeps, and the training operation.  The total is the
    sum, as floats, of a real number and the guided-attention term of the
    stored alignments: a real number whenever that term is one. *)
Theorem training_pipeline_builds
    (C : Collaborators) (fuel : nat) (a : init_args) (s s1 : state) (step : Z) :
  initialize C fuel a s = (Ok tt, s1) ->
  (is_training a || is_evaluating a)%bool = true ->
  mask_decoder (_hparams s) = false ->
  exists s2 s3 al base total,
    attrs s1 !! "alignments" = Some al /\
    total = tf_add (Finite base)
              (guided_attention_loss C (max_text_length (_hparams s))
                 (max_frame_num (_hparams s)) (entries C al)) /\
    add_loss C s1 = (Ok tt, s2) /\
    attrs s2 !! "loss" = Some (of_float total) /\
    add_optimizer step s2 = (Ok tt, s3) /\
    attrs s3 !! "loss" = Some (of_float total) /\
    attrs s3 !! "optimize" = Some (POp apply_gradients_op).
Proof.
  intros H Hte Hm.
  pose proof (initialize_ok_post C fuel a s s1 H) as (Hhp & Hgr & Hp).
  destruct Hp as (_ & _ & [emb Hemb] & _ & _ & Hl & Hg & Hb & Hstt & _ & Hout & _
                  & Htargets & _).
  destruct (Htargets Hte) as (_ & Hln & Hgn & Hbn & Hsn).
  destruct (Hout "alignments") as [al Hal]; [simpl; tauto|].
  destruct (Hout "decoder_outputs") as [dout Hdout]; [simpl; tauto|].
  destruct (Hout "final_outputs") as [fout Hfout]; [simpl; tauto|].
  destruct (Hout "stop_token_outputs") as [sto Hsto]; [simpl; tauto|].
  assert (regularized (graph s1) <> []) as Hreg.
  { intros E. eapply filter_nil_not_elem_of; [exact E | | apply list_elem_of_In, Hemb].
    simpl. done. }
  assert (mask_decoder (_hparams s1) = false) as Hm1 by (by rewrite Hhp).
  pose proof (add_loss_unmasked_state C s1 (lf0_targets a) (mgc_targets a)
                (bap_targets a) al dout fout (stop_token_targets a) sto
                Hm1 (conj Hl Hln) (conj Hg Hgn) (conj Hb Hbn) Hal Hdout Hfout
                (conj Hstt Hsn) Hsto Hreg) as E2.
  cbv zeta in E2. rewrite Hhp in E2.
  eexists _, _, al, _, _. split; [exact (proj1 Hal)|].
  split; [reflexivity|]. split; [exact E2|].
  split; [cbn [attrs]; apply lookup_insert_eq|].
  rewrite (add_optimizer_state step _ _ (lookup_insert_eq _ _ _)).
  - split; [reflexivity|]. cbn [attrs]. split; [|lookup_attr].
    rewrite !lookup_insert_ne by discriminate.
    unfold rate_attributes. cbn [attrs _hparams].
    destruct (tacotron_decay_learning_rate (_hparams s));
      rewrite !lookup_insert_ne by discriminate; apply lookup_insert_eq.
  - cbn [graph]. intros E. rewrite E in Hemb. destruct Hemb.
Qed.

Lemma training_pipeline_builds_witness :
  exists s2 s3 al base total,
    attrs (demo_trained false) !! "alignments" = Some al /\
    total = tf_add (Finite base)
              (guided_attention_loss (demo_finishing 0)
                 (max_text_length (_hparams (demo_fresh false)))
                 (max_frame_num (_hparams (demo_fresh false)))
                 (entries (demo_finishing 0) al)) /\
    add_loss (demo_finishing 0) (demo_trained false) = (Ok tt, s2) /\
    attrs s2 !! "loss" = Some (of_float total) /\
    add_optimizer 7 s2 = (Ok tt, s3) /\
    attrs s3 !! "loss" = Some (of_float total) /\
    attrs s3 !! "optimize" = Some (POp apply_gradients_op).
Proof.
  apply (training_pipeline_builds (demo_finishing 0) 1
           (demo_args true true true false true) (demo_fresh false)
           (demo_trained false) 7).
  - exact (demo_trained_built false).
  - reflexivity.
  - reflexivity.
Defined.

(** ** The optimizer: failures and what it keeps *)

(** X23. [add_optimizer] on an object without a loss raises
    [AttributeError] when it asks for [self.loss]: the learning rate is
    stored by then, the gradients and the training operation are not. *)
Theorem add_optimizer_requires_loss (step : Z) (s : state) :
  attrs s !! "loss" = None ->
  exists s',
    add_optimizer step s = (Raise (AttributeError "loss"), s') /\
    attrs s' !! "learning_rate" = Some (learning_rate_value (_hparams s) step) /\
    attrs s' !! "gradients" = attrs s !! "gradients" /\
    attrs s' !! "optimize" = attrs s !! "optimize".
Proof.
  intros H. rewrite add_optimizer_without_loss_state by done.
  eexists. split; [reflexivity|]. cbn [attrs]. unfold rate_attributes.
  destruct (tacotron_decay_learning_rate (_hparams s));
    repeat split; try lookup_attr;
    rewrite !lookup_insert_ne by discriminate; reflexivity.
Qed.

Lemma add_optimizer_requires_loss_witness :
  exists s',
    add_optimizer 7 (demo_initialized false) = (Raise (AttributeError "loss"), s') /\
    attrs s' !! "learning_rate"
    = Some (learning_rate_value (_hparams (demo_initialized false)) 7) /\
    attrs s' !! "gradients" = attrs (demo_initialized false) !! "gradients" /\
    attrs s' !! "optimize" = attrs (demo_initialized false) !! "optimize".
Proof.
  apply (add_optimizer_requires_loss 7 (demo_initialized false)).
  reflexivity.
Defined.

(** X24. [add_optimizer] in a graph without trainable variables raises
    the [ValueError] of [compute_gradients]: neither the gradients nor a
    training operation are stored. *)
Theorem add_optimizer_without_variables (step : Z) (s : state) (loss : pyval) :
  attrs s !! "loss" = Some loss ->
  trainable_variables (graph s) = [] ->
  exists s',
    add_optimizer step s = (Raise (ValueError "No variables to optimize."), s') /\
    attrs s' !! "gradients" = attrs s !! "gradients" /\
    attrs s' !! "optimize" = attrs s !! "optimize".
Proof.
  intros Hloss Hvars.
  rewrite (add_optimizer_without_variables_state step s loss) by done.
  eexists. split; [reflexivity|]. cbn [attrs]. unfold rate_attributes.
  destruct (tacotron_decay_learning_rate (_hparams s));
    split; rewrite !lookup_insert_ne by discriminate; reflexivity.
Qed.

Lemma add_optimizer_without_variables_witness :
  exists s',
    add_optimizer 7 (with_variables [] demo_with_loss)
    = (Raise (ValueError "No variables to optimize."), s') /\
    attrs s' !! "gradients" = attrs (with_variables [] demo_with_loss) !! "gradients" /\
    attrs s' !! "optimize" = attrs (with_variables [] demo_with_loss) !! "optimize".
Proof.
  apply (add_optimizer_without_variables 7 (with_variables [] demo_with_loss)
           (PFloat 0));
    reflexivity.
Defined.

(** X25. However [add_optimizer] ends, with a result or with an
    exception, the control-dependency context it opened for the training
    operation is closed again; it keeps the hyperparameters of the
    object, the trainable variables and the collection of update
    operations, and every attribute other than the five it assigns: the
    loss and the other attributes [add_loss] stored stay as they were. *)
Theorem add_optimizer_frame (step : Z) (s : state) :
  frame_respected optimizer_fields s (snd (add_optimizer step s)).
Proof.
  revert s. change (frames optimizer_fields (add_optimizer step)).
  unfold add_optimizer, optimizer_fields. repeat frame_step.
Qed.

(** ** The three phases of the schedule *)

(** X27. Phase 1.  With decay enabled, a decay rate in (0, 1), an
    initial rate that is not negative, a floor not above it and a
    positive decay window, the learning rate is the initial rate at every
    step up to the warmup step whose difference from the warmup step
    fits int32. *)
Theorem learning_rate_before_warmup (s : state) (step : Z) :
  tacotron_decay_learning_rate (_hparams s) = true ->
  0 < tacotron_decay_rate (_hparams s) < 1 ->
  0 <= tacotron_initial_learning_rate (_hparams s) ->
  tacotron_final_learning_rate (_hparams s)
  <= tacotron_initial_learning_rate (_hparams s) ->
  (0 < tacotron_decay_steps (_hparams s))%Z ->
  (step <= tacotron_start_decay (_hparams s))%Z ->
  no_overflow (_hparams s) step ->
  learning_rate s step
  = Some (PFloat (tacotron_initial_learning_rate (_hparams s))).
Proof.
  intros Hon Hd Hi Hf Hds Hstep Hno.
  rewrite learning_rate_decayed by (done || lra || lia).
  do 2 f_equal. unfold decayed_rate, rate_at.
  set (init := tacotron_initial_learning_rate (_hparams s)) in *.
  set (p := IZR (step - tacotron_start_decay (_hparams s))
            / IZR (tacotron_decay_steps (_hparams s))).
  assert (p <= 0) as Hp.
  { unfold p.
    pose proof (quotient_monotone (step - tacotron_start_decay (_hparams s)) 0
                  (tacotron_decay_steps (_hparams s)) ltac:(lia) Hds) as H.
    unfold Rdiv in H at 2. by rewrite Rmult_0_l in H. }
  pose proof (Rpower_ge_1 _ p Hd Hp).
  apply Rmin_right. eapply Rle_trans; [|apply Rmax_l]. nra.
Qed.

Lemma learning_rate_before_warmup_witness :
  learning_rate demo_with_loss (-3) = Some (PFloat 1).
Proof.
  apply (learning_rate_before_warmup demo_with_loss (-3)).
  - reflexivity.
  - simpl. lra.
  - simpl. lra.
  - simpl. lra.
  - simpl. lia.
  - simpl. lia.
  - unfold no_overflow, int32. simpl. lia.
Defined.

(** X28. Phase 2.  Under the same conditions on the rates and the
    window, at a step from the warmup step on whose difference from the
    warmup step fits int32 and at which the exponential is still at or
    above the floor, the learning rate is the exponential itself: the
    initial rate times the decay rate to the power of the steps since
    warmup over the decay window. *)
Theorem learning_rate_while_decaying (s : state) (step : Z) :
  tacotron_decay_learning_rate (_hparams s) = true ->
  0 < tacotron_decay_rate (_hparams s) < 1 ->
  0 <= tacotron_initial_learning_rate (_hparams s) ->
  (0 < tacotron_decay_steps (_hparams s))%Z ->
  (tacotron_start_decay (_hparams s) <= step)%Z ->
  no_overflow (_hparams s) step ->
  tacotron_final_learning_rate (_hparams s)
  <= tacotron_initial_learning_rate (_hparams s)
     * Rpower (tacotron_decay_rate (_hparams s))
         (IZR (step - tacotron_start_decay (_hparams s))
          / IZR (tacotron_decay_steps (_hparams s))) ->
  learning_rate s step
  = Some (PFloat (tacotron_initial_learning_rate (_hparams s)
                  * Rpower (tacotron_decay_rate (_hparams s))
                      (IZR (step - tacotron_start_decay (_hparams s))
                       / IZR (tacotron_decay_steps (_hparams s))))).
Proof.
  intros Hon Hd Hi Hds Hstep Hno Hfloor.
  rewrite learning_rate_decayed by (done || lra || lia).
  do 2 f_equal. unfold decayed_rate, rate_at.
  set (init := tacotron_initial_learning_rate (_hparams s)) in *.
  set (p := IZR (step - tacotron_start_decay (_hparams s))
            / IZR (tacotron_decay_steps (_hparams s))) in *.
  assert (0 <= p) as Hp.
  { unfold p.
    apply (proj1 (quotient_sign (step - tacotron_start_decay (_hparams s))
                    (tacotron_decay_steps (_hparams s)) ltac:(lia)) Hds). }
  pose proof (Rpower_le_1 _ p Hd Hp) as Hle.
  rewrite Rmax_left by done. apply Rmin_left. nra.
Qed.

Lemma learning_rate_while_decaying_witness :
  learning_rate demo_with_loss 2
  = Some (PFloat (1 * Rpower (/ 2) (IZR (2 - 0) / IZR 1))).
Proof.
  apply (learning_rate_while_decaying demo_with_loss 2).
  - reflexivity.
  - simpl. lra.
  - simpl. lra.
  - simpl. lia.
  - simpl. lia.
  - unfold no_overflow, int32. simpl. lia.
  - change (0 <= 1 * Rpower (/ 2) (IZR (2 - 0) / IZR 1)).
    pose proof (Rpower_pos (/ 2) (IZR (2 - 0) / IZR 1)). lra.
Defined.

(** X29. Phase 3.  With decay enabled, a decay rate in (0, 1), a
    positive floor not above the initial rate and a positive decay
    window, the learning rate is the floor itself at every step whose
    difference from the warmup step fits int32 and at which the
    exponential has come down to the floor; and the exponential does come
    down to it: from some step on it is at or below the floor. *)
Theorem learning_rate_at_floor (s : state) :
  tacotron_decay_learning_rate (_hparams s) = true ->
  0 < tacotron_decay_rate (_hparams s) < 1 ->
  0 < tacotron_final_learning_rate (_hparams s)
  <= tacotron_initial_learning_rate (_hparams s) ->
  (0 < tacotron_decay_steps (_hparams s))%Z ->
  (forall step,
     no_overflow (_hparams s) step ->
     tacotron_initial_learning_rate (_hparams s)
     * Rpower (tacotron_decay_rate (_hparams s))
         (IZR (step - tacotron_start_decay (_hparams s))
          / IZR (tacotron_decay_steps (_hparams s)))
     <= tacotron_final_learning_rate (_hparams s) ->
     learning_rate s step
     = Some (PFloat (tacotron_final_learning_rate (_hparams s)))) /\
  (exists N : Z, forall step, (N <= step)%Z ->
     tacotron_initial_learning_rate (_hparams s)
     * Rpower (tacotron_decay_rate (_hparams s))
         (IZR (step - tacotron_start_decay (_hparams s))
          / IZR (tacotron_decay_steps (_hparams s)))
     <= tacotron_final_learning_rate (_hparams s)).
Proof.
  intros Hon Hd Hf Hds. split.
  - intros step Hno Hsmall.
    rewrite learning_rate_decayed by (done || lra || lia).
    do 2 f_equal. unfold decayed_rate, rate_at.
    rewrite Rmax_right by done. apply Rmin_left. lra.
  - set (hp := _hparams s) in *.
    set (init := tacotron_initial_learning_rate hp) in *.
    set (floor := tacotron_final_learning_rate hp) in *.
    set (d := tacotron_decay_rate hp) in *.
    assert (0 < IZR (tacotron_decay_steps hp)) as Hds' by (by apply IZR_lt).
    set (X := ln (floor / init) / ln d).
    exists (tacotron_start_decay hp + up (X * IZR (tacotron_decay_steps hp)))%Z.
    intros step Hstep.
    assert (Rpower d (IZR (step - tacotron_start_decay hp)
                      / IZR (tacotron_decay_steps hp)) < floor / init) as Hp.
    { apply Rpower_small; [done| apply Rdiv_lt_0_compat; lra |].
      fold X.
      assert (X * IZR (tacotron_decay_steps hp)
              < IZR (step - tacotron_start_decay hp)) as H1.
      { destruct (archimed (X * IZR (tacotron_decay_steps hp))) as [Hup _].
        eapply Rlt_le_trans; [apply Hup|]. apply IZR_le. lia. }
      apply Rmult_lt_reg_r with (IZR (tacotron_decay_steps hp)); [done|].
      unfold Rdiv. rewrite Rmult_assoc, Rinv_l by lra. lra. }
    apply (Rmult_lt_compat_l init) in Hp; [|lra].
    replace (init * (floor / init)) with floor in Hp by (field; lra). lra.
Qed.

Lemma learning_rate_at_floor_witness :
  (forall step,
     no_overflow (demo_hparams false true (/ 4) 1) step ->
     1 * Rpower (/ 2) (IZR (step - 0) / IZR 1) <= / 4 ->
     learning_rate (Tacotron (demo_hparams false true (/ 4) 1) demo_graph) step
     = Some (PFloat (/ 4))) /\
  (exists N : Z, forall step, (N <= step)%Z ->
     1 * Rpower (/ 2) (IZR (step - 0) / IZR 1) <= / 4).
Proof.
  apply (learning_rate_at_floor
           (Tacotron (demo_hparams false true (/ 4) 1) demo_graph)).
  - reflexivity.
  - simpl. lra.
  - simpl. lra.
  - simpl. lia.
Defined.

(** X30. With decay enabled, a positive decay rate, a decay window other
    than 0 and a floor above the initial rate, the upper clip wins: the
    learning rate is the initial rate at every step. *)
Theorem learning_rate_floor_above_initial (s : state) (step : Z) :
  tacotron_decay_learning_rate (_hparams s) = true ->
  0 < tacotron_decay_rate (_hparams s) ->
  tacotron_decay_steps (_hparams s) <> 0%Z ->
  tacotron_initial_learning_rate (_hparams s)
  < tacotron_final_learning_rate (_hparams s) ->
  learning_rate s step
  = Some (PFloat (tacotron_initial_learning_rate (_hparams s))).
Proof.
  intros Hon Hd Hds Hlt. rewrite learning_rate_real by done. do 2 f_equal.
  unfold rate_at. apply Rmin_right. eapply Rle_trans; [|apply Rmax_r]. lra.
Qed.

Lemma learning_rate_floor_above_initial_witness :
  learning_rate (Tacotron (demo_hparams false true 2 1) demo_graph) 7
  = Some (PFloat 1).
Proof.
  apply (learning_rate_floor_above_initial
           (Tacotron (demo_hparams false true 2 1) demo_graph) 7).
  - reflexivity.
  - simpl. lra.
  - simpl. lia.
  - simpl. lra.
Defined.
